(** * GRABIT backend: orchestration, routing and broadcast core

    A shallow embedding of the parts of the GRABIT backend that decide how
    work is routed ([yt_process.py], [config.py]), how playlist and batch
    downloads are selected, bounded and aggregated ([download.py],
    [yt_process.py]), how tasks are tracked ([download.py]) and how events
    reach subscribed connections ([websocket.py]).

    Conventions of the embedding:
    - a Python [int] is a [Z]; a [len(...)] is a [nat];
    - [Optional[T]] is [option T], [None] being [None];
    - a [dict] with string keys is a [gmap string _], a [set] is a [gset];
    - a WebSocket object is identified by a number (Python hashes it by
      identity);
    - wall-clock fields ([started_at], [completed_at], [timestamp], ...) are
      left out of the records: no property below depends on them;
    - the values in the data of a message are written as their JSON text;
    - code that may raise returns an [Outcome]. *)

From stdpp Require Import gmap strings list fin_maps pretty.
From Stdlib Require Import ZArith Lia.

(** ** Python values shared by all modules *)

Module Py.

(** An instance of a subclass of [Exception]: [type(e).__name__] and [str(e)]. *)
Record PyException := mkExc { exc_class : string; exc_str : string }.

(** What running a piece of Python yields: a value, or a raised [Exception]. *)
Inductive Outcome (A : Type) : Type :=
| Return (a : A)
| Raise (e : PyException).
Arguments Return {A} a.
Arguments Raise {A} e.

Definition bind {A B} (m : Outcome A) (k : A -> Outcome B) : Outcome B :=
  match m with
  | Return a => k a
  | Raise e => Raise e
  end.

(** [x in [s1, ..., sn]] on strings. *)
Definition str_in (x : string) (l : list string) : bool :=
  existsb (String.eqb x) l.

(** The bound of a slice, as CPython clamps it: a negative bound counts from
    the end, and the result is brought into [0, len]. *)
Definition slice_bound (len : nat) (i : Z) : nat :=
  Z.to_nat (if (i <? 0)%Z then Z.max 0 (i + Z.of_nat len) else Z.min i (Z.of_nat len)).

(** [l[i:]] *)
Definition slice_from {A} (l : list A) (i : Z) : list A :=
  drop (slice_bound (length l) i) l.

(** [l[:j]] *)
Definition slice_to {A} (l : list A) (j : Z) : list A :=
  take (slice_bound (length l) j) l.

(** [x or y] on [Optional[int]]: [None] and [0] are falsy. *)
Definition int_or (x : option Z) (y : Z) : Z :=
  match x with
  | Some n => if (n =? 0)%Z then y else n
  | None => y
  end.

(** [x or y] on [Optional[str]]: [None] and the empty string are falsy. *)
Definition str_or (x : option string) (y : string) : string :=
  match x with
  | Some s => if String.eqb s "" then y else s
  | None => y
  end.

(** A [float] is carried as the text [json.dumps] writes for it: the code
    modelled here stores floats and sends them, and computes with none. *)
Abbreviation float := string (only parsing).

(** The JSON text of an optional value inside the data of a message:
    [null] for [None]. *)
Definition json_opt {A} (text : A -> string) (x : option A) : string :=
  match x with
  | Some a => text a
  | None => "null"
  end.

End Py.

(** ** models.py *)

Module models.

Inductive DownloadStatus :=
| PENDING | EXTRACTING | DOWNLOADING | RENDERING | COMPLETED | FAILED | CANCELLED.

#[global] Instance DownloadStatus_eq_dec : EqDecision DownloadStatus.
Proof. solve_decision. Defined.

(** The string value of the enum member ([DownloadStatus] is a [str] enum). *)
Definition DownloadStatus_value (s : DownloadStatus) : string :=
  match s with
  | PENDING => "pending" | EXTRACTING => "extracting"
  | DOWNLOADING => "downloading" | RENDERING => "rendering"
  | COMPLETED => "completed" | FAILED => "failed" | CANCELLED => "cancelled"
  end.

Module VideoMetadata.
Record t := mk { id : string; title : string; webpage_url : string }.

(** [metadata.dict()], for the fields kept here. *)
Definition dict (v : t) : list (string * string) :=
  [("id", id v); ("title", title v); ("webpage_url", webpage_url v)].
End VideoMetadata.

Module PlaylistMetadata.
Record t := mk { id : string; title : string; videos : list VideoMetadata.t }.
End PlaylistMetadata.

Module DownloadRequest.
Record t := mk {
  url : string;
  quality : Z;
  format : string;
  include_audio : bool;
  include_subtitles : bool;
  subtitle_languages : list string;
  download_thumbnail : bool;
  custom_filename : option string }.
End DownloadRequest.

Module PlaylistRequest.
Record t := mk {
  url : string;
  quality : Z;
  format : string;
  include_audio : bool;
  include_subtitles : bool;
  subtitle_languages : list string;
  download_thumbnail : bool;
  download_all : bool;
  selected_videos : list Z;
  start_index : option Z;
  end_index : option Z;
  max_downloads : option Z }.
End PlaylistRequest.

Module BatchRequest.
Record t := mk {
  urls : list string;
  quality : Z;
  format : string;
  include_audio : bool;
  include_subtitles : bool;
  subtitle_languages : list string;
  download_thumbnail : bool;
  continue_on_error : bool;
  max_concurrent : option Z }.

(** The field constraints pydantic enforces when a [BatchRequest] is built:
    [urls] has 1 to 50 items, each an [HttpUrl] (syntax check [is_http_url],
    pydantic's own), [quality] lies in [144, 2160], [format] is one of three
    names. [max_concurrent: Optional[int] = None] carries no constraint. *)
Definition validate (is_http_url : string -> bool) (r : t) : bool :=
  (1 <=? length (urls r))%nat && (length (urls r) <=? 50)%nat
  && forallb is_http_url (urls r)
  && (144 <=? quality r)%Z && (quality r <=? 2160)%Z
  && Py.str_in (format r) ["mp4"; "webm"; "mkv"].

End BatchRequest.

Module DownloadResult.
Record t := Build {
  task_id : string;
  status : DownloadStatus;
  video_file : option string;
  filesize : option Z;
  download_time : option Py.float;
  error : option string;
  error_type : option string }.

(** [DownloadResult(task_id=..., status=..., video_file=..., filesize=...,
    error=..., error_type=...)]: [download_time] is not given and keeps its
    default, [None]. *)
Definition mk (task_id : string) (status : DownloadStatus)
    (video_file : option string) (filesize : option Z)
    (error error_type : option string) : t :=
  Build task_id status video_file filesize None error error_type.

(** [DownloadResult(task_id=..., status=FAILED, error=str(e),
    error_type=type(e).__name__, ...)] *)
Definition failed (tid : string) (e : Py.PyException) : t :=
  mk tid FAILED None None (Some (Py.exc_str e)) (Some (Py.exc_class e)).
End DownloadResult.

(** The numeric fields of [DownloadProgress] (floats, byte counts) are left
    out; nothing below reads them. *)
Module DownloadProgress.
Record t := mk {
  task_id : string;
  status : DownloadStatus;
  current_step : string;
  message : option string }.

Definition with_task_id (tid : string) (p : t) : t :=
  mk tid (status p) (current_step p) (message p).

(** [progress.dict()], as the key/value pairs of a JSON object. *)
Definition dict (p : t) : list (string * string) :=
  [("task_id", task_id p); ("status", DownloadStatus_value (status p));
   ("current_step", current_step p); ("message", default "" (message p))].
End DownloadProgress.

Module WebSocketMessage.
Record t := mk {
  type : string;
  task_id : option string;
  data : list (string * string) }.

#[global] Instance eq_dec : EqDecision t.
Proof. solve_decision. Defined.
End WebSocketMessage.

Module BatchResult.
Record t := mk {
  batch_id : string;
  total_videos : nat;
  successful_downloads : nat;
  failed_downloads : nat;
  results : list DownloadResult.t;
  total_filesize : option Z }.
End BatchResult.

Module PlaylistResult.
Record t := mk {
  playlist_id : string;
  playlist_metadata : option PlaylistMetadata.t;
  total_videos : nat;
  successful_downloads : nat;
  failed_downloads : nat;
  results : list DownloadResult.t;
  total_filesize : option Z }.
End PlaylistResult.

End models.

(** ** config.py *)

Module config.

(** The settings of [Config] the core reads. *)
Record Config := mkConfig {
  MAX_CONCURRENT_DOWNLOADS : Z;
  MAX_QUALITY_DIRECT : Z;
  MIN_QUALITY : Z;
  WS_MAX_CONNECTIONS : Z }.

(** The part of [_validate_config] about these settings; a [Config] that
    fails it is never constructed ([ValueError] at import). *)
Definition _validate_config (c : Config) : bool :=
  negb (MAX_QUALITY_DIRECT c <? MIN_QUALITY c)%Z
  && negb (MAX_CONCURRENT_DOWNLOADS c <=? 0)%Z
  && negb (WS_MAX_CONNECTIONS c <=? 0)%Z.

Definition is_quality_direct_download (c : Config) (quality : Z) : bool :=
  (quality <=? MAX_QUALITY_DIRECT c)%Z.

(** The values [Config] takes when the environment sets none. *)
Definition defaults : Config := mkConfig 5 720 144 100.

End config.

(** ** asyncio: the two primitives the core relies on *)

Module asyncio.

(** [asyncio.Semaphore(value)]: the counter, or [ValueError] for a negative
    initial value. *)
Definition Semaphore (value : Z) : Py.Outcome nat :=
  if (value <? 0)%Z
  then Py.Raise (Py.mkExc "ValueError" "Semaphore initial value must be >= 0")
  else Py.Return (Z.to_nat value).

(** An [asyncio.Task] as the orchestrator observes it. [TaskPending b]: not
    done, [b] telling whether [cancel()] has been requested. *)
Inductive Task :=
| TaskPending (must_cancel : bool)
| TaskFinished
| TaskCancelled.

Definition done (t : Task) : bool :=
  match t with TaskPending _ => false | _ => true end.

Definition cancelled (t : Task) : bool :=
  match t with TaskCancelled => true | _ => false end.

(** [task.cancel()]: requests cancellation of a task that is not done and
    says whether it did. *)
Definition cancel (t : Task) : Task * bool :=
  match t with
  | TaskPending _ => (TaskPending true, true)
  | _ => (t, false)
  end.

End asyncio.

(** ** yt_process.py *)

Module yt_process.
Import models config.

Inductive ProcessorType := PYTUBE | YTDLP.

(** [ProcessingStrategy.determine_processor] *)
Definition determine_processor (cfg : Config) (quality : Z) (operation : string)
  : ProcessorType :=
  if Py.str_in operation ["metadata"; "extract"; "info"] then YTDLP
  else if Py.str_in operation ["download"; "stream"] then
    if is_quality_direct_download cfg quality then PYTUBE else YTDLP
  else if Py.str_in operation ["subtitles"; "thumbnail"; "captions"] then YTDLP
  else YTDLP.

(** [ProcessingStrategy.requires_rendering] *)
Definition requires_rendering (cfg : Config) (quality : Z) : bool :=
  negb (is_quality_direct_download cfg quality).

(** The three backend entry points [download_video] can hand a request to
    (external collaborators). Each is asked for a given item of the running
    batch: the same request may fare differently for different items. *)
Record Handlers := mkHandlers {
  pytube_download_video :
    nat -> DownloadRequest.t -> Py.Outcome DownloadResult.t;
  ytdlp_download_and_render :
    nat -> DownloadRequest.t -> Py.Outcome DownloadResult.t;
  ytdlp_download_video :
    nat -> DownloadRequest.t -> Py.Outcome DownloadResult.t }.

(** Two sets of backends answer alike for item [i]. *)
Definition same_backends_at (i : nat) (h h' : Handlers) : Prop :=
  forall request,
    pytube_download_video h i request = pytube_download_video h' i request
    /\ ytdlp_download_and_render h i request
       = ytdlp_download_and_render h' i request
    /\ ytdlp_download_video h i request = ytdlp_download_video h' i request.

(** The backend path a download takes. *)
Inductive BackendPath := DirectPytube | SplitRender | DirectYtdlp.

(** The branch [YouTubeProcessor.download_video] takes for a quality. *)
Definition download_path (cfg : Config) (quality : Z) : BackendPath :=
  match determine_processor cfg quality "download" with
  | PYTUBE => DirectPytube
  | YTDLP => if requires_rendering cfg quality then SplitRender else DirectYtdlp
  end.

(** [YouTubeProcessor.download_video], for item [i] of a batch. *)
Definition download_video (cfg : Config) (h : Handlers) (i : nat)
    (request : DownloadRequest.t) : Py.Outcome DownloadResult.t :=
  match download_path cfg (DownloadRequest.quality request) with
  | DirectPytube => pytube_download_video h i request
  | SplitRender => ytdlp_download_and_render h i request
  | DirectYtdlp => ytdlp_download_video h i request
  end.

(** [YouTubeProcessor._select_playlist_videos] *)
Definition _select_playlist_videos (playlist : PlaylistMetadata.t)
    (request : PlaylistRequest.t) : list VideoMetadata.t :=
  let videos := PlaylistMetadata.videos playlist in
  let selected_videos :=
    if PlaylistRequest.download_all request then videos
    else
      omap (fun index : Z =>
              if (0 <=? index)%Z && (index <? Z.of_nat (length videos))%Z
              then videos !! Z.to_nat index else None)
           (PlaylistRequest.selected_videos request) in
  let selected_videos :=
    match PlaylistRequest.start_index request with
    | Some start_index => Py.slice_from selected_videos (Z.max 0 start_index)
    | None => selected_videos
    end in
  let selected_videos :=
    match PlaylistRequest.end_index request with
    | Some end_index =>
        Py.slice_to selected_videos
          (Z.min (Z.of_nat (length selected_videos)) (end_index + 1))
    | None => selected_videos
    end in
  match PlaylistRequest.max_downloads request with
  | Some max_downloads => Py.slice_to selected_videos max_downloads
  | None => selected_videos
  end.

(** [YouTubeProcessor._download_with_error_isolation], for item [i]. *)
Definition _download_with_error_isolation (cfg : Config) (h : Handlers)
    (i : nat) (request : DownloadRequest.t) (task_id : string)
  : DownloadResult.t :=
  match download_video cfg h i request with
  | Py.Return result => result
  | Py.Raise e => DownloadResult.failed task_id e
  end.

(** The [DownloadRequest] a batch builds for one of its URLs. *)
Definition batch_video_request (request : BatchRequest.t) (url : string)
  : DownloadRequest.t :=
  DownloadRequest.mk url (BatchRequest.quality request)
    (BatchRequest.format request) (BatchRequest.include_audio request)
    (BatchRequest.include_subtitles request)
    (BatchRequest.subtitle_languages request)
    (BatchRequest.download_thumbnail request) None.

(** What [asyncio.gather] collects in [download_batch]: the result of the
    task of every URL, in the order of the URLs. *)
Definition download_batch_gathered (cfg : Config) (h : Handlers)
    (request : BatchRequest.t) : list DownloadResult.t :=
  imap (fun i url =>
          _download_with_error_isolation cfg h i
            (batch_video_request request url) ("batch_video_" +:+ pretty i))
       (BatchRequest.urls request).

(** [YouTubeProcessor.download_batch]: the value it returns. *)
Definition download_batch (cfg : Config) (h : Handlers)
    (request : BatchRequest.t) : Py.Outcome (list DownloadResult.t) :=
  Py.bind
    (asyncio.Semaphore
       (Py.int_or (BatchRequest.max_concurrent request)
          (MAX_CONCURRENT_DOWNLOADS cfg)))
    (fun _ =>
       Py.Return
         (filter (fun result => DownloadResult.status result = COMPLETED)
            (download_batch_gathered cfg h request))).

(** *** The scheduling of [download_batch]

    Item [i] has two coroutines: the task made by [asyncio.create_task] around
    [_download_with_error_isolation], which the event loop starts without
    consulting anything, and [limited_download(task)], which takes the
    semaphore and only then awaits that task. *)

Inductive Inner := Created | Running | Finished.
Inductive Limited := AwaitingSemaphore | AwaitingTask | Released.

#[global] Instance Inner_eq_dec : EqDecision Inner.
Proof. solve_decision. Defined.

Record Batch := mkBatch {
  semaphore : nat;
  download_tasks : list Inner;
  limited : list Limited }.

Definition Batch_init (max_concurrent n : nat) : Batch :=
  mkBatch max_concurrent (replicate n Created) (replicate n AwaitingSemaphore).

Inductive Batch_step : Batch -> Batch -> Prop :=
| task_starts b i :
    download_tasks b !! i = Some Created ->
    Batch_step b
      (mkBatch (semaphore b) (<[i := Running]> (download_tasks b)) (limited b))
| task_finishes b i :
    download_tasks b !! i = Some Running ->
    Batch_step b
      (mkBatch (semaphore b) (<[i := Finished]> (download_tasks b)) (limited b))
| limited_acquires b i :
    limited b !! i = Some AwaitingSemaphore ->
    (0 < semaphore b)%nat ->
    Batch_step b
      (mkBatch (semaphore b - 1) (download_tasks b)
         (<[i := AwaitingTask]> (limited b)))
| limited_releases b i :
    limited b !! i = Some AwaitingTask ->
    download_tasks b !! i = Some Finished ->
    Batch_step b
      (mkBatch (semaphore b + 1) (download_tasks b)
         (<[i := Released]> (limited b))).

(** The downloads in active execution. *)
Definition Batch_active (b : Batch) : nat :=
  length (filter (fun t => t = Running) (download_tasks b)).

End yt_process.

(** ** websocket.py *)

Module websocket.
Import models config.

(** A [WebSocket] object, by identity. *)
Abbreviation WebSocket := nat (only parsing).

(** The state of a [ConnectionManager]. *)
Record ConnectionManager := mkManager {
  active_connections : gset WebSocket;
  task_subscribers : gmap string (gset WebSocket);
  connection_count : nat }.

(** One call of [websocket.send_text]: the connection, the message, and
    whether the call went through ([false]: it raised). *)
Record SendText := mkSend {
  send_to : WebSocket;
  send_message_of : WebSocketMessage.t;
  send_ok : bool }.

(** The hub and its surroundings: the manager, the connections whose peer
    is gone (a send to them raises), and the sends made so far, oldest
    first. *)
Record Hub := mkHub {
  manager : ConnectionManager;
  closed : gset WebSocket;
  sent : list SendText }.

Definition Hub_init : Hub := mkHub (mkManager ∅ ∅ 0) ∅ [].

(** [ConnectionManager.disconnect] *)
Definition disconnect (websocket : WebSocket) (m : ConnectionManager)
  : ConnectionManager :=
  if bool_decide (websocket ∈ active_connections m) then
    mkManager (active_connections m ∖ {[websocket]})
      ((fun subscribers => subscribers ∖ {[websocket]}) <$> task_subscribers m)
      (connection_count m)
  else m.

(** [ConnectionManager.send_message]: both [except] branches disconnect. *)
Definition send_message (websocket : WebSocket) (message : WebSocketMessage.t)
    (h : Hub) : Hub :=
  if bool_decide (websocket ∈ closed h) then
    mkHub (disconnect websocket (manager h)) (closed h)
      (sent h ++ [mkSend websocket message false])
  else
    mkHub (manager h) (closed h) (sent h ++ [mkSend websocket message true]).

(** [ConnectionManager.connect] *)
Definition connect (cfg : Config) (websocket : WebSocket) (h : Hub)
  : bool * Hub :=
  let m := manager h in
  if (WS_MAX_CONNECTIONS cfg <=? Z.of_nat (size (active_connections m)))%Z
  then (false, h)
  else
    let m' := mkManager ({[websocket]} ∪ active_connections m)
                (task_subscribers m) (connection_count m + 1) in
    (true,
     send_message websocket
       (WebSocketMessage.mk "status" None
          [("message", "Connected to GRABIT WebSocket")])
       (mkHub m' (closed h) (sent h))).

(** [ConnectionManager.subscribe_to_task] *)
Definition subscribe_to_task (websocket : WebSocket) (task_id : string)
    (h : Hub) : Hub :=
  let m := manager h in
  let subscribers := default ∅ (task_subscribers m !! task_id) in
  let m' := mkManager (active_connections m)
              (<[task_id := {[websocket]} ∪ subscribers]> (task_subscribers m))
              (connection_count m) in
  send_message websocket
    (WebSocketMessage.mk "subscription" (Some task_id)
       [("message", "Subscribed to task " +:+ task_id)])
    (mkHub m' (closed h) (sent h)).

(** [ConnectionManager.unsubscribe_from_task] *)
Definition unsubscribe_from_task (websocket : WebSocket) (task_id : string)
    (m : ConnectionManager) : ConnectionManager :=
  match task_subscribers m !! task_id with
  | Some subscribers =>
      let subscribers' := subscribers ∖ {[websocket]} in
      mkManager (active_connections m)
        (if bool_decide (subscribers' = ∅)
         then delete task_id (task_subscribers m)
         else <[task_id := subscribers']> (task_subscribers m))
        (connection_count m)
  | None => m
  end.

(** [ConnectionManager._broadcast_to_connections]: one [send_message] per
    connection of a copy of the set. The sends are gathered; what each does
    to the hub does not depend on the order they run in. *)
Definition _broadcast_to_connections (connections : gset WebSocket)
    (message : WebSocketMessage.t) (h : Hub) : Hub :=
  if bool_decide (connections = ∅) then h
  else foldl (fun h websocket => send_message websocket message h) h
         (elements connections).

(** [self.task_subscribers.get(task_id, set())] *)
Definition subscribers_of (task_id : string) (h : Hub) : gset WebSocket :=
  default ∅ (task_subscribers (manager h) !! task_id).

Definition progress_message (progress : DownloadProgress.t)
  : WebSocketMessage.t :=
  WebSocketMessage.mk "progress" (Some (DownloadProgress.task_id progress))
    (DownloadProgress.dict progress).

(** [ConnectionManager.broadcast_progress] *)
Definition broadcast_progress (progress : DownloadProgress.t) (h : Hub) : Hub :=
  if String.eqb (DownloadProgress.task_id progress) "" then h
  else
    let subscribers := subscribers_of (DownloadProgress.task_id progress) h in
    if bool_decide (subscribers = ∅) then h
    else _broadcast_to_connections subscribers (progress_message progress) h.

Definition status_message (task_id status : string)
    (data : list (string * string)) : WebSocketMessage.t :=
  WebSocketMessage.mk "status" (Some task_id) (("status", status) :: data).

(** [ConnectionManager.broadcast_status] *)
Definition broadcast_status (task_id status : string)
    (data : list (string * string)) (h : Hub) : Hub :=
  let subscribers := subscribers_of task_id h in
  if bool_decide (subscribers = ∅) then h
  else _broadcast_to_connections subscribers
         (status_message task_id status data) h.

Definition error_message (task_id error error_type : string)
  : WebSocketMessage.t :=
  WebSocketMessage.mk "error" (Some task_id)
    [("error", error); ("error_type", error_type)].

(** [ConnectionManager.broadcast_error] *)
Definition broadcast_error (task_id error error_type : string) (h : Hub) : Hub :=
  let subscribers := subscribers_of task_id h in
  if bool_decide (subscribers = ∅) then h
  else _broadcast_to_connections subscribers
         (error_message task_id error error_type) h.

(** [ConnectionManager.broadcast_metadata] *)
Definition broadcast_metadata (task_id : string)
    (metadata : list (string * string)) (h : Hub) : Hub :=
  let subscribers := subscribers_of task_id h in
  if bool_decide (subscribers = ∅) then h
  else _broadcast_to_connections subscribers
         (WebSocketMessage.mk "metadata" (Some task_id) metadata) h.

(** The send [send_message] makes of a message to a connection of hub
    [h]. *)
Definition the_send (message : WebSocketMessage.t) (h : Hub) (ws : WebSocket)
  : SendText :=
  mkSend ws message (negb (bool_decide (ws ∈ closed h))).

(** What a connection has received: the messages of the sends to it that
    went through, oldest first. *)
Definition received (websocket : WebSocket) (h : Hub)
  : list WebSocketMessage.t :=
  omap (fun s => if bool_decide (send_to s = websocket) && send_ok s
                 then Some (send_message_of s) else None)
       (sent h).

(** The sends an operation added to the log. *)
Definition sends_since (h h' : Hub) : list SendText :=
  drop (length (sent h)) (sent h').

(** How many of the sends in a log went to a connection with a message. *)
Definition times_sent (websocket : WebSocket) (message : WebSocketMessage.t)
    (log : list SendText) : nat :=
  length (filter (fun s => send_to s = websocket /\ send_message_of s = message)
            log).

(** An event published for a task: a call of one of the four broadcast
    functions, with its arguments. *)
Inductive Event :=
| ProgressEvent (progress : DownloadProgress.t)
| StatusEvent (task_id status : string) (data : list (string * string))
| ErrorEvent (task_id error error_type : string)
| MetadataEvent (task_id : string) (metadata : list (string * string)).

(** The task an event is published for. *)
Definition event_task_id (event : Event) : string :=
  match event with
  | ProgressEvent progress => DownloadProgress.task_id progress
  | StatusEvent task_id _ _ => task_id
  | ErrorEvent task_id _ _ => task_id
  | MetadataEvent task_id _ => task_id
  end.

(** The [WebSocketMessage] the broadcast function builds for the event. *)
Definition event_message (event : Event) : WebSocketMessage.t :=
  match event with
  | ProgressEvent progress => progress_message progress
  | StatusEvent task_id status data => status_message task_id status data
  | ErrorEvent task_id error error_type =>
      error_message task_id error error_type
  | MetadataEvent task_id metadata =>
      WebSocketMessage.mk "metadata" (Some task_id) metadata
  end.

(** Publishing the event: the call itself. *)
Definition publish (event : Event) (h : Hub) : Hub :=
  match event with
  | ProgressEvent progress => broadcast_progress progress h
  | StatusEvent task_id status data => broadcast_status task_id status data h
  | ErrorEvent task_id error error_type =>
      broadcast_error task_id error error_type h
  | MetadataEvent task_id metadata => broadcast_metadata task_id metadata h
  end.

End websocket.

(** ** download.py *)

Module download.
Import models config.

(** What [extract_metadata] returns. *)
Inductive Metadata :=
| IsVideo (metadata : VideoMetadata.t)
| IsPlaylist (metadata : PlaylistMetadata.t).

(** [DownloadOrchestrator._select_playlist_videos] *)
Definition _select_playlist_videos (playlist : PlaylistMetadata.t)
    (request : PlaylistRequest.t) : list VideoMetadata.t :=
  let videos := PlaylistMetadata.videos playlist in
  let selected_videos :=
    if PlaylistRequest.download_all request then videos
    else
      omap (fun index : Z =>
              if (0 <=? index)%Z && (index <? Z.of_nat (length videos))%Z
              then videos !! Z.to_nat index else None)
           (PlaylistRequest.selected_videos request) in
  let selected_videos :=
    match PlaylistRequest.start_index request with
    | Some start_index => Py.slice_from selected_videos (Z.max 0 start_index)
    | None => selected_videos
    end in
  let selected_videos :=
    match PlaylistRequest.end_index request with
    | Some end_index =>
        Py.slice_to selected_videos
          (Z.min (Z.of_nat (length selected_videos)) (end_index + 1))
    | None => selected_videos
    end in
  match PlaylistRequest.max_downloads request with
  | Some max_downloads => Py.slice_to selected_videos max_downloads
  | None => selected_videos
  end.

(** The body of [download_with_semaphore(request, index)] inside
    [async with semaphore]: the [try] and its [except Exception]. *)
Definition download_with_semaphore (cfg : Config) (h : yt_process.Handlers)
    (task_id : string) (request : DownloadRequest.t) (index : nat)
  : DownloadResult.t :=
  match yt_process.download_video cfg h index request with
  | Py.Return result => result
  | Py.Raise e =>
      DownloadResult.failed (task_id +:+ "_video_" +:+ pretty index) e
  end.

(** *** The scheduling of [_download_requests_with_isolation]

    The coroutine of item [i] waits for the semaphore, downloads while it
    holds it, and is complete once it has left [async with]; the loop over
    [asyncio.as_completed] appends its result at that point. *)

Inductive Item := Waiting | Downloading | Completed.

#[global] Instance Item_eq_dec : EqDecision Item.
Proof. solve_decision. Defined.

Record Executor := mkExecutor {
  semaphore : nat;
  tasks : list Item;
  results : list DownloadResult.t }.

Definition Executor_init (max_concurrent n : nat) : Executor :=
  mkExecutor max_concurrent (replicate n Waiting) [].

Inductive Executor_step (cfg : Config) (h : yt_process.Handlers)
    (task_id : string) (requests : list DownloadRequest.t)
  : Executor -> Executor -> Prop :=
| acquires x i :
    tasks x !! i = Some Waiting ->
    (0 < semaphore x)%nat ->
    Executor_step cfg h task_id requests x
      (mkExecutor (semaphore x - 1) (<[i := Downloading]> (tasks x)) (results x))
| completes x i request :
    tasks x !! i = Some Downloading ->
    requests !! i = Some request ->
    Executor_step cfg h task_id requests x
      (mkExecutor (semaphore x + 1) (<[i := Completed]> (tasks x))
         (results x ++ [download_with_semaphore cfg h task_id request i])).

(** The items in active execution. *)
Definition Executor_active (x : Executor) : nat :=
  length (filter (fun t => t = Downloading) (tasks x)).

(** Every coroutine is complete: [as_completed] is exhausted. *)
Definition Executor_finished (x : Executor) : Prop :=
  Forall (fun t => t = Completed) (tasks x).

(** The result of every request, in the order of the requests. *)
Definition expected (cfg : Config) (h : yt_process.Handlers)
    (task_id : string) (requests : list DownloadRequest.t)
  : list DownloadResult.t :=
  imap (fun i request => download_with_semaphore cfg h task_id request i)
    requests.

(** What holds of every state a run goes through, for a semaphore of size
    [k]: the permits out and the permits left add up to [k], and the results
    collected so far are those of the completed items, one each, in the
    order [order] in which they completed. *)
Definition Executor_invariant (cfg : Config) (h : yt_process.Handlers)
    (task_id : string) (requests : list DownloadRequest.t)
    (k : nat) (x : Executor) : Prop :=
  length (tasks x) = length requests
  /\ semaphore x + Executor_active x = k
  /\ exists order : list nat,
       NoDup order
       /\ (forall i, i ∈ order <-> tasks x !! i = Some Completed)
       /\ results x
          = omap (fun i => expected cfg h task_id requests !! i) order.

(** What a run has left to do: two steps for an item that waits, one for an
    item that downloads. *)
Definition Executor_remaining (x : Executor) : nat :=
  2 * length (filter (fun t => t = Waiting) (tasks x))
  + length (filter (fun t => t = Downloading) (tasks x)).

(** [DownloadOrchestrator._download_requests_with_isolation]: the outcomes
    its runs can have. *)
Inductive _download_requests_with_isolation (cfg : Config)
    (h : yt_process.Handlers) (requests : list DownloadRequest.t)
    (task_id : string) (max_concurrent : option Z)
  : Py.Outcome (list DownloadResult.t) -> Prop :=
| semaphore_raises e :
    asyncio.Semaphore
      (Py.int_or max_concurrent (MAX_CONCURRENT_DOWNLOADS cfg)) = Py.Raise e ->
    _download_requests_with_isolation cfg h requests task_id max_concurrent
      (Py.Raise e)
| run_returns k x :
    asyncio.Semaphore
      (Py.int_or max_concurrent (MAX_CONCURRENT_DOWNLOADS cfg)) = Py.Return k ->
    rtc (Executor_step cfg h task_id requests)
      (Executor_init k (length requests)) x ->
    Executor_finished x ->
    _download_requests_with_isolation cfg h requests task_id max_concurrent
      (Py.Return (results x)).

Definition successful_results (results : list DownloadResult.t)
  : list DownloadResult.t :=
  filter (fun r => DownloadResult.status r = COMPLETED) results.

Definition failed_results (results : list DownloadResult.t)
  : list DownloadResult.t :=
  filter (fun r => DownloadResult.status r <> COMPLETED) results.

(** [sum(r.filesize or 0 for r in successful_results)] *)
Definition total_size (results : list DownloadResult.t) : Z :=
  foldr (fun r acc => (default 0 (DownloadResult.filesize r) + acc)%Z) 0%Z
    (successful_results results).

(** [DownloadOrchestrator._execute_batch_download]: the [BatchResult] a run
    records for the task and returns. *)
Inductive _execute_batch_download (cfg : Config) (h : yt_process.Handlers)
    (task_id : string) (request : BatchRequest.t) : BatchResult.t -> Prop :=
| batch_aggregated results :
    _download_requests_with_isolation cfg h
      (yt_process.batch_video_request request <$> BatchRequest.urls request)
      task_id (BatchRequest.max_concurrent request) (Py.Return results) ->
    _execute_batch_download cfg h task_id request
      (BatchResult.mk task_id (length (BatchRequest.urls request))
         (length (successful_results results))
         (length (failed_results results)) results
         (Some (total_size results)))
| batch_failed e :
    _download_requests_with_isolation cfg h
      (yt_process.batch_video_request request <$> BatchRequest.urls request)
      task_id (BatchRequest.max_concurrent request) (Py.Raise e) ->
    _execute_batch_download cfg h task_id request
      (BatchResult.mk task_id (length (BatchRequest.urls request)) 0 0 [] None).

(** The [DownloadRequest] a playlist builds for one of its videos. *)
Definition playlist_video_request (request : PlaylistRequest.t)
    (video : VideoMetadata.t) : DownloadRequest.t :=
  DownloadRequest.mk (VideoMetadata.webpage_url video)
    (PlaylistRequest.quality request) (PlaylistRequest.format request)
    (PlaylistRequest.include_audio request)
    (PlaylistRequest.include_subtitles request)
    (PlaylistRequest.subtitle_languages request)
    (PlaylistRequest.download_thumbnail request) None.

Definition failed_playlist (task_id : string) : PlaylistResult.t :=
  PlaylistResult.mk task_id None 0 0 0 [] None.

(** [DownloadOrchestrator._download_videos_with_isolation] builds a
    [DownloadRequest] for every video before any download starts; pydantic
    raises [ValidationError] from the first one whose [webpage_url] is no
    [HttpUrl] (syntax check [is_http_url], pydantic's own). The other fields
    are those of the [PlaylistRequest], validated when it was built. *)
Definition video_requests_validate (is_http_url : string -> bool)
    (videos : list VideoMetadata.t) : bool :=
  forallb (fun video => is_http_url (VideoMetadata.webpage_url video)) videos.

(** [DownloadOrchestrator._execute_playlist_download], given what the
    metadata extraction yields: the [PlaylistResult] a run records for the
    task and returns. Every exception ends in the [except] branch. *)
Inductive _execute_playlist_download (is_http_url : string -> bool)
    (cfg : Config) (h : yt_process.Handlers)
    (task_id : string) (request : PlaylistRequest.t)
  : Py.Outcome Metadata -> PlaylistResult.t -> Prop :=
| playlist_extraction_raises e :
    _execute_playlist_download is_http_url cfg h task_id request (Py.Raise e)
      (failed_playlist task_id)
| playlist_not_a_playlist v :
    _execute_playlist_download is_http_url cfg h task_id request
      (Py.Return (IsVideo v)) (failed_playlist task_id)
| playlist_invalid_request playlist :
    video_requests_validate is_http_url
      (_select_playlist_videos playlist request) = false ->
    _execute_playlist_download is_http_url cfg h task_id request
      (Py.Return (IsPlaylist playlist)) (failed_playlist task_id)
| playlist_aggregated playlist results :
    video_requests_validate is_http_url
      (_select_playlist_videos playlist request) = true ->
    _download_requests_with_isolation cfg h
      (playlist_video_request request
         <$> _select_playlist_videos playlist request)
      task_id None (Py.Return results) ->
    _execute_playlist_download is_http_url cfg h task_id request
      (Py.Return (IsPlaylist playlist))
      (PlaylistResult.mk task_id (Some playlist)
         (length (_select_playlist_videos playlist request))
         (length (successful_results results))
         (length (failed_results results)) results
         (Some (total_size results)))
| playlist_failed playlist e :
    video_requests_validate is_http_url
      (_select_playlist_videos playlist request) = true ->
    _download_requests_with_isolation cfg h
      (playlist_video_request request
         <$> _select_playlist_videos playlist request)
      task_id None (Py.Raise e) ->
    _execute_playlist_download is_http_url cfg h task_id request
      (Py.Return (IsPlaylist playlist)) (failed_playlist task_id).

(** *** The task registry of [DownloadOrchestrator] *)

Inductive TaskResult :=
| OfSingle (result : DownloadResult.t)
| OfBatch (result : BatchResult.t)
| OfPlaylist (result : PlaylistResult.t).

Record DownloadOrchestrator := mkOrchestrator {
  active_tasks : gmap string asyncio.Task;
  task_results : gmap string TaskResult }.

Definition Orchestrator_init : DownloadOrchestrator := mkOrchestrator ∅ ∅.

(** The dictionary [get_task_status] returns; a key that a branch does not
    set is [None]. *)
Module TaskStatus.
Record t := mk {
  task_id : string;
  status : string;
  done : bool;
  cancelled : option bool;
  result : option TaskResult }.
End TaskStatus.

(** [DownloadOrchestrator.get_task_status]; it awaits nothing. *)
Definition get_task_status (task_id : string) (o : DownloadOrchestrator)
  : option TaskStatus.t :=
  match active_tasks o !! task_id with
  | Some task =>
      Some (TaskStatus.mk task_id
              (if negb (asyncio.done task) then "running" else "completed")
              (asyncio.done task) (Some (asyncio.cancelled task)) None)
  | None =>
      match task_results o !! task_id with
      | Some result =>
          Some (TaskStatus.mk task_id "completed" true None (Some result))
      | None => None
      end
  end.

(** [d[key]]: [KeyError] for a missing key. *)
Definition getitem {V} (d : gmap string V) (key : string) : Py.Outcome V :=
  match d !! key with
  | Some v => Py.Return v
  | None => Py.Raise (Py.mkExc "KeyError" key)
  end.

(** [DownloadOrchestrator.cancel_task]: what it returns, and the registry
    and the hub it leaves. [task.cancel()] only requests the cancellation,
    and the registry given here shows the task as [cancel()] left it. The
    task takes [CancelledError] when the event loop next resumes it (with a
    subscriber to notify, already while [cancel_task] awaits the broadcast)
    and is done from then on: that step is the task's, and is not part of
    the state given here. *)
Definition cancel_task (task_id : string)
    (s : DownloadOrchestrator * websocket.Hub)
  : Py.Outcome (bool * (DownloadOrchestrator * websocket.Hub)) :=
  let '(o, hub) := s in
  if bool_decide (task_id ∈ dom (active_tasks o)) then
    Py.bind (getitem (active_tasks o) task_id) (fun task =>
      if negb (asyncio.done task) then
        let o' := mkOrchestrator
                    (<[task_id := fst (asyncio.cancel task)]> (active_tasks o))
                    (task_results o) in
        let hub' := websocket.broadcast_status task_id "cancelled"
                      [("message", "Task cancelled by user")] hub in
        Py.Return (true, (o', hub'))
      else Py.Return (false, (o, hub)))
  else Py.Return (false, (o, hub)).

(** [DownloadOrchestrator.start_single_download]; [task_id] is what
    [_generate_task_id] made. The coroutine is only scheduled here. *)
Definition start_single_download (task_id : string)
    (request : DownloadRequest.t) (s : DownloadOrchestrator * websocket.Hub)
  : string * (DownloadOrchestrator * websocket.Hub) :=
  let '(o, hub) := s in
  (task_id,
   (mkOrchestrator (<[task_id := asyncio.TaskPending false]> (active_tasks o))
      (task_results o),
    websocket.broadcast_status task_id "started"
      [("url", DownloadRequest.url request); ("type", "single_video")] hub)).

(** [result.task_id = task_id] *)
Definition with_task_id (task_id : string) (r : DownloadResult.t)
  : DownloadResult.t :=
  DownloadResult.Build task_id (DownloadResult.status r)
    (DownloadResult.video_file r) (DownloadResult.filesize r)
    (DownloadResult.download_time r)
    (DownloadResult.error r) (DownloadResult.error_type r).

(** [progress_callback] of [start_single_download]: it stamps the update
    with the id of the task and publishes it. *)
Definition progress_callback (task_id : string) (progress : DownloadProgress.t)
    (hub : websocket.Hub) : websocket.Hub :=
  websocket.broadcast_progress
    (DownloadProgress.with_task_id task_id progress) hub.

(** The data of the "completed" status of a single download. *)
Definition completed_data (result : DownloadResult.t) : list (string * string) :=
  [("message", "Download completed successfully");
   ("file_path",
    Py.json_opt (fun path => path) (DownloadResult.video_file result));
   ("file_size", Py.json_opt pretty (DownloadResult.filesize result));
   ("download_time",
    Py.json_opt (fun text => text) (DownloadResult.download_time result))].

Definition store (task_id : string) (r : TaskResult) (o : DownloadOrchestrator)
  : DownloadOrchestrator :=
  mkOrchestrator (active_tasks o) (<[task_id := r]> (task_results o)).

(** The [except Exception] branch of [_execute_single_download]. *)
Definition single_failed (task_id : string) (e : Py.PyException)
    (s : DownloadOrchestrator * websocket.Hub)
  : DownloadResult.t * (DownloadOrchestrator * websocket.Hub) :=
  let result := DownloadResult.failed task_id e in
  (result,
   (store task_id (OfSingle result) (fst s),
    websocket.broadcast_error task_id (Py.exc_str e) (Py.exc_class e) (snd s))).

(** [DownloadOrchestrator._execute_single_download], given what its two
    calls of the processor yield: [extracted] is the outcome of
    [extract_metadata]; [download_video] hands the updates [progress] to
    [progress_callback], in that order, and then returns or raises
    [downloaded]. The function gives the result it returns, and the registry
    and the hub it leaves. *)
Definition _execute_single_download (task_id : string)
    (extracted : Py.Outcome Metadata)
    (progress : list DownloadProgress.t)
    (downloaded : Py.Outcome DownloadResult.t)
    (s : DownloadOrchestrator * websocket.Hub)
  : DownloadResult.t * (DownloadOrchestrator * websocket.Hub) :=
  let '(o, hub) := s in
  let hub := websocket.broadcast_status task_id "extracting"
               [("message", "Extracting video metadata")] hub in
  match extracted with
  | Py.Raise e => single_failed task_id e (o, hub)
  | Py.Return metadata =>
      let hub :=
        match metadata with
        | IsVideo v =>
            websocket.broadcast_metadata task_id (VideoMetadata.dict v) hub
        | IsPlaylist _ => hub
        end in
      let hub := websocket.broadcast_status task_id "downloading"
                   [("message", "Starting download")] hub in
      let hub := foldl (fun hub update => progress_callback task_id update hub)
                   hub progress in
      match downloaded with
      | Py.Raise e => single_failed task_id e (o, hub)
      | Py.Return result =>
          let result := with_task_id task_id result in
          let o := store task_id (OfSingle result) o in
          let hub :=
            if bool_decide (DownloadResult.status result = COMPLETED) then
              websocket.broadcast_status task_id "completed"
                (completed_data result) hub
            else
              websocket.broadcast_error task_id
                (Py.str_or (DownloadResult.error result) "Download failed")
                (Py.json_opt (fun name => name)
                   (DownloadResult.error_type result)) hub in
          (result, (o, hub))
      end
  end.

(** The coroutine of a task has returned: its [asyncio.Task] is done. *)
Definition task_returned (task_id : string) (o : DownloadOrchestrator)
  : DownloadOrchestrator :=
  mkOrchestrator (alter (fun _ => asyncio.TaskFinished) task_id (active_tasks o))
    (task_results o).

(** A single download from submission to the end of its coroutine. *)
Definition single_download_lifecycle (task_id : string)
    (request : DownloadRequest.t) (extracted : Py.Outcome Metadata)
    (progress : list DownloadProgress.t)
    (downloaded : Py.Outcome DownloadResult.t)
    (s : DownloadOrchestrator * websocket.Hub)
  : DownloadOrchestrator * websocket.Hub :=
  let s1 := snd (start_single_download task_id request s) in
  let s2 := snd (_execute_single_download task_id extracted progress
                   downloaded s1) in
  (task_returned task_id (fst s2), snd s2).

(** [DownloadOrchestrator.cleanup_completed_tasks]; nothing in the
    repository calls it. *)
Definition cleanup_completed_tasks (o : DownloadOrchestrator)
  : DownloadOrchestrator :=
  mkOrchestrator (filter (fun kv => asyncio.done (snd kv) = false) (active_tasks o))
    (task_results o).

End download.

(** ** The selection policy, in the words of the specification *)

Module spec.
Import models.

(** Step 1, the explicit selection: all videos when [download_all], else
    the videos at the listed indices, out-of-range indices dropped. *)
Definition explicit_selection (videos : list VideoMetadata.t)
    (request : PlaylistRequest.t) : list VideoMetadata.t :=
  if PlaylistRequest.download_all request then videos
  else
    omap (fun index : Z =>
            if (0 <=? index)%Z && (index <? Z.of_nat (length videos))%Z
            then videos !! Z.to_nat index else None)
         (PlaylistRequest.selected_videos request).

(** Step 2, the index window over a list: the items at the positions from
    [start_index] to [end_index], the end included; an absent bound does not
    bound. *)
Definition index_window (start_index end_index : option Z)
    (selected : list VideoMetadata.t) : list VideoMetadata.t :=
  let upto :=
    match end_index with
    | Some e => take (Z.to_nat (e + 1)) selected
    | None => selected
    end in
  match start_index with
  | Some s => drop (Z.to_nat s) upto
  | None => upto
  end.

(** Step 3, the truncation to at most [max_downloads] items. *)
Definition truncation (max_downloads : option Z)
    (selected : list VideoMetadata.t) : list VideoMetadata.t :=
  match max_downloads with
  | Some m => take (Z.to_nat m) selected
  | None => selected
  end.

Definition select_playlist_videos (playlist : PlaylistMetadata.t)
    (request : PlaylistRequest.t) : list VideoMetadata.t :=
  truncation (PlaylistRequest.max_downloads request)
    (index_window (PlaylistRequest.start_index request)
       (PlaylistRequest.end_index request)
       (explicit_selection (PlaylistMetadata.videos playlist) request)).

End spec.

(** ** Concrete inputs used by the evaluations below *)

Module inputs.
Import models config.

Definition video (n : nat) : VideoMetadata.t :=
  VideoMetadata.mk ("v" +:+ pretty n) ("video " +:+ pretty n)
    ("https://www.youtube.com/watch?v=v" +:+ pretty n).

(** A playlist of five videos, [video 0] to [video 4]. *)
Definition five_videos : PlaylistMetadata.t :=
  PlaylistMetadata.mk "PL5" "five" (video <$> seq 0 5).

(** [PlaylistRequest(url=..., start_index=s, end_index=e, max_downloads=m)],
    the other fields at their defaults. *)
Definition playlist_request (s e m : option Z) : PlaylistRequest.t :=
  PlaylistRequest.mk "https://www.youtube.com/playlist?list=PL5" 720 "mp4"
    true false ["en"] false true [] s e m.

(** [BatchRequest(urls=urls, max_concurrent=mc)], the other fields at their
    defaults. *)
Definition batch_request (urls : list string) (mc : option Z) : BatchRequest.t :=
  BatchRequest.mk urls 720 "mp4" true false ["en"] false true mc.

Definition two_urls : list string :=
  ["https://www.youtube.com/watch?v=a"; "https://www.youtube.com/watch?v=b"].

Definition completed (tid : string) : DownloadResult.t :=
  DownloadResult.mk tid COMPLETED (Some "GRABIT_video.mp4") (Some 1024%Z)
    None None.

(** Backends on which every download succeeds. *)
Definition all_succeed : yt_process.Handlers :=
  yt_process.mkHandlers
    (fun i _ => Py.Return (completed ("pytube_" +:+ pretty i)))
    (fun i _ => Py.Return (completed ("render_" +:+ pretty i)))
    (fun i _ => Py.Return (completed ("ytdlp_" +:+ pretty i))).

(** Backends on which the download of item [k] raises and every other
    download succeeds. *)
Definition item_raises (k : nat) : yt_process.Handlers :=
  let fails (i : nat) (ok : DownloadResult.t)
    : Py.Outcome DownloadResult.t :=
    if (i =? k)%nat
    then Py.Raise (Py.mkExc "ConnectionError" "network unreachable")
    else Py.Return ok in
  yt_process.mkHandlers
    (fun i _ => fails i (completed ("pytube_" +:+ pretty i)))
    (fun i _ => fails i (completed ("render_" +:+ pretty i)))
    (fun i _ => fails i (completed ("ytdlp_" +:+ pretty i))).

(** The requests of a batch of two URLs. *)
Definition two_requests : list DownloadRequest.t :=
  yt_process.batch_video_request (batch_request two_urls None) <$> two_urls.

Definition five_urls : list string :=
  (fun n => "https://www.youtube.com/watch?v=" +:+ pretty n) <$> seq 0 5.

(** [DownloadRequest(url=...)], the other fields at their defaults. *)
Definition single_request : DownloadRequest.t :=
  DownloadRequest.mk "https://www.youtube.com/watch?v=a" 720 "mp4" true false
    ["en"] false None.

Definition network_error : Py.PyException :=
  Py.mkExc "ConnectionError" "network unreachable".

(** The registry and the hub once a single download was submitted, its
    download raised before any progress update, and its coroutine
    returned. *)
Definition after_failed_download : download.DownloadOrchestrator * websocket.Hub :=
  download.single_download_lifecycle "single_ab12cd34_1700000000"
    single_request
    (Py.Return (download.IsVideo (video 0))) [] (Py.Raise network_error)
    (download.Orchestrator_init, websocket.Hub_init).

(** The registry and the hub with one task submitted and still running. *)
Definition one_running_task : download.DownloadOrchestrator * websocket.Hub :=
  snd (download.start_single_download "single_ab12cd34_1700000000"
         single_request (download.Orchestrator_init, websocket.Hub_init)).

(** The hub after connection 1 has connected and subscribed to a task. *)
Definition one_subscriber : websocket.Hub :=
  websocket.subscribe_to_task 1 "single_ab12cd34_1700000000"
    (snd (websocket.connect defaults 1 websocket.Hub_init)).

(** A syntax check used where an evaluation needs one: like pydantic's, it
    lets the URLs of these inputs through and refuses a string that has no
    scheme. *)
Definition has_http_scheme (url : string) : bool :=
  String.prefix "http://" url || String.prefix "https://" url.

(** A playlist of two videos; for the second, yt-dlp gave no [webpage_url]
    and [extract.py] filled in the empty string. *)
Definition playlist_with_missing_url : PlaylistMetadata.t :=
  PlaylistMetadata.mk "PL2" "two"
    [video 0; VideoMetadata.mk "v1" "video 1" ""].

Definition progress_for (tid : string) : DownloadProgress.t :=
  DownloadProgress.mk tid DOWNLOADING "Downloading video" None.

End inputs.

(** ** websocket.py: the rest of the connection manager *)

Module websocket_handlers.
Import models config websocket.

(** [ConnectionManager.broadcast_to_all] *)
Definition broadcast_to_all (message : WebSocketMessage.t) (h : Hub) : Hub :=
  _broadcast_to_connections (active_connections (manager h)) message h.

(** The dictionary [get_connection_stats] returns. *)
Module ConnectionStats.
Record t := mk {
  active_connections : nat;
  total_connections : nat;
  active_tasks : nat;
  max_connections : Z }.
End ConnectionStats.

(** [ConnectionManager.get_connection_stats] *)
Definition get_connection_stats (cfg : Config) (m : ConnectionManager)
  : ConnectionStats.t :=
  ConnectionStats.mk (size (active_connections m)) (connection_count m)
    (size (task_subscribers m)) (WS_MAX_CONNECTIONS cfg).

(** One round of the heartbeat loop, after its sleep. *)
Definition heartbeat_round (h : Hub) : Hub :=
  if bool_decide (active_connections (manager h) = ∅) then h
  else
    broadcast_to_all
      (WebSocketMessage.mk "heartbeat" None
         [("active_connections",
           pretty (size (active_connections (manager h))))])
      h.

(** A message of a client, once parsed: a JSON object whose ["type"] and
    ["task_id"], when present, are strings. *)
Record ClientMessage := mkClientMessage {
  message_type : option string;
  message_task_id : option string }.

Definition error_reply (text : string) : WebSocketMessage.t :=
  WebSocketMessage.mk "error" None [("error", text)].

(** [if task_id:] on an optional string. *)
Definition truthy (x : option string) : option string :=
  match x with
  | Some s => if String.eqb s "" then None else Some s
  | None => None
  end.

(** [handle_client_message] *)
Definition handle_client_message (cfg : Config) (websocket : WebSocket)
    (message : ClientMessage) (h : Hub) : Hub :=
  let message_type := message_type message in
  if bool_decide (message_type = Some "subscribe") then
    match truthy (message_task_id message) with
    | Some task_id => subscribe_to_task websocket task_id h
    | None =>
        send_message websocket
          (error_reply "task_id required for subscription") h
    end
  else if bool_decide (message_type = Some "unsubscribe") then
    match truthy (message_task_id message) with
    | Some task_id =>
        mkHub (unsubscribe_from_task websocket task_id (manager h))
          (closed h) (sent h)
    | None =>
        send_message websocket
          (error_reply "task_id required for unsubscription") h
    end
  else if bool_decide (message_type = Some "ping") then
    send_message websocket (WebSocketMessage.mk "pong" None []) h
  else if bool_decide (message_type = Some "stats") then
    let stats := get_connection_stats cfg (manager h) in
    send_message websocket
      (WebSocketMessage.mk "stats" None
         [("active_connections", pretty (ConnectionStats.active_connections stats));
          ("total_connections", pretty (ConnectionStats.total_connections stats));
          ("active_tasks", pretty (ConnectionStats.active_tasks stats));
          ("max_connections", pretty (ConnectionStats.max_connections stats))])
      h
  else
    send_message websocket
      (error_reply ("Unknown message type: " +:+ default "None" message_type))
      h.

(** No subscriber set of the registry is empty. *)
Definition no_empty_subscriber_set (m : ConnectionManager) : Prop :=
  forall task_id subscribers,
    task_subscribers m !! task_id = Some subscribers -> subscribers <> ∅.

(** What happens to the hub of a running server, one step at a time.
    [handle_websocket_connection] connects a socket, then handles the
    messages of the client (answering text that is not JSON with an error)
    until the receive raises, and disconnects in its [finally]; events are
    published by the tasks; the heartbeat fires; and a peer may go away at
    any time, after which a send to it raises. No other code touches the
    manager. *)
Inductive Hub_step (cfg : Config) : Hub -> Hub -> Prop :=
| hub_connects websocket h :
    Hub_step cfg h (snd (connect cfg websocket h))
| hub_handles websocket message h :
    Hub_step cfg h (handle_client_message cfg websocket message h)
| hub_rejects_json websocket h :
    Hub_step cfg h
      (send_message websocket (error_reply "Invalid JSON format") h)
| hub_disconnects websocket h :
    Hub_step cfg h
      (mkHub (disconnect websocket (manager h)) (closed h) (sent h))
| hub_publishes event h :
    Hub_step cfg h (publish event h)
| hub_heartbeat h :
    Hub_step cfg h (heartbeat_round h)
| hub_peer_leaves websocket h :
    Hub_step cfg h (mkHub (manager h) ({[websocket]} ∪ closed h) (sent h)).

(** The hubs a server can be in: those the steps lead to from the hub of a
    fresh [ConnectionManager]. *)
Definition Hub_reachable (cfg : Config) (h : Hub) : Prop :=
  rtc (Hub_step cfg) Hub_init h.

End websocket_handlers.

(** ** api.py: the task endpoints *)

Module api.
Import models config download.

(** What an endpoint ends in: a response, an [HTTPException], or an
    exception of another class. *)
Inductive Reply (A : Type) : Type :=
| Response (a : A)
| HTTPException (status_code : Z) (detail : string)
| Unhandled (e : Py.PyException).
Arguments Response {A} a.
Arguments HTTPException {A} status_code detail.
Arguments Unhandled {A} e.

(** [DownloadStatus(value)]: the member with that value, if there is one. *)
Definition DownloadStatus_of_value (value : string) : option DownloadStatus :=
  if String.eqb value "pending" then Some PENDING
  else if String.eqb value "extracting" then Some EXTRACTING
  else if String.eqb value "downloading" then Some DOWNLOADING
  else if String.eqb value "rendering" then Some RENDERING
  else if String.eqb value "completed" then Some COMPLETED
  else if String.eqb value "failed" then Some FAILED
  else if String.eqb value "cancelled" then Some CANCELLED
  else None.

(** [TaskStatusResponse]; [progress] is never given by the endpoint. *)
Module TaskStatusResponse.
Record t := mk {
  task_id : string;
  status : DownloadStatus;
  result : option DownloadResult.t }.
End TaskStatusResponse.

Definition validation_error : Py.PyException :=
  Py.mkExc "ValidationError" "validation error for TaskStatusResponse".

(** [TaskStatusResponse] built from the keys of the status dictionary:
    [status] must be the value of a
    [DownloadStatus] member, and [result], when given, must have the fields
    of a [DownloadResult]; the keys [done] and [cancelled] are ignored. *)
Definition TaskStatusResponse_of (status : TaskStatus.t)
  : Py.Outcome TaskStatusResponse.t :=
  match DownloadStatus_of_value (TaskStatus.status status) with
  | None => Py.Raise validation_error
  | Some member =>
      match TaskStatus.result status with
      | None =>
          Py.Return (TaskStatusResponse.mk (TaskStatus.task_id status) member None)
      | Some (OfSingle result) =>
          Py.Return (TaskStatusResponse.mk (TaskStatus.task_id status) member
                       (Some result))
      | Some (OfBatch _) | Some (OfPlaylist _) => Py.Raise validation_error
      end
  end.

(** [get_task_status_endpoint] *)
Definition get_task_status_endpoint (task_id : string)
    (o : DownloadOrchestrator) : Reply TaskStatusResponse.t :=
  match get_task_status task_id o with
  | None => HTTPException 404 "Task not found"
  | Some status =>
      match TaskStatusResponse_of status with
      | Py.Return response => Response response
      | Py.Raise e => Unhandled e
      end
  end.

(** [cancel_task_endpoint]: the reply, and the registry and the hub it
    leaves. *)
Definition cancel_task_endpoint (task_id : string)
    (s : DownloadOrchestrator * websocket.Hub)
  : Reply string * (DownloadOrchestrator * websocket.Hub) :=
  match cancel_task task_id s with
  | Py.Return (success, s') =>
      if negb success
      then (HTTPException 404 "Task not found or already completed", s')
      else (Response "Task cancelled successfully", s')
  | Py.Raise e => (Unhandled e, s)
  end.

End api.

(** ** yt_process.py: the table of recommended qualities *)

Module yt_process_tables.

(** [ProcessingStrategy.get_recommended_qualities]: the dictionary, as its
    items. *)
Definition get_recommended_qualities : list (string * list Z) :=
  [("pytube", [144; 240; 360; 480; 720]%Z);
   ("yt-dlp", [144; 240; 360; 480; 720; 1080; 1440; 2160]%Z);
   ("render", [1080; 1440; 2160]%Z)].

(** [get_recommended_qualities()[key]] for one of its keys. *)
Definition recommended (key : string) : list Z :=
  match list_find (fun item => fst item = key) get_recommended_qualities with
  | Some (_, (_, qualities)) => qualities
  | None => []
  end.

End yt_process_tables.

(** ** Python [str] values, by code point *)

Module PyStr.

(** Where the code works on the characters of a string, the string is the
    list of its code points. The two tables of Unicode the code relies on,
    [str.isspace] and [str.isalnum] of a character, are parameters. *)

Section Tables.
Variable isspace : nat -> bool.

(** [s.lstrip()] *)
Fixpoint lstrip (s : list nat) : list nat :=
  match s with
  | c :: rest => if isspace c then lstrip rest else s
  | [] => []
  end.

(** [s.rstrip()] *)
Definition rstrip (s : list nat) : list nat := reverse (lstrip (reverse s)).

(** [s.strip()] *)
Definition strip (s : list nat) : list nat := rstrip (lstrip s).

(** [s.split()], [word] being the word read so far. *)
Fixpoint split_whitespace_from (word s : list nat) : list (list nat) :=
  match s with
  | c :: rest =>
      if isspace c then
        match word with
        | [] => split_whitespace_from [] rest
        | _ => word :: split_whitespace_from [] rest
        end
      else split_whitespace_from (word ++ [c]) rest
  | [] => match word with [] => [] | _ => [word] end
  end.

(** [s.split()] *)
Definition split_whitespace (s : list nat) : list (list nat) :=
  split_whitespace_from [] s.

End Tables.

(** [s.split(sep)] for a separator of one character, [piece] being the
    piece read so far. *)
Fixpoint split_on_from (sep : nat) (piece s : list nat) : list (list nat) :=
  match s with
  | c :: rest =>
      if (c =? sep)%nat then piece :: split_on_from sep [] rest
      else split_on_from sep (piece ++ [c]) rest
  | [] => [piece]
  end.

(** [s.split(sep)] *)
Definition split_on (sep : nat) (s : list nat) : list (list nat) :=
  split_on_from sep [] s.

(** [sep.join(words)] *)
Fixpoint join (sep : list nat) (words : list (list nat)) : list nat :=
  match words with
  | [] => []
  | [w] => w
  | w :: rest => w ++ sep ++ join sep rest
  end.

(** [s.replace(old, new)] for two strings of one character. *)
Definition replace_char (old new : nat) (s : list nat) : list nat :=
  (fun c => if (c =? old)%nat then new else c) <$> s.

(** No two neighbours of the string are both the character [c]. *)
Fixpoint never_twice (c : nat) (s : list nat) : Prop :=
  match s with
  | a :: rest =>
      match rest with
      | b :: _ => ~ (a = c /\ b = c)
      | [] => True
      end /\ never_twice c rest
  | [] => True
  end.

(** The tables restricted to ASCII: space, tab, line feed, vertical tab,
    form feed, carriage return and the four separators 28 to 31 are
    whitespace; digits and letters are alphanumeric. *)
Definition ascii_isspace (c : nat) : bool :=
  (c =? 32)%nat || ((9 <=? c)%nat && (c <=? 13)%nat)
  || ((28 <=? c)%nat && (c <=? 31)%nat).

Definition ascii_isalnum (c : nat) : bool :=
  ((48 <=? c)%nat && (c <=? 57)%nat)
  || ((65 <=? c)%nat && (c <=? 90)%nat)
  || ((97 <=? c)%nat && (c <=? 122)%nat).

(** The code points of a string of ASCII characters. *)
Definition of_string (s : string) : list nat :=
  (fun a => Ascii.nat_of_ascii a) <$> String.list_ascii_of_string s.

End PyStr.

(** ** render.py and config.py: file names and origins *)

Module filenames.

(** The characters of [invalid_chars]: less-than, greater-than, colon, double
    quote, slash, backslash, bar, question mark, asterisk. *)
Definition invalid_chars : list nat := [60; 62; 58; 34; 47; 92; 124; 63; 42].

(** [FFmpegRenderer._sanitize_filename] *)
Definition _sanitize_filename (isspace : nat -> bool) (filename : list nat)
  : list nat :=
  let filename :=
    foldl (fun filename char => PyStr.replace_char char 95 filename)
      filename invalid_chars in
  let filename :=
    if (200 <? length filename)%nat then take 200 filename else filename in
  PyStr.strip isspace filename.

(** The name [get_download_filename] puts between the prefix and the
    extension: its [clean_name]. *)
Definition clean_name (isspace isalnum : nat -> bool) (base_name : list nat)
  : list nat :=
  let clean_name :=
    PyStr.strip isspace
      (filter (fun c => isalnum c = true \/ c ∈ [32; 45; 95]) base_name) in
  PyStr.join [32] (PyStr.split_whitespace isspace clean_name).

(** [Config.get_download_filename] *)
Definition get_download_filename (isspace isalnum : nat -> bool)
    (SITENAME_PREFIX base_name extension : list nat) : list nat :=
  SITENAME_PREFIX ++ [95] ++ clean_name isspace isalnum base_name
  ++ [46] ++ extension.

(** [Config._parse_cors_origins] *)
Definition _parse_cors_origins (isspace : nat -> bool) (cors_string : list nat)
  : list (list nat) :=
  match cors_string with
  | [] => [[42]]
  | _ =>
      omap (fun origin =>
              match PyStr.strip isspace origin with
              | [] => None
              | _ => Some (PyStr.strip isspace origin)
              end)
           (PyStr.split_on 44 cors_string)
  end.

End filenames.

(** ** extract.py: the kind of a video *)

Module extract.

Inductive VideoType := VIDEO | SHORTS | LIVE | PREMIERE.

(** The keys of the yt-dlp dictionary that [_detect_video_type] reads:
    whether ["is_live"] and ["was_live"] are truthy, the string under
    ["live_status"], and the whole seconds under ["duration"]. *)
Record Info := mkInfo {
  is_live : bool;
  was_live : bool;
  live_status : option string;
  duration : option Z }.

(** [MetadataExtractor._detect_video_type] *)
Definition _detect_video_type (info : Info) : VideoType :=
  if is_live info then LIVE
  else if was_live info then LIVE
  else if bool_decide (live_status info = Some "is_upcoming") then PREMIERE
  else
    match duration info with
    | Some d => if negb (d =? 0)%Z && (d <=? 60)%Z then SHORTS else VIDEO
    | None => VIDEO
    end.

End extract.

(** * Properties *)

(** ** Python helpers *)

Module Py_facts.

Lemma str_in_elem_of (x : string) (l : list string) :
  Py.str_in x l = true <-> x ∈ l.
Proof.
  unfold Py.str_in. induction l as [|y l IH]; simpl.
  - split; [discriminate | intros H; inversion H].
  - rewrite orb_true_iff, IH, elem_of_cons, String.eqb_eq. tauto.
Qed.

Lemma str_in_not_elem_of (x : string) (l : list string) :
  Py.str_in x l = false <-> x ∉ l.
Proof.
  rewrite <- str_in_elem_of. destruct (Py.str_in x l); split; congruence.
Qed.

Lemma slice_from_nonneg {A} (l : list A) (i : Z) :
  (0 <= i)%Z -> Py.slice_from l i = drop (Z.to_nat i) l.
Proof.
  intros Hi. unfold Py.slice_from, Py.slice_bound.
  destruct (Z.ltb_spec i 0); [lia|].
  destruct (Z.le_gt_cases i (Z.of_nat (length l))).
  - by rewrite Z.min_l by lia.
  - rewrite Z.min_r by lia. rewrite Nat2Z.id.
    rewrite !drop_ge; [done | lia | lia].
Qed.

Lemma slice_to_nonneg {A} (l : list A) (j : Z) :
  (0 <= j)%Z -> Py.slice_to l j = take (Z.to_nat j) l.
Proof.
  intros Hj. unfold Py.slice_to, Py.slice_bound.
  destruct (Z.ltb_spec j 0); [lia|].
  destruct (Z.le_gt_cases j (Z.of_nat (length l))).
  - by rewrite Z.min_l by lia.
  - rewrite Z.min_r by lia. rewrite Nat2Z.id.
    rewrite !take_ge; [done | lia | lia].
Qed.

Lemma slice_to_neg {A} (l : list A) (j : Z) :
  (j < 0)%Z -> Py.slice_to l j = take (length l - Z.to_nat (- j)) l.
Proof.
  intros Hj. unfold Py.slice_to, Py.slice_bound.
  destruct (Z.ltb_spec j 0); [|lia]. f_equal. lia.
Qed.

End Py_facts.

(** ** Routing *)

Module routing_facts.
Import models config yt_process.

Lemma determine_processor_cases (cfg : Config) (quality : Z) (operation : string) :
  determine_processor cfg quality operation =
    if Py.str_in operation ["download"; "stream"]
    then if is_quality_direct_download cfg quality then PYTUBE else YTDLP
    else YTDLP.
Proof.
  unfold determine_processor.
  destruct (Py.str_in operation ["metadata"; "extract"; "info"]) eqn:Hmeta.
  - apply Py_facts.str_in_elem_of in Hmeta.
    destruct (Py.str_in operation ["download"; "stream"]) eqn:Hdl; [|done].
    apply Py_facts.str_in_elem_of in Hdl.
    exfalso. revert Hmeta Hdl. rewrite !elem_of_cons, !elem_of_nil.
    intros [->|[->|[->|[]]]]; intros [?|[?|[]]]; discriminate.
  - by destruct (Py.str_in operation ["download"; "stream"]),
         (Py.str_in operation ["subtitles"; "thumbnail"; "captions"]).
Qed.

(** C4. Routing is a total function of the quality and the operation. The
    metadata, info, subtitle, thumbnail and caption operations, and every
    operation that is neither "download" nor "stream", go to yt-dlp; a
    download or stream goes to pytube exactly when the quality is at most
    [MAX_QUALITY_DIRECT], and above it to yt-dlp on the path that downloads
    the streams apart and renders them. *)
Theorem routing_policy (cfg : Config) (quality : Z) (operation : string) :
  (operation ∈ ["metadata"; "extract"; "info"; "subtitles"; "thumbnail";
                "captions"] ->
   determine_processor cfg quality operation = YTDLP)
  /\ (operation ∉ ["download"; "stream"] ->
      determine_processor cfg quality operation = YTDLP)
  /\ (operation ∈ ["download"; "stream"] ->
      (determine_processor cfg quality operation = PYTUBE
       <-> (quality <= MAX_QUALITY_DIRECT cfg)%Z)
      /\ ((quality <= MAX_QUALITY_DIRECT cfg)%Z ->
          download_path cfg quality = DirectPytube)
      /\ ((MAX_QUALITY_DIRECT cfg < quality)%Z ->
          determine_processor cfg quality operation = YTDLP
          /\ requires_rendering cfg quality = true
          /\ download_path cfg quality = SplitRender)).
Proof.
  assert (Hdl : forall op, op ∈ ["download"; "stream"] ->
            determine_processor cfg quality op =
              if is_quality_direct_download cfg quality then PYTUBE else YTDLP).
  { intros op Hop. rewrite determine_processor_cases.
    apply Py_facts.str_in_elem_of in Hop. by rewrite Hop. }
  assert (Hother : forall op, op ∉ ["download"; "stream"] ->
            determine_processor cfg quality op = YTDLP).
  { intros op Hop. rewrite determine_processor_cases.
    apply Py_facts.str_in_not_elem_of in Hop. by rewrite Hop. }
  split; [|split].
  - intros Hop. apply Hother. revert Hop. rewrite !elem_of_cons, !elem_of_nil.
    intros [->|[->|[->|[->|[->|[->|[]]]]]]]; intros [?|[?|[]]]; discriminate.
  - apply Hother.
  - intros Hop. unfold download_path, requires_rendering.
    rewrite (Hdl operation Hop), (Hdl "download") by apply list_elem_of_here.
    unfold is_quality_direct_download.
    destruct (Z.leb_spec quality (MAX_QUALITY_DIRECT cfg)); simpl.
    + repeat split; auto; lia.
    + repeat split; auto; try lia; try discriminate.
Qed.

Lemma direct_ytdlp_unreachable (cfg : Config) (quality : Z) :
  download_path cfg quality <> DirectYtdlp.
Proof.
  unfold download_path, requires_rendering.
  rewrite determine_processor_cases. simpl.
  by destruct (is_quality_direct_download cfg quality).
Qed.

Example routing_480p : determine_processor defaults 480 "download" = PYTUBE.
Proof. reflexivity. Qed.

Example routing_2160p : download_path defaults 2160 = SplitRender.
Proof. reflexivity. Qed.

End routing_facts.

(** ** Playlist selection *)

Module selection_facts.
Import models config inputs.

Lemma select_same_in_both_modules playlist request :
  download._select_playlist_videos playlist request
  = yt_process._select_playlist_videos playlist request.
Proof. reflexivity. Qed.

(** With a start and an end that are not negative, the code keeps the
    positions [start] to [start + end]: the end is counted from the start. *)
Lemma select_window_counts_end_from_start playlist request (s e : Z) :
  PlaylistRequest.start_index request = Some s ->
  PlaylistRequest.end_index request = Some e ->
  PlaylistRequest.max_downloads request = None ->
  (0 <= s)%Z -> (0 <= e)%Z ->
  download._select_playlist_videos playlist request
  = spec.index_window (Some s) (Some (s + e)%Z)
      (spec.explicit_selection (PlaylistMetadata.videos playlist) request).
Proof.
  intros Hs He Hm Hs0 He0.
  unfold download._select_playlist_videos, spec.index_window.
  rewrite Hs, He, Hm.
  fold (spec.explicit_selection (PlaylistMetadata.videos playlist) request).
  set (sel := spec.explicit_selection _ _).
  rewrite Z.max_r by lia.
  rewrite (Py_facts.slice_from_nonneg sel s) by lia.
  rewrite Py_facts.slice_to_nonneg by lia.
  rewrite take_drop_commute. f_equal.
  set (n := length (drop (Z.to_nat s) sel)).
  assert (Hn : n = (length sel - Z.to_nat s)%nat) by apply length_drop.
  destruct (Z.le_gt_cases (Z.of_nat n) (e + 1)).
  - rewrite Z.min_l by lia. rewrite Nat2Z.id.
    rewrite !take_ge; [done | lia | lia].
  - rewrite Z.min_r by lia. f_equal. lia.
Qed.

(** Where the code and the specification's three steps agree: no start (or
    a start that is not positive), and an end and a maximum that are not
    negative. *)
Lemma select_agrees_without_start playlist request :
  match PlaylistRequest.start_index request with
  | Some s => (s <= 0)%Z | None => True end ->
  match PlaylistRequest.end_index request with
  | Some e => (0 <= e)%Z | None => True end ->
  match PlaylistRequest.max_downloads request with
  | Some m => (0 <= m)%Z | None => True end ->
  download._select_playlist_videos playlist request
  = spec.select_playlist_videos playlist request.
Proof.
  intros Hs He Hm.
  unfold download._select_playlist_videos, spec.select_playlist_videos,
    spec.index_window, spec.truncation.
  fold (spec.explicit_selection (PlaylistMetadata.videos playlist) request).
  set (sel := spec.explicit_selection _ _).
  assert (Hstart :
    match PlaylistRequest.start_index request with
    | Some s => Py.slice_from sel (Z.max 0 s) | None => sel end = sel).
  { destruct (PlaylistRequest.start_index request) as [s|]; [|done].
    rewrite Z.max_l by lia. by rewrite Py_facts.slice_from_nonneg. }
  rewrite Hstart.
  assert (Hend :
    match PlaylistRequest.end_index request with
    | Some e => Py.slice_to sel (Z.min (Z.of_nat (length sel)) (e + 1))
    | None => sel end
    = match PlaylistRequest.start_index request with
      | Some s =>
          drop (Z.to_nat s)
            match PlaylistRequest.end_index request with
            | Some e => take (Z.to_nat (e + 1)) sel | None => sel end
      | None =>
          match PlaylistRequest.end_index request with
          | Some e => take (Z.to_nat (e + 1)) sel | None => sel end
      end).
  { assert (Hdrop : forall l : list VideoMetadata.t,
              match PlaylistRequest.start_index request with
              | Some s => drop (Z.to_nat s) l | None => l end = l).
    { intros l. destruct (PlaylistRequest.start_index request) as [s|]; [|done].
      by replace (Z.to_nat s) with 0%nat by lia. }
    rewrite Hdrop.
    destruct (PlaylistRequest.end_index request) as [e|]; [|done].
    rewrite Py_facts.slice_to_nonneg by lia.
    destruct (Z.le_gt_cases (Z.of_nat (length sel)) (e + 1)).
    - rewrite Z.min_l by lia. rewrite Nat2Z.id.
      rewrite !take_ge; [done | lia | lia].
    - by rewrite Z.min_r by lia. }
  rewrite Hend.
  destruct (PlaylistRequest.max_downloads request) as [m|]; [|done].
  by rewrite Py_facts.slice_to_nonneg.
Qed.

(** C9, on the code. Five videos, all selected, [start_index = 1] and
    [end_index = 2]: the window from position 1 to position 2, the end
    included, holds two videos; the code returns three, the positions 1 to 3,
    because it cuts at the end index after the list was cut at the start. *)
Theorem select_window_end_is_rebased :
  download._select_playlist_videos five_videos
    (playlist_request (Some 1%Z) (Some 2%Z) None)
  = [video 1; video 2; video 3]
  /\ spec.select_playlist_videos five_videos
       (playlist_request (Some 1%Z) (Some 2%Z) None)
     = [video 1; video 2].
Proof. split; reflexivity. Qed.

(** A negative end index or maximum is taken as a Python slice bound and
    drops items from the end of the list. *)
Lemma select_negative_bounds_drop_from_the_end :
  download._select_playlist_videos five_videos
    (playlist_request None (Some (-2)%Z) None)
  = [video 0; video 1; video 2; video 3]
  /\ download._select_playlist_videos five_videos
       (playlist_request None None (Some (-1)%Z))
     = [video 0; video 1; video 2; video 3].
Proof. split; reflexivity. Qed.

End selection_facts.

(** ** The broadcast hub *)

Module websocket_facts.
Import models config websocket inputs.

(** *** disconnect *)

Lemma disconnect_removes (ws : WebSocket) (m : ConnectionManager) :
  ws ∈ active_connections m ->
  (ws ∉ active_connections (disconnect ws m))
  /\ (forall task_id subscribers,
        task_subscribers (disconnect ws m) !! task_id = Some subscribers ->
        ws ∉ subscribers).
Proof.
  intros Hin. unfold disconnect. rewrite bool_decide_eq_true_2 by done.
  simpl. split; [set_solver|].
  intros task_id subscribers. rewrite lookup_fmap.
  destruct (task_subscribers m !! task_id) as [s|]; simpl; [|done].
  intros [= <-]. set_solver.
Qed.

(** The cleanup is guarded by membership in the global set: for a
    connection that is not in it, nothing is removed, subscriptions
    included. *)
Lemma disconnect_of_unconnected (ws : WebSocket) (m : ConnectionManager) :
  ws ∉ active_connections m -> disconnect ws m = m.
Proof. intros Hnin. unfold disconnect. by rewrite bool_decide_eq_false_2. Qed.

Lemma disconnect_idempotent (ws : WebSocket) (m : ConnectionManager) :
  disconnect ws (disconnect ws m) = disconnect ws m.
Proof.
  unfold disconnect at 2 3.
  destruct (bool_decide (ws ∈ active_connections m)) eqn:Hin.
  - unfold disconnect. simpl. rewrite bool_decide_eq_false_2; [done|set_solver].
  - unfold disconnect. by rewrite Hin.
Qed.

Lemma disconnect_keeps_others (ws ws' : WebSocket) (m : ConnectionManager)
    (task_id : string) :
  ws' <> ws ->
  ws' ∈ default ∅ (task_subscribers m !! task_id) ->
  ws' ∈ default ∅ (task_subscribers (disconnect ws m) !! task_id).
Proof.
  intros Hne Hin. unfold disconnect. case_bool_decide; [|done].
  simpl. rewrite lookup_fmap.
  destruct (task_subscribers m !! task_id) as [s|]; simpl in *; set_solver.
Qed.

(** The sibling path: [unsubscribe_from_task] never leaves an empty set
    under the task id. *)
Lemma unsubscribe_leaves_no_empty_set (ws : WebSocket) (task_id : string)
    (m : ConnectionManager) :
  task_subscribers m !! task_id <> Some ∅ ->
  task_subscribers (unsubscribe_from_task ws task_id m) !! task_id <> Some ∅.
Proof.
  intros Hne. unfold unsubscribe_from_task.
  destruct (task_subscribers m !! task_id) as [s|] eqn:Hs; simpl.
  - case_bool_decide.
    + by rewrite lookup_delete_eq.
    + rewrite lookup_insert_eq. congruence.
  - by rewrite Hs.
Qed.

(** C6, on the code. Connection 1 connects and subscribes to a task, then
    disconnects: it is gone from the global set and from the subscriber
    set, but the now empty subscriber set stays in the registry, where
    [unsubscribe_from_task] deletes it. *)
Theorem disconnect_leaves_empty_subscriber_set :
  let m := manager one_subscriber in
  active_connections m = {[1]}
  /\ task_subscribers m !! "single_ab12cd34_1700000000" = Some {[1]}
  /\ (1 ∉ active_connections (disconnect 1 m))
  /\ task_subscribers (disconnect 1 m) !! "single_ab12cd34_1700000000"
     = Some ∅
  /\ task_subscribers (unsubscribe_from_task 1 "single_ab12cd34_1700000000" m)
       !! "single_ab12cd34_1700000000" = None.
Proof.
  vm_compute. repeat split; try reflexivity. discriminate.
Qed.

End websocket_facts.

(** ** Publishing to the subscribers of a task *)

Module publish_facts.
Import models config websocket inputs.

Section Broadcast.
Variable message : WebSocketMessage.t.

Local Abbreviation the_send := (websocket.the_send message).

Lemma send_message_closed ws h : closed (send_message ws message h) = closed h.
Proof. unfold send_message. by case_bool_decide. Qed.

Lemma send_message_sent ws h :
  sent (send_message ws message h) = sent h ++ [the_send h ws].
Proof. unfold send_message, websocket.the_send. by case_bool_decide. Qed.

Lemma send_message_keeps_open_subscriber ws c h task_id :
  c ∉ closed h ->
  c ∈ subscribers_of task_id h ->
  c ∈ subscribers_of task_id (send_message ws message h).
Proof.
  intros Hopen Hin. unfold send_message, subscribers_of.
  case_bool_decide as Hws; simpl; [|done].
  apply websocket_facts.disconnect_keeps_others; [|done].
  intros ->. contradiction.
Qed.

Lemma sends_fold (l : list WebSocket) (h : Hub) :
  let h' := foldl (fun h ws => send_message ws message h) h l in
  closed h' = closed h
  /\ sent h' = sent h ++ (the_send h <$> l)
  /\ (forall c task_id,
        c ∉ closed h -> c ∈ subscribers_of task_id h ->
        c ∈ subscribers_of task_id h').
Proof.
  revert h. induction l as [|ws l IH]; intros h; simpl.
  - split; [done|]. split; [by rewrite app_nil_r | auto].
  - destruct (IH (send_message ws message h)) as (Hc & Hs & Hk).
    rewrite send_message_closed in Hc.
    split; [done|]. split.
    + rewrite Hs, send_message_sent, <- app_assoc. simpl.
      do 2 f_equal. apply list_fmap_ext. intros _ c _.
      unfold websocket.the_send. by rewrite send_message_closed.
    + intros c task_id Hopen Hin. apply Hk.
      * by rewrite send_message_closed.
      * by apply send_message_keeps_open_subscriber.
Qed.

Lemma broadcast_to_connections_spec (connections : gset WebSocket) (h : Hub) :
  let h' := _broadcast_to_connections connections message h in
  closed h' = closed h
  /\ sent h' = sent h ++ (the_send h <$> elements connections)
  /\ (forall c task_id,
        c ∉ closed h -> c ∈ subscribers_of task_id h ->
        c ∈ subscribers_of task_id h').
Proof.
  unfold _broadcast_to_connections. case_bool_decide as Hempty.
  - subst. rewrite elements_empty. simpl. rewrite app_nil_r. auto.
  - apply sends_fold.
Qed.

(** In a list without repetition, a connection is sent the message once if
    it is in the list and not at all otherwise. *)
Lemma times_sent_nodup (h : Hub) (l : list WebSocket) (ws : WebSocket) :
  NoDup l ->
  times_sent ws message (the_send h <$> l) = if decide (ws ∈ l) then 1 else 0.
Proof.
  unfold times_sent. induction 1 as [|c l Hc Hnd IH].
  - by rewrite decide_False by apply not_elem_of_nil.
  - rewrite fmap_cons, filter_cons.
    destruct (decide (send_to (the_send h c) = ws
                      /\ send_message_of (the_send h c) = message))
      as [[Heq _]|Hne]; simpl in *.
    + subst c. rewrite IH.
      rewrite (decide_False (P := ws ∈ l)) by done.
      by rewrite decide_True by apply list_elem_of_here.
    + rewrite IH. assert (c <> ws) by (intros ->; by apply Hne).
      destruct (decide (ws ∈ l)) as [Hin|Hnin].
      * by rewrite decide_True by (by apply list_elem_of_further).
      * rewrite decide_False; [done|].
        rewrite elem_of_cons. intros [->|?]; done.
Qed.

Lemma received_nodup (h : Hub) (l : list WebSocket) (ws : WebSocket) :
  NoDup l -> ws ∈ l -> ws ∉ closed h ->
  omap (fun s => if bool_decide (send_to s = ws) && send_ok s
                 then Some (send_message_of s) else None)
       (the_send h <$> l) = [message].
Proof.
  intros Hnd Hin Hopen. induction Hnd as [|c l Hc Hnd IH]; simpl.
  - by apply elem_of_nil in Hin.
  - apply elem_of_cons in Hin. destruct (decide (c = ws)) as [->|Hne].
    + rewrite bool_decide_eq_true_2 by done.
      rewrite bool_decide_eq_false_2 by done. simpl. f_equal.
      clear IH Hin Hnd. induction l as [|d l IHl]; simpl; [done|].
      rewrite not_elem_of_cons in Hc. destruct Hc as [Hd Hl].
      rewrite bool_decide_eq_false_2 by congruence. simpl. by apply IHl.
    + rewrite bool_decide_eq_false_2 by done. simpl.
      destruct Hin as [->|Hin]; [done|]. by apply IH.
Qed.

End Broadcast.

Lemma broadcast_progress_spec (progress : DownloadProgress.t) (h : Hub) :
  DownloadProgress.task_id progress <> "" ->
  let h' := broadcast_progress progress h in
  closed h' = closed h
  /\ sent h' = sent h ++ (the_send (progress_message progress) h
                           <$> elements (subscribers_of
                                 (DownloadProgress.task_id progress) h))
  /\ (forall c task_id,
        c ∉ closed h -> c ∈ subscribers_of task_id h ->
        c ∈ subscribers_of task_id h').
Proof.
  intros Hid. unfold broadcast_progress.
  apply String.eqb_neq in Hid. rewrite Hid.
  case_bool_decide as Hempty.
  - rewrite Hempty, elements_empty. simpl. rewrite app_nil_r. auto.
  - apply broadcast_to_connections_spec.
Qed.

Lemma broadcast_progress_received (progress : DownloadProgress.t) (h : Hub)
    (ws : WebSocket) :
  DownloadProgress.task_id progress <> "" ->
  ws ∈ subscribers_of (DownloadProgress.task_id progress) h ->
  ws ∉ closed h ->
  received ws (broadcast_progress progress h)
  = received ws h ++ [progress_message progress].
Proof.
  intros Hid Hin Hopen.
  destruct (broadcast_progress_spec progress h Hid) as (_ & Hsent & _).
  unfold received. rewrite Hsent, omap_app. f_equal.
  apply received_nodup; [apply NoDup_elements | | done].
  by apply elem_of_elements.
Qed.

(** [broadcast_status] has no guard on the task id: it reaches the
    subscribers of every id. *)
Lemma broadcast_status_spec (task_id status : string)
    (data : list (string * string)) (h : Hub) :
  let h' := broadcast_status task_id status data h in
  closed h' = closed h
  /\ sent h' = sent h ++ (the_send (status_message task_id status data) h
                           <$> elements (subscribers_of task_id h)).
Proof.
  unfold broadcast_status. case_bool_decide as Hempty.
  - rewrite Hempty, elements_empty. simpl. by rewrite app_nil_r.
  - destruct (broadcast_to_connections_spec
                (status_message task_id status data)
                (subscribers_of task_id h) h) as (? & ? & _). auto.
Qed.

End publish_facts.

(** ** Published events, on the hubs a server reaches *)

Module event_facts.
Import models config websocket websocket_handlers inputs.

(** *** No connection is ever subscribed under the empty task id *)

Lemma disconnect_registry_key (ws : WebSocket) (m : ConnectionManager)
    (tid : string) :
  task_subscribers m !! tid = None ->
  task_subscribers (disconnect ws m) !! tid = None.
Proof.
  intros Hnone. unfold disconnect. case_bool_decide; [|done]. simpl.
  by rewrite lookup_fmap, Hnone.
Qed.

Lemma send_registry_key (ws : WebSocket) (message : WebSocketMessage.t)
    (h : Hub) (tid : string) :
  task_subscribers (manager h) !! tid = None ->
  task_subscribers (manager (send_message ws message h)) !! tid = None.
Proof.
  intros Hnone. unfold send_message. case_bool_decide; simpl; [|done].
  by apply disconnect_registry_key.
Qed.

Lemma broadcast_registry_key (connections : gset WebSocket)
    (message : WebSocketMessage.t) (h : Hub) (tid : string) :
  task_subscribers (manager h) !! tid = None ->
  task_subscribers
    (manager (_broadcast_to_connections connections message h)) !! tid = None.
Proof.
  unfold _broadcast_to_connections. case_bool_decide; [done|].
  generalize (elements connections). intros l. revert h.
  induction l as [|ws l IH]; intros h Hnone; simpl; [done|].
  by apply IH, send_registry_key.
Qed.

Lemma publish_registry_key (event : Event) (h : Hub) (tid : string) :
  task_subscribers (manager h) !! tid = None ->
  task_subscribers (manager (publish event h)) !! tid = None.
Proof.
  intros Hnone.
  destruct event as [progress|task_id status data|task_id error error_type
                    |task_id metadata]; simpl;
    unfold broadcast_progress, broadcast_status, broadcast_error,
      broadcast_metadata;
    repeat (case_match; try done); by apply broadcast_registry_key.
Qed.

Lemma truthy_not_empty (x : option string) (s : string) :
  truthy x = Some s -> s <> "".
Proof.
  unfold truthy. destruct x as [t|]; [|done].
  destruct (String.eqb_spec t ""); [done|]. by intros [= <-].
Qed.

Lemma client_message_registry_key (cfg : Config) (ws : WebSocket)
    (message : ClientMessage) (h : Hub) :
  task_subscribers (manager h) !! "" = None ->
  task_subscribers (manager (handle_client_message cfg ws message h)) !! ""
  = None.
Proof.
  intros Hnone. unfold handle_client_message.
  case_bool_decide.
  { destruct (truthy (message_task_id message)) as [task_id|] eqn:Htid;
      [|by apply send_registry_key].
    apply truthy_not_empty in Htid. unfold subscribe_to_task.
    apply send_registry_key. simpl. by rewrite lookup_insert_ne. }
  case_bool_decide.
  { destruct (truthy (message_task_id message)) as [task_id|] eqn:Htid;
      [|by apply send_registry_key].
    apply truthy_not_empty in Htid. simpl. unfold unsubscribe_from_task.
    destruct (task_subscribers (manager h) !! task_id); simpl; [|done].
    case_bool_decide.
    - by rewrite lookup_delete_ne.
    - by rewrite lookup_insert_ne. }
  repeat case_bool_decide; by apply send_registry_key.
Qed.

Lemma step_keeps_empty_id_free (cfg : Config) (h h' : Hub) :
  Hub_step cfg h h' ->
  task_subscribers (manager h) !! "" = None ->
  task_subscribers (manager h') !! "" = None.
Proof.
  intros Hstep Hnone.
  destruct Hstep as [ws h|ws message h|ws h|ws h|event h|h|ws h]; simpl.
  - unfold connect. case_match; [done|]. simpl. by apply send_registry_key.
  - by apply client_message_registry_key.
  - by apply send_registry_key.
  - by apply disconnect_registry_key.
  - by apply publish_registry_key.
  - unfold heartbeat_round, broadcast_to_all. case_bool_decide; [done|].
    by apply broadcast_registry_key.
  - done.
Qed.

(** On every hub the server reaches, nobody is subscribed under the empty
    task id: [handle_client_message], the only caller of
    [subscribe_to_task], asks for a task id that is not empty. *)
Lemma reachable_empty_id_free (cfg : Config) (h : Hub) :
  Hub_reachable cfg h -> task_subscribers (manager h) !! "" = None.
Proof.
  intros Hreach.
  eapply (rtc_ind_r (fun h => task_subscribers (manager h) !! "" = None));
    [| |exact Hreach].
  - apply lookup_empty.
  - intros y z _ Hstep IH. by eapply step_keeps_empty_id_free.
Qed.

(** *** What a publication sends *)

(** With nobody subscribed under the empty id, the guard of
    [broadcast_progress] on the id is covered by its guard on the
    subscribers, and the four functions publish alike. *)
Lemma publish_unfold (event : Event) (h : Hub) :
  task_subscribers (manager h) !! "" = None ->
  publish event h
  = if bool_decide (subscribers_of (event_task_id event) h = ∅) then h
    else _broadcast_to_connections (subscribers_of (event_task_id event) h)
           (event_message event) h.
Proof.
  intros Hnone.
  destruct event as [progress|task_id status data|task_id error error_type
                    |task_id metadata]; simpl; try done.
  unfold broadcast_progress.
  destruct (String.eqb_spec (DownloadProgress.task_id progress) "")
    as [Hid|Hid]; [|done].
  rewrite bool_decide_eq_true_2; [done|].
  unfold subscribers_of. by rewrite Hid, Hnone.
Qed.

Lemma publish_sends (event : Event) (h : Hub) :
  task_subscribers (manager h) !! "" = None ->
  closed (publish event h) = closed h
  /\ sent (publish event h)
     = sent h ++ (the_send (event_message event) h
                    <$> elements (subscribers_of (event_task_id event) h))
  /\ (forall c task_id,
        c ∉ closed h -> c ∈ subscribers_of task_id h ->
        c ∈ subscribers_of task_id (publish event h)).
Proof.
  intros Hnone. rewrite publish_unfold by done.
  case_bool_decide as Hempty.
  - rewrite Hempty, elements_empty. simpl. rewrite app_nil_r. auto.
  - apply publish_facts.broadcast_to_connections_spec.
Qed.

(** The sends of a message to the connections of a list deliver nothing to
    a connection whose peer is gone. *)
Lemma nothing_received_when_closed (message : WebSocketMessage.t) (h : Hub)
    (l : list WebSocket) (ws : WebSocket) :
  ws ∈ closed h ->
  omap (fun s => if bool_decide (send_to s = ws) && send_ok s
                 then Some (send_message_of s) else None)
       (the_send message h <$> l) = [].
Proof.
  intros Hclosed. induction l as [|c l IH]; [done|].
  rewrite fmap_cons.
  change (omap ?f (?x :: ?xs))
    with (match f x with Some y => y :: omap f xs | None => omap f xs end).
  rewrite IH. unfold the_send at 1. simpl.
  case_bool_decide as Hc; simpl; [|done].
  subst c. by rewrite bool_decide_eq_true_2.
Qed.

Lemma publish_received (event : Event) (h : Hub) (ws : WebSocket) :
  task_subscribers (manager h) !! "" = None ->
  ws ∈ subscribers_of (event_task_id event) h ->
  received ws (publish event h)
  = received ws h
    ++ (if decide (ws ∈ closed h) then [] else [event_message event]).
Proof.
  intros Hnone Hin.
  destruct (publish_sends event h Hnone) as (_ & Hsent & _).
  unfold received. rewrite Hsent, omap_app. f_equal.
  destruct (decide (ws ∈ closed h)) as [Hclosed|Hopen].
  - by apply nothing_received_when_closed.
  - apply publish_facts.received_nodup; [apply NoDup_elements| |done].
    by apply elem_of_elements.
Qed.

Lemma publish_keeps_received_when_closed (event : Event) (h : Hub)
    (ws : WebSocket) :
  task_subscribers (manager h) !! "" = None ->
  ws ∈ closed h ->
  received ws (publish event h) = received ws h.
Proof.
  intros Hnone Hclosed.
  destruct (publish_sends event h Hnone) as (_ & Hsent & _).
  unfold received. rewrite Hsent, omap_app.
  rewrite nothing_received_when_closed by done. apply app_nil_r.
Qed.

(** Events published one after the other, for any tasks: a connection whose
    peer is gone receives none of them. *)
Lemma sequence_received_when_closed (events : list Event) (h : Hub)
    (ws : WebSocket) :
  task_subscribers (manager h) !! "" = None ->
  ws ∈ closed h ->
  received ws (foldl (fun h event => publish event h) h events)
  = received ws h.
Proof.
  revert h. induction events as [|event events IH]; intros h Hnone Hclosed;
    simpl; [done|].
  destruct (publish_sends event h Hnone) as (Hc & _ & _).
  rewrite IH.
  - by apply publish_keeps_received_when_closed.
  - by apply publish_registry_key.
  - by rewrite Hc.
Qed.

(** Events published one after the other for one task: a subscriber whose
    peer is there receives all of them, in that order. *)
Lemma sequence_received_when_open (task_id : string) (events : list Event)
    (h : Hub) (ws : WebSocket) :
  task_subscribers (manager h) !! "" = None ->
  Forall (fun event => event_task_id event = task_id) events ->
  ws ∈ subscribers_of task_id h -> ws ∉ closed h ->
  received ws (foldl (fun h event => publish event h) h events)
  = received ws h ++ (event_message <$> events).
Proof.
  intros Hnone Hevents. revert h Hnone.
  induction Hevents as [|event events Hid _ IH]; intros h Hnone Hin Hopen;
    simpl.
  - by rewrite app_nil_r.
  - destruct (publish_sends event h Hnone) as (Hc & _ & Hkeep).
    rewrite IH.
    + rewrite publish_received by (by rewrite ?Hid).
      rewrite decide_False by done. by rewrite <- app_assoc.
    + by apply publish_registry_key.
    + by apply Hkeep.
    + by rewrite Hc.
Qed.

(** C7. On every hub the server reaches and for every event published for
    a task, by any of the four broadcast functions: when the task has no
    subscriber the hub is left as it was; otherwise the event is sent once
    to each connection subscribed to the task, and nothing else is sent;
    and events published one after the other for the same task are
    delivered to each subscriber in the order they were published (to a
    subscriber whose peer is gone the sends fail and nothing is
    delivered). *)
Theorem published_event_reaches_subscribers (cfg : Config) (h : Hub)
    (event : Event) :
  Hub_reachable cfg h ->
  let subscribers := subscribers_of (event_task_id event) h in
  let h' := publish event h in
  (subscribers = ∅ -> h' = h)
  /\ (forall ws,
        times_sent ws (event_message event) (sends_since h h')
        = if decide (ws ∈ subscribers) then 1 else 0)
  /\ length (sends_since h h') = size subscribers
  /\ (forall (events : list Event) ws,
        Forall (fun next => event_task_id next = event_task_id event) events ->
        ws ∈ subscribers ->
        received ws (foldl (fun h next => publish next h) h (event :: events))
        = received ws h
          ++ (if decide (ws ∈ closed h) then []
              else event_message <$> event :: events)).
Proof.
  intros Hreach. apply reachable_empty_id_free in Hreach as Hnone.
  destruct (publish_sends event h Hnone) as (Hclosed & Hsent & Hkeep).
  assert (Hsince : sends_since h (publish event h)
            = the_send (event_message event) h
                <$> elements (subscribers_of (event_task_id event) h)).
  { unfold sends_since. rewrite Hsent. apply drop_app_length. }
  cbv zeta. split; [|split; [|split]].
  - intros Hempty. rewrite publish_unfold by done.
    by rewrite bool_decide_eq_true_2.
  - intros ws. rewrite Hsince.
    rewrite publish_facts.times_sent_nodup by apply NoDup_elements.
    destruct (decide (ws ∈ subscribers_of (event_task_id event) h)).
    + by rewrite decide_True by (by apply elem_of_elements).
    + by rewrite decide_False by (by rewrite elem_of_elements).
  - rewrite Hsince, length_fmap. done.
  - intros events ws Hevents Hin.
    destruct (decide (ws ∈ closed h)) as [Hgone|Hopen].
    + rewrite (sequence_received_when_closed (event :: events)) by done.
      by rewrite app_nil_r.
    + apply (sequence_received_when_open (event_task_id event)); try done.
      by constructor.
Qed.

Lemma published_event_reaches_subscribers_witness :
  Hub_reachable defaults one_subscriber
  /\ times_sent 1
       (event_message
          (ProgressEvent (progress_for "single_ab12cd34_1700000000")))
       (sends_since one_subscriber
          (publish (ProgressEvent (progress_for "single_ab12cd34_1700000000"))
             one_subscriber))
     = 1.
Proof.
  assert (Hreach : Hub_reachable defaults one_subscriber).
  { unfold Hub_reachable.
    eapply rtc_l; [apply (hub_connects defaults 1)|].
    eapply rtc_l;
      [apply (hub_handles defaults 1
                (mkClientMessage (Some "subscribe")
                   (Some "single_ab12cd34_1700000000")))|].
    apply rtc_refl. }
  split; [exact Hreach|].
  exact (proj1 (proj2 (published_event_reaches_subscribers defaults
                         one_subscriber
                         (ProgressEvent
                            (progress_for "single_ab12cd34_1700000000"))
                         Hreach)) 1).
Defined.

End event_facts.

(** ** Lists updated in place *)

Module list_facts.

(** Replacing the item at a position changes the number of items with a
    property by what the old and the new item contribute. *)
Lemma length_filter_insert {A} (P : A -> Prop) `{!forall x, Decision (P x)}
    (l : list A) (i : nat) (x y : A) :
  l !! i = Some x ->
  length (filter P (<[i := y]> l)) + (if decide (P x) then 1 else 0)
  = length (filter P l) + (if decide (P y) then 1 else 0).
Proof.
  revert i. induction l as [|a l IH]; intros [|i] Hi; simplify_eq/=.
  - rewrite !filter_cons. repeat case_decide; simpl; lia.
  - rewrite !filter_cons. specialize (IH i Hi).
    repeat case_decide; simpl in *; lia.
Qed.

Lemma omap_lookup_seq {A} (pre l : list A) :
  omap (fun i => (pre ++ l) !! i) (seq (length pre) (length l)) = l.
Proof.
  revert pre. induction l as [|x l IH]; intros pre; simpl; [done|].
  rewrite list_lookup_middle by done. f_equal.
  specialize (IH (pre ++ [x])).
  rewrite length_app, <- app_assoc in IH. simpl in IH.
  by rewrite Nat.add_1_r in IH.
Qed.

Lemma omap_lookup_all {A} (l : list A) :
  omap (fun i => l !! i) (seq 0 (length l)) = l.
Proof. apply (omap_lookup_seq [] l). Qed.

End list_facts.

(** ** The bounded executor of download.py *)

Module executor_facts.
Import models config download.

Section Run.
Variables (cfg : Config) (h : yt_process.Handlers) (task_id : string).
Variable requests : list DownloadRequest.t.

Local Abbreviation step := (Executor_step cfg h task_id requests).

Local Abbreviation expected := (download.expected cfg h task_id requests).
Local Abbreviation invariant :=
  (download.Executor_invariant cfg h task_id requests).

Lemma active_replicate_waiting n :
  length (filter (fun t => t = Downloading) (replicate n Waiting)) = 0.
Proof. induction n as [|n IH]; simpl; [done|]. by rewrite filter_cons. Qed.

Lemma invariant_init (k : nat) :
  invariant k (Executor_init k (length requests)).
Proof.
  unfold Executor_invariant, Executor_init, Executor_active. simpl.
  split; [apply length_replicate|]. split.
  - rewrite active_replicate_waiting. lia.
  - exists []. split; [constructor|]. split; [|done].
    intros i. rewrite lookup_replicate. split.
    + intros Hin. by apply elem_of_nil in Hin.
    + intros [? _]. done.
Qed.

Lemma invariant_step (k : nat) (x y : Executor) :
  invariant k x -> step x y -> invariant k y.
Proof.
  intros (Hlen & Hsem & order & Hnd & Hord & Hres) Hstep.
  destruct Hstep as [x i Hi Hpos | x i request Hi Hreq];
    unfold Executor_invariant, Executor_active in *; simpl.
  - split; [by rewrite length_insert|]. split.
    + pose proof (list_facts.length_filter_insert
                    (fun t => t = Downloading) (tasks x) i Waiting Downloading Hi)
        as Hcount.
      rewrite decide_False in Hcount by done.
      rewrite decide_True in Hcount by done. lia.
    + exists order. split; [done|]. split; [|done].
      intros j. rewrite Hord. rewrite list_lookup_insert_Some.
      split; [|intros [(_ & ? & _)|(_ & ?)]; done].
      intros Hj. right. split; [|done]. intros ->. congruence.
  - split; [by rewrite length_insert|]. split.
    + pose proof (list_facts.length_filter_insert
                    (fun t => t = Downloading) (tasks x) i Downloading Completed Hi)
        as Hcount.
      rewrite decide_True in Hcount by done.
      rewrite decide_False in Hcount by done. lia.
    + exists (order ++ [i]). split; [|split].
      * apply NoDup_app. split; [done|]. split; [|apply NoDup_singleton].
        intros j Hj ->%list_elem_of_singleton.
        apply Hord in Hj. congruence.
      * intros j. rewrite elem_of_app, list_elem_of_singleton, Hord.
        rewrite list_lookup_insert_Some.
        apply lookup_lt_Some in Hi as Hlt.
        split.
        { intros [Hj| ->]; [|by left].
          right. split; [|done]. intros ->. congruence. }
        { intros [(-> & _)|(_ & ?)]; auto. }
      * rewrite omap_app, Hres. f_equal. simpl.
        unfold download.expected. rewrite list_lookup_imap, Hreq. done.
Qed.

Lemma invariant_run (k : nat) (x : Executor) :
  rtc step (Executor_init k (length requests)) x -> invariant k x.
Proof.
  intros Hrun.
  eapply (rtc_ind_r (fun x => invariant k x)); [| |exact Hrun].
  - apply invariant_init.
  - intros y z _ Hyz IH. by eapply invariant_step.
Qed.

(** At no state of a run are more than [k] items in active execution. *)
Lemma active_within_limit (k : nat) (x : Executor) :
  rtc step (Executor_init k (length requests)) x -> Executor_active x <= k.
Proof. intros (_ & Hsem & _)%invariant_run. lia. Qed.

(** An item starts downloading only by taking a permit that is free. *)
Lemma download_begins_with_a_permit (x y : Executor) (i : nat) :
  step x y ->
  tasks x !! i <> Some Downloading -> tasks y !! i = Some Downloading ->
  0 < semaphore x /\ semaphore y = semaphore x - 1.
Proof.
  intros Hstep Hbefore Hafter.
  destruct Hstep as [x j Hj Hpos | x j request Hj Hreq]; simpl in *.
  - done.
  - apply list_lookup_insert_Some in Hafter as [(_ & ? & _)|(_ & ?)]; done.
Qed.

(** Once every coroutine is complete, the results collected are those of
    the items, one for each, in some order. *)
Lemma finished_results (k : nat) (x : Executor) :
  invariant k x -> Executor_finished x -> results x ≡ₚ expected.
Proof.
  intros (Hlen & _ & order & Hnd & Hord & Hres) Hfin.
  assert (Hperm : order ≡ₚ seq 0 (length expected)).
  { apply NoDup_Permutation; [done | apply NoDup_seq |].
    intros i. rewrite Hord, elem_of_seq. unfold download.expected.
    rewrite length_imap, <- Hlen. split.
    - intros Hi%lookup_lt_Some. lia.
    - intros [_ Hi]. simpl in Hi.
      apply lookup_lt_is_Some_2 in Hi as [t Ht].
      rewrite Ht. f_equal.
      unfold Executor_finished in Hfin. rewrite Forall_lookup in Hfin.
      by apply (Hfin i t). }
  rewrite Hres, Hperm. by rewrite list_facts.omap_lookup_all.
Qed.

Local Abbreviation remaining := Executor_remaining.

Lemma none_of_a_kind (t : Item) (l : list Item) :
  t ∉ l -> length (filter (fun u => u = t) l) = 0.
Proof.
  induction l as [|u l IH]; [done|].
  rewrite not_elem_of_cons. intros [Hne Hl].
  rewrite filter_cons. rewrite decide_False by congruence. auto.
Qed.

(** With a permit to give, a run that is not finished can go on, and going
    on it finishes: no state of a run is stuck. *)
Lemma can_finish (k : nat) (x : Executor) :
  0 < k -> invariant k x ->
  exists y, rtc step x y /\ Executor_finished y.
Proof.
  intros Hk. remember (remaining x) as n eqn:Hn. revert x Hn.
  induction n as [n IH] using lt_wf_ind. intros x Hn Hinv.
  destruct (decide (Downloading ∈ tasks x)) as [Hd|Hd].
  - apply list_elem_of_lookup_1 in Hd as [i Hi].
    destruct Hinv as (Hlen & Hrest).
    assert (is_Some (requests !! i)) as [request Hreq].
    { apply lookup_lt_is_Some_2. rewrite <- Hlen. by eapply lookup_lt_Some. }
    pose proof (completes cfg h task_id requests x i request Hi Hreq) as Hstep.
    set (y := mkExecutor _ _ _) in Hstep.
    destruct (IH (remaining y)) with (x := y) as (z & Hrun & Hfin).
    + subst n. unfold Executor_remaining, y. simpl.
      pose proof (list_facts.length_filter_insert (fun t => t = Waiting)
                    (tasks x) i Downloading Completed Hi) as Hw.
      pose proof (list_facts.length_filter_insert (fun t => t = Downloading)
                    (tasks x) i Downloading Completed Hi) as Hdl.
      rewrite !decide_False in Hw by done.
      rewrite decide_True in Hdl by done.
      rewrite decide_False in Hdl by done. lia.
    + done.
    + eapply invariant_step; [|exact Hstep]. by split.
    + exists z. split; [|done]. by eapply rtc_l.
  - destruct (decide (Waiting ∈ tasks x)) as [Hw|Hw].
    + apply list_elem_of_lookup_1 in Hw as [i Hi].
      assert (Hpos : 0 < semaphore x).
      { destruct Hinv as (_ & Hsem & _). unfold Executor_active in Hsem.
        rewrite (none_of_a_kind Downloading) in Hsem by done. lia. }
      pose proof (acquires cfg h task_id requests x i Hi Hpos) as Hstep.
      set (y := mkExecutor _ _ _) in Hstep.
      destruct (IH (remaining y)) with (x := y) as (z & Hrun & Hfin).
      * subst n. unfold Executor_remaining, y. simpl.
        pose proof (list_facts.length_filter_insert (fun t => t = Waiting)
                      (tasks x) i Waiting Downloading Hi) as Hwc.
        pose proof (list_facts.length_filter_insert (fun t => t = Downloading)
                      (tasks x) i Waiting Downloading Hi) as Hdl.
        rewrite decide_True in Hwc by done.
        rewrite decide_False in Hwc by done.
        rewrite decide_False in Hdl by done.
        rewrite decide_True in Hdl by done. lia.
      * done.
      * by eapply invariant_step.
      * exists z. split; [|done]. by eapply rtc_l.
    + exists x. split; [done|].
      unfold Executor_finished. apply Forall_forall. intros t Ht.
      destruct t; [by destruct Hw | by destruct Hd | done].
Qed.

(** A configuration that passed validation and a [max_concurrent] that is
    absent or not negative give the semaphore at least one permit. *)
Lemma semaphore_has_a_permit (max_concurrent : option Z) :
  _validate_config cfg = true ->
  match max_concurrent with Some n => (0 <= n)%Z | None => True end ->
  exists k, asyncio.Semaphore
              (Py.int_or max_concurrent (MAX_CONCURRENT_DOWNLOADS cfg))
            = Py.Return k /\ 0 < k.
Proof.
  intros Hcfg Hmc. unfold _validate_config in Hcfg.
  apply andb_true_iff in Hcfg as [Hcfg _].
  apply andb_true_iff in Hcfg as [_ Hmax].
  apply negb_true_iff, Z.leb_gt in Hmax.
  set (v := Py.int_or _ _).
  assert (Hv : (0 < v)%Z).
  { unfold v, Py.int_or. destruct max_concurrent as [n|]; [|done].
    destruct (Z.eqb_spec n 0); lia. }
  exists (Z.to_nat v). unfold asyncio.Semaphore.
  destruct (Z.ltb_spec v 0); [lia|]. split; [done|lia].
Qed.

(** [_download_requests_with_isolation] returns, and whatever run it takes
    it returns the result of every request, one for each. *)
Lemma isolation_returns_one_result_per_request (max_concurrent : option Z) :
  _validate_config cfg = true ->
  match max_concurrent with Some n => (0 <= n)%Z | None => True end ->
  (exists results,
     _download_requests_with_isolation cfg h requests task_id max_concurrent
       (Py.Return results))
  /\ (forall out,
        _download_requests_with_isolation cfg h requests task_id
          max_concurrent out ->
        exists results, out = Py.Return results /\ results ≡ₚ expected).
Proof.
  intros Hcfg Hmc.
  destruct (semaphore_has_a_permit max_concurrent Hcfg Hmc) as (k & Hsem & Hk).
  split.
  - destruct (can_finish k (Executor_init k (length requests)) Hk
                (invariant_init k)) as (y & Hrun & Hfin).
    exists (results y). by eapply run_returns.
  - intros out Hout. destruct Hout as [e He | k' x Hsem' Hrun Hfin].
    + congruence.
    + exists (results x). split; [done|].
      apply (finished_results k'); [|done]. by apply invariant_run.
Qed.

End Run.

(** The completed and the other results partition the results. *)
Lemma successful_and_failed (results : list DownloadResult.t) :
  length (successful_results results) + length (failed_results results)
  = length results.
Proof.
  unfold successful_results, failed_results.
  rewrite <- length_app. apply Permutation_length.
  apply (filter_app_complement
           (fun r => DownloadResult.status r = COMPLETED)).
Qed.

End executor_facts.

(** ** Batch and playlist results *)

Module aggregate_facts.
Import models config download inputs.

(** C1, as stated, fails on the code in three places. The processor's
    [download_batch] returns four results for five URLs when one download
    raises. A batch request with [max_concurrent = -1], which
    pydantic accepts, is recorded with no result and no download counted.
    So is a playlist one of whose two selected videos has no URL. *)
Lemma results_fewer_than_items :
  (length five_urls = 5
   /\ exists results,
        yt_process.download_batch defaults (item_raises 2)
          (batch_request five_urls (Some 2%Z)) = Py.Return results
        /\ length results = 4)
  /\ (BatchRequest.validate has_http_scheme
        (batch_request five_urls (Some (-1)%Z)) = true
      /\ (exists r,
            _execute_batch_download defaults all_succeed
              "batch_0a1b2c3d_1700000000"
              (batch_request five_urls (Some (-1)%Z)) r)
      /\ (forall r,
            _execute_batch_download defaults all_succeed
              "batch_0a1b2c3d_1700000000"
              (batch_request five_urls (Some (-1)%Z)) r ->
            BatchResult.results r = []
            /\ BatchResult.successful_downloads r
               + BatchResult.failed_downloads r = 0))
  /\ (length (_select_playlist_videos playlist_with_missing_url
                (playlist_request None None None)) = 2
      /\ (exists r,
            _execute_playlist_download has_http_scheme defaults all_succeed
              "playlist_0a1b2c3d_1700000000" (playlist_request None None None)
              (Py.Return (IsPlaylist playlist_with_missing_url)) r)
      /\ (forall r,
            _execute_playlist_download has_http_scheme defaults all_succeed
              "playlist_0a1b2c3d_1700000000" (playlist_request None None None)
              (Py.Return (IsPlaylist playlist_with_missing_url)) r ->
            PlaylistResult.results r = []
            /\ PlaylistResult.successful_downloads r
               + PlaylistResult.failed_downloads r = 0)).
Proof.
  split; [|split].
  - split; [reflexivity|]. eexists. split; [by vm_compute|reflexivity].
  - split; [reflexivity|]. split.
    + eexists. eapply batch_failed. by apply semaphore_raises.
    + intros r Hr. destruct Hr as [results Hrun | e Hrun]; [|done].
      inversion Hrun as [|k x Hk _ _]. discriminate Hk.
  - split; [reflexivity|]. split.
    + eexists. by apply playlist_invalid_request.
    + intros r Hr.
      inversion Hr as [| |pl Hurls|pl results Hurls _|pl e Hurls _]; subst;
        try done; discriminate Hurls.
Qed.

(** C1, amended. Under a validated configuration the executor of
    [download.py] returns one result for every item: a batch whose
    [max_concurrent] is absent or not negative, and a playlist whose
    metadata was extracted and whose selected videos all carry a valid URL,
    run to an aggregate; whatever the order in which the items complete, the
    aggregate holds the result of every item, one for each, and its counts
    of successful and failed downloads add up to the number of items. The
    processor's [download_batch] gathers one result for every URL and
    returns the completed ones only: what it returns and the failures it
    drops add up to the number of URLs. *)
Theorem one_result_per_item (is_http_url : string -> bool) (cfg : Config)
    (h : yt_process.Handlers) (task_id : string) :
  _validate_config cfg = true ->
  (forall request : BatchRequest.t,
     match BatchRequest.max_concurrent request with
     | Some n => (0 <= n)%Z | None => True end ->
     (exists r, _execute_batch_download cfg h task_id request r)
     /\ (forall r,
           _execute_batch_download cfg h task_id request r ->
           BatchResult.results r
             ≡ₚ download.expected cfg h task_id
                  (yt_process.batch_video_request request
                     <$> BatchRequest.urls request)
           /\ length (BatchResult.results r)
              = length (BatchRequest.urls request)
           /\ BatchResult.successful_downloads r
              + BatchResult.failed_downloads r
              = length (BatchRequest.urls request)
           /\ BatchResult.total_videos r
              = length (BatchRequest.urls request)))
  /\ (forall (request : PlaylistRequest.t) (playlist : PlaylistMetadata.t),
        video_requests_validate is_http_url
          (_select_playlist_videos playlist request) = true ->
        (exists r, _execute_playlist_download is_http_url cfg h task_id request
                     (Py.Return (IsPlaylist playlist)) r)
        /\ (forall r,
              _execute_playlist_download is_http_url cfg h task_id request
                (Py.Return (IsPlaylist playlist)) r ->
              PlaylistResult.results r
                ≡ₚ download.expected cfg h task_id
                     (playlist_video_request request
                        <$> _select_playlist_videos playlist request)
              /\ length (PlaylistResult.results r)
                 = length (_select_playlist_videos playlist request)
              /\ PlaylistResult.successful_downloads r
                 + PlaylistResult.failed_downloads r
                 = length (_select_playlist_videos playlist request)
              /\ PlaylistResult.total_videos r
                 = length (_select_playlist_videos playlist request)))
  /\ (forall request : BatchRequest.t,
        length (yt_process.download_batch_gathered cfg h request)
        = length (BatchRequest.urls request)
        /\ (forall results,
              yt_process.download_batch cfg h request = Py.Return results ->
              results
              = successful_results
                  (yt_process.download_batch_gathered cfg h request)
              /\ length results
                 + length (failed_results
                             (yt_process.download_batch_gathered cfg h request))
                 = length (BatchRequest.urls request))).
Proof.
  intros Hcfg.
  assert (Hlen : forall requests results,
            results ≡ₚ download.expected cfg h task_id requests ->
            length results = length requests).
  { intros requests results ->. apply length_imap. }
  split; [|split].
  - intros request Hmc.
    destruct (executor_facts.isolation_returns_one_result_per_request
                cfg h task_id
                (yt_process.batch_video_request request
                   <$> BatchRequest.urls request)
                (BatchRequest.max_concurrent request) Hcfg Hmc)
      as ((results & Hrun) & Hall).
    split.
    + eexists. by apply batch_aggregated.
    + intros r Hr. destruct Hr as [results' Hrun' | e Hrun'].
      * destruct (Hall _ Hrun') as (? & [= <-] & Hperm). simpl.
        pose proof (Hlen _ _ Hperm) as Hn. rewrite length_fmap in Hn.
        rewrite executor_facts.successful_and_failed. auto.
      * by destruct (Hall _ Hrun') as (? & ? & _).
  - intros request playlist Hurls.
    destruct (executor_facts.isolation_returns_one_result_per_request
                cfg h task_id
                (playlist_video_request request
                   <$> _select_playlist_videos playlist request)
                None Hcfg I)
      as ((results & Hrun) & Hall).
    split.
    + eexists. by apply playlist_aggregated.
    + intros r Hr.
      inversion Hr as [| |pl Hbad|pl results' _ Hrun'|pl e _ Hrun']; subst.
      * congruence.
      * destruct (Hall _ Hrun') as (? & [= <-] & Hperm). simpl.
        pose proof (Hlen _ _ Hperm) as Hn. rewrite length_fmap in Hn.
        rewrite executor_facts.successful_and_failed. auto.
      * by destruct (Hall _ Hrun') as (? & ? & _).
  - intros request.
    assert (Hgathered :
      length (yt_process.download_batch_gathered cfg h request)
      = length (BatchRequest.urls request)).
    { unfold yt_process.download_batch_gathered. apply length_imap. }
    split; [done|]. intros results Hreturn.
    unfold yt_process.download_batch in Hreturn.
    destruct (asyncio.Semaphore _) as [k|e]; [|done].
    simpl in Hreturn. injection Hreturn as <-. split; [done|].
    fold (successful_results
            (yt_process.download_batch_gathered cfg h request)).
    by rewrite executor_facts.successful_and_failed.
Qed.

Lemma one_result_per_item_witness :
  _validate_config defaults = true
  /\ (exists r,
        _execute_batch_download defaults (item_raises 2)
          "batch_0a1b2c3d_1700000000" (batch_request five_urls (Some 2%Z)) r)
  /\ (exists r,
        _execute_playlist_download has_http_scheme defaults (item_raises 2)
          "batch_0a1b2c3d_1700000000" (playlist_request None None None)
          (Py.Return (IsPlaylist five_videos)) r).
Proof.
  pose proof (one_result_per_item has_http_scheme defaults (item_raises 2)
                "batch_0a1b2c3d_1700000000" eq_refl) as (Hbatch & Hplaylist & _).
  split; [reflexivity|]. split.
  - apply (Hbatch (batch_request five_urls (Some 2%Z))). simpl. lia.
  - apply (Hplaylist (playlist_request None None None) five_videos).
    reflexivity.
Defined.

(** The scenario of the specification: five URLs, a limit of two, the
    third download raises. Every run ends on four successful downloads, one
    failed, and five results. *)
Lemma five_urls_one_failure (r : BatchResult.t) :
  _execute_batch_download defaults (item_raises 2) "batch_0a1b2c3d_1700000000"
    (batch_request five_urls (Some 2%Z)) r ->
  BatchResult.successful_downloads r = 4
  /\ BatchResult.failed_downloads r = 1
  /\ length (BatchResult.results r) = 5.
Proof.
  intros Hr.
  destruct (executor_facts.isolation_returns_one_result_per_request
              defaults (item_raises 2) "batch_0a1b2c3d_1700000000"
              (yt_process.batch_video_request
                 (batch_request five_urls (Some 2%Z)) <$> five_urls)
              (Some 2%Z) eq_refl) as [_ Hall]; [lia|].
  destruct Hr as [results Hrun | e Hrun].
  - destruct (Hall _ Hrun) as (? & [= <-] & Hperm). simpl.
    unfold successful_results, failed_results.
    rewrite Hperm. by vm_compute.
  - by destruct (Hall _ Hrun) as (? & ? & _).
Qed.

End aggregate_facts.

(** ** Error isolation *)

Module isolation_facts.
Import models config download inputs.

Lemma download_video_same_backends (cfg : Config) (h h' : yt_process.Handlers)
    (i : nat) (request : DownloadRequest.t) :
  yt_process.same_backends_at i h h' ->
  yt_process.download_video cfg h i request
  = yt_process.download_video cfg h' i request.
Proof.
  intros Hsame. destruct (Hsame request) as (Hp & Hr & Hy).
  unfold yt_process.download_video.
  by destruct (yt_process.download_path cfg (DownloadRequest.quality request)).
Qed.

Lemma result_in_results (cfg : Config) (h : yt_process.Handlers)
    (task_id : string) (requests : list DownloadRequest.t)
    (results : list DownloadResult.t) (i : nat) (request : DownloadRequest.t) :
  results ≡ₚ download.expected cfg h task_id requests ->
  requests !! i = Some request ->
  download_with_semaphore cfg h task_id request i ∈ results.
Proof.
  intros -> Hreq. apply list_elem_of_lookup. exists i.
  unfold download.expected. by rewrite list_lookup_imap, Hreq.
Qed.

(** C3. When the download of item [i] raises, the exception becomes the
    FAILED result of item [i], carrying the message and the class name of
    the exception, in the executor of download.py and in
    [_download_with_error_isolation] alike. The run still returns; the
    result of every other item is among the results, and it is what it
    would be under any backends that answer alike for that item, whatever
    they do for item [i]. *)
Theorem item_failure_is_isolated (cfg : Config) (h : yt_process.Handlers)
    (task_id : string) (requests : list DownloadRequest.t)
    (max_concurrent : option Z) (results : list DownloadResult.t)
    (i : nat) (request : DownloadRequest.t) (e : Py.PyException) :
  _download_requests_with_isolation cfg h requests task_id max_concurrent
    (Py.Return results) ->
  requests !! i = Some request ->
  yt_process.download_video cfg h i request = Py.Raise e ->
  download_with_semaphore cfg h task_id request i
  = DownloadResult.mk (task_id +:+ "_video_" +:+ pretty i) FAILED None None
      (Some (Py.exc_str e)) (Some (Py.exc_class e))
  /\ download_with_semaphore cfg h task_id request i ∈ results
  /\ (forall tid,
        yt_process._download_with_error_isolation cfg h i request tid
        = DownloadResult.mk tid FAILED None None
            (Some (Py.exc_str e)) (Some (Py.exc_class e)))
  /\ (forall j request_j,
        j <> i -> requests !! j = Some request_j ->
        download_with_semaphore cfg h task_id request_j j ∈ results
        /\ (forall h',
              yt_process.same_backends_at j h h' ->
              download_with_semaphore cfg h' task_id request_j j
              = download_with_semaphore cfg h task_id request_j j)).
Proof.
  intros Hrun Hreq Hraise.
  assert (Hperm : results ≡ₚ download.expected cfg h task_id requests).
  { inversion Hrun as [|k x Hsem Hsteps Hfin]; subst.
    apply (executor_facts.finished_results cfg h task_id requests k);
      [|done].
    by apply executor_facts.invariant_run. }
  split; [|split; [|split]].
  - unfold download_with_semaphore. by rewrite Hraise.
  - by eapply result_in_results.
  - intros tid. unfold yt_process._download_with_error_isolation.
    by rewrite Hraise.
  - intros j request_j Hne Hj. split.
    + by eapply result_in_results.
    + intros h' Hsame. unfold download_with_semaphore.
      by rewrite (download_video_same_backends cfg h h' j request_j Hsame).
Qed.

(** A run of two requests in which the first download raises. *)
Lemma two_requests_run :
  _download_requests_with_isolation defaults (item_raises 0) two_requests
    "batch_0a1b2c3d_1700000000" None
    (Py.Return (download.expected defaults (item_raises 0)
                  "batch_0a1b2c3d_1700000000" two_requests)).
Proof.
  apply (run_returns defaults (item_raises 0) two_requests
           "batch_0a1b2c3d_1700000000" None 5
           (mkExecutor 5 [Completed; Completed]
              (download.expected defaults (item_raises 0)
                 "batch_0a1b2c3d_1700000000" two_requests))).
  - reflexivity.
  - eapply rtc_l; [apply (acquires _ _ _ _ _ 0); [reflexivity|simpl; lia]|].
    eapply rtc_l; [eapply (completes _ _ _ _ _ 0); reflexivity|].
    eapply rtc_l; [apply (acquires _ _ _ _ _ 1); [reflexivity|simpl; lia]|].
    eapply rtc_l; [eapply (completes _ _ _ _ _ 1); reflexivity|].
    apply rtc_refl.
  - repeat constructor.
Defined.

Lemma item_failure_is_isolated_witness :
  download_with_semaphore defaults (item_raises 0) "batch_0a1b2c3d_1700000000"
    (yt_process.batch_video_request (batch_request two_urls None)
       "https://www.youtube.com/watch?v=a") 0
  = DownloadResult.mk "batch_0a1b2c3d_1700000000_video_0" FAILED None None
      (Some "network unreachable") (Some "ConnectionError").
Proof.
  exact (proj1 (item_failure_is_isolated defaults (item_raises 0)
                  "batch_0a1b2c3d_1700000000" two_requests None _ 0 _
                  (Py.mkExc "ConnectionError" "network unreachable")
                  two_requests_run eq_refl eq_refl)).
Defined.

End isolation_facts.

(** ** The concurrency limit *)

Module limit_facts.
Import models config inputs.

(** *** download.py: the limit holds *)

(** In [_download_requests_with_isolation], at no state of a run are more
    items in active execution than the semaphore has permits, and an item
    starts downloading only by taking a permit. *)
Lemma orchestrator_respects_limit (cfg : Config) (h : yt_process.Handlers)
    (task_id : string) (requests : list DownloadRequest.t) (k : nat)
    (x : download.Executor) :
  rtc (download.Executor_step cfg h task_id requests)
    (download.Executor_init k (length requests)) x ->
  download.Executor_active x <= k.
Proof. apply executor_facts.active_within_limit. Qed.

(** *** yt_process.py: the limit does not hold *)

Import yt_process.

Lemma every_task_can_start (k : nat) (lim : list Limited)
    (started : list Inner) (n : nat) :
  rtc Batch_step (mkBatch k (started ++ replicate n Created) lim)
    (mkBatch k (started ++ replicate n Running) lim).
Proof.
  revert started. induction n as [|n IH]; intros started; simpl; [done|].
  eapply rtc_l.
  - apply (task_starts _ (length started)). simpl.
    by apply list_lookup_middle.
  - simpl.
    replace (<[length started := Running]> (started ++ Created :: replicate n Created))
      with ((started ++ [Running]) ++ replicate n Created).
    + replace (started ++ Running :: replicate n Running)
        with ((started ++ [Running]) ++ replicate n Running)
        by (by rewrite <- app_assoc).
      apply IH.
    + rewrite <- app_assoc. simpl.
      rewrite insert_app_r_alt by lia. by rewrite Nat.sub_diag.
Qed.

Lemma all_running (n : nat) :
  length (filter (fun t => t = Running) (replicate n Running)) = n.
Proof.
  induction n as [|n IH]; [done|].
  change (replicate (S n) Running) with (Running :: replicate n Running).
  rewrite filter_cons, decide_True by done. simpl. by rewrite IH.
Qed.

(** Whatever the limit, [download_batch] can have all its downloads in
    active execution at once, with every permit of the semaphore still
    free. *)
Lemma download_batch_ignores_limit (k n : nat) :
  exists b, rtc Batch_step (Batch_init k n) b
            /\ Batch_active b = n /\ semaphore b = k.
Proof.
  exists (mkBatch k (replicate n Running) (replicate n AwaitingSemaphore)).
  split; [apply (every_task_can_start k _ [] n)|].
  split; [apply all_running | done].
Qed.

(** C2, on the code. [download_batch] with two URLs and
    [max_concurrent = 1]: the event loop starts the task of the first URL,
    then the task of the second; both downloads are in active execution,
    and the semaphore, which only [limited_download] consults, still has
    its permit. *)
Theorem download_batch_exceeds_limit :
  let b0 := Batch_init 1 (length two_urls) in
  let b1 := mkBatch 1 [Running; Created] (limited b0) in
  let b2 := mkBatch 1 [Running; Running] (limited b0) in
  asyncio.Semaphore
    (Py.int_or (BatchRequest.max_concurrent (batch_request two_urls (Some 1%Z)))
       (MAX_CONCURRENT_DOWNLOADS defaults)) = Py.Return 1
  /\ Batch_step b0 b1 /\ Batch_step b1 b2
  /\ Batch_active b2 = 2 /\ semaphore b2 = 1.
Proof.
  simpl. split; [reflexivity|]. split; [|split; [|split; reflexivity]].
  - apply (task_starts (Batch_init 1 2) 0). reflexivity.
  - apply (task_starts (mkBatch 1 [Running; Created] _) 1). reflexivity.
Qed.


Example batch_request_with_zero_is_accepted :
  BatchRequest.validate (fun _ => true) (batch_request two_urls (Some 0%Z))
  = true.
Proof. reflexivity. Qed.

Example negative_limit_raises :
  asyncio.Semaphore (Py.int_or (Some (-1)%Z) (MAX_CONCURRENT_DOWNLOADS defaults))
  = Py.Raise (Py.mkExc "ValueError" "Semaphore initial value must be >= 0").
Proof. reflexivity. Qed.

End limit_facts.

(** ** The task registry *)

Module orchestrator_facts.
Import models config download inputs.

(** The status query answers [None] exactly for the ids the orchestrator
    does not know. *)
Lemma status_not_found_iff_unknown (task_id : string)
    (o : DownloadOrchestrator) :
  get_task_status task_id o = None
  <-> active_tasks o !! task_id = None /\ task_results o !! task_id = None.
Proof.
  unfold get_task_status.
  destruct (active_tasks o !! task_id) as [task|];
    destruct (task_results o !! task_id) as [result|]; naive_solver.
Qed.

(** A single download always records a result: a raise in the extraction or
    in the download is stored as a FAILED result. *)
Lemma single_download_records_result (task_id : string)
    (request : DownloadRequest.t) (extracted : Py.Outcome Metadata)
    (progress : list DownloadProgress.t)
    (downloaded : Py.Outcome DownloadResult.t)
    (s : DownloadOrchestrator * websocket.Hub) :
  exists result,
    task_results
      (fst (single_download_lifecycle task_id request extracted progress
              downloaded s))
      !! task_id = Some (OfSingle result)
    /\ (forall e, downloaded = Py.Raise e ->
                  DownloadResult.status result = FAILED).
Proof.
  destruct s as [o hub].
  unfold single_download_lifecycle, _execute_single_download,
    start_single_download, single_failed, store, task_returned.
  destruct extracted as [metadata|e0]; simpl.
  - destruct downloaded as [result|e]; simpl.
    + eexists. split; [apply lookup_insert_eq | discriminate].
    + eexists. split; [apply lookup_insert_eq | done].
  - eexists. split; [apply lookup_insert_eq | done].
Qed.

(** As long as the task is in [active_tasks], the status query takes its
    first branch: the answer carries no result, and once the task is done
    its status is "completed", whatever the outcome of the download. *)
Lemma status_of_finished_task_has_no_result (task_id : string)
    (request : DownloadRequest.t) (extracted : Py.Outcome Metadata)
    (progress : list DownloadProgress.t)
    (downloaded : Py.Outcome DownloadResult.t)
    (s : DownloadOrchestrator * websocket.Hub) :
  get_task_status task_id
    (fst (single_download_lifecycle task_id request extracted progress
            downloaded s))
  = Some (TaskStatus.mk task_id "completed" true (Some false) None).
Proof.
  destruct s as [o hub].
  assert (Hactive :
    active_tasks
      (fst (single_download_lifecycle task_id request extracted progress
              downloaded (o, hub)))
      !! task_id = Some asyncio.TaskFinished).
  { unfold single_download_lifecycle, _execute_single_download,
      start_single_download, single_failed, store, task_returned.
    destruct extracted as [metadata|e0]; simpl;
      [destruct downloaded as [result|e]; simpl|];
      by rewrite lookup_alter_eq, lookup_insert_eq. }
  unfold get_task_status. by rewrite Hactive.
Qed.

(** The second branch of the status query is reached only once
    [cleanup_completed_tasks] has run, which nothing calls. *)
Lemma status_after_cleanup_has_result :
  get_task_status "single_ab12cd34_1700000000"
    (cleanup_completed_tasks (fst after_failed_download))
  = Some (TaskStatus.mk "single_ab12cd34_1700000000" "completed" true None
            (Some (OfSingle
                     (DownloadResult.failed "single_ab12cd34_1700000000"
                        network_error)))).
Proof. by vm_compute. Qed.

(** C5, on the code. A single download is submitted and its download
    raises: the orchestrator records a FAILED result with the message and
    the class of the exception, yet the status query answers "completed",
    done, not cancelled, and no result. The failure is not visible. *)
Theorem failed_task_status_hides_failure :
  task_results (fst after_failed_download) !! "single_ab12cd34_1700000000"
  = Some (OfSingle
            (DownloadResult.mk "single_ab12cd34_1700000000" FAILED None None
               (Some "network unreachable") (Some "ConnectionError")))
  /\ get_task_status "single_ab12cd34_1700000000" (fst after_failed_download)
     = Some (TaskStatus.mk "single_ab12cd34_1700000000" "completed" true
               (Some false) None).
Proof.
  split.
  - by vm_compute.
  - apply (status_of_finished_task_has_no_result "single_ab12cd34_1700000000"
             single_request (Py.Return (IsVideo (video 0))) []
             (Py.Raise network_error) (Orchestrator_init, websocket.Hub_init)).
Qed.


Example cancel_running_task :
  exists s', cancel_task "single_ab12cd34_1700000000" one_running_task
             = Py.Return (true, s').
Proof. eexists. by vm_compute. Qed.

Example cancel_finished_task :
  cancel_task "single_ab12cd34_1700000000" after_failed_download
  = Py.Return (false, after_failed_download).
Proof. by vm_compute. Qed.

Example cancel_unknown_task :
  cancel_task "single_00000000_0" one_running_task
  = Py.Return (false, one_running_task).
Proof. by vm_compute. Qed.

End orchestrator_facts.

(** ** Connections: capacity, subscriptions, pruning *)

Module hub_facts.
Import models config websocket websocket_handlers inputs.

Lemma disconnect_count (ws : WebSocket) (m : ConnectionManager) :
  connection_count (disconnect ws m) = connection_count m.
Proof. unfold disconnect. by case_bool_decide. Qed.

Lemma disconnect_active (ws c : WebSocket) (m : ConnectionManager) :
  c ∈ active_connections (disconnect ws m)
  <-> c ∈ active_connections m /\ c <> ws.
Proof.
  unfold disconnect. case_bool_decide as Hin; simpl; [set_solver|].
  split; [|tauto]. intros Hc. split; [done|]. by intros ->.
Qed.

Lemma disconnect_subscribers (ws c : WebSocket) (m : ConnectionManager)
    (task_id : string) :
  c ∈ default ∅ (task_subscribers (disconnect ws m) !! task_id)
  <-> c ∈ default ∅ (task_subscribers m !! task_id)
      /\ (c <> ws \/ ws ∉ active_connections m).
Proof.
  unfold disconnect. case_bool_decide as Hin; simpl.
  - rewrite lookup_fmap.
    destruct (task_subscribers m !! task_id) as [s|]; simpl; set_solver.
  - tauto.
Qed.

(** X1. [connect] refuses exactly when the active connections have reached
    [WS_MAX_CONNECTIONS], and a refusal changes nothing; an acceptance counts
    one more connection; and a hub within the limit stays within it. *)
Theorem connect_respects_capacity (cfg : Config) (ws : WebSocket) (h : Hub) :
  let accepted := fst (connect cfg ws h) in
  let h' := snd (connect cfg ws h) in
  (accepted = false
   <-> (WS_MAX_CONNECTIONS cfg
        <= Z.of_nat (size (active_connections (manager h))))%Z)
  /\ (accepted = false -> h' = h)
  /\ connection_count (manager h')
     = connection_count (manager h) + (if accepted then 1 else 0)
  /\ ((Z.of_nat (size (active_connections (manager h)))
       <= WS_MAX_CONNECTIONS cfg)%Z ->
      (Z.of_nat (size (active_connections (manager h')))
       <= WS_MAX_CONNECTIONS cfg)%Z).
Proof.
  unfold connect.
  destruct (Z.leb_spec (WS_MAX_CONNECTIONS cfg)
              (Z.of_nat (size (active_connections (manager h)))))
    as [Hfull|Hroom]; simpl.
  - repeat split; auto; lia.
  - split; [split; [discriminate|lia]|]. split; [discriminate|].
    assert (Hgrow : size ({[ws]} ∪ active_connections (manager h))
                    <= size (active_connections (manager h)) + 1).
    { rewrite size_union_alt, size_singleton.
      pose proof (subseteq_size
                    (active_connections (manager h) ∖ {[ws]})
                    (active_connections (manager h))) as Hle.
      assert (active_connections (manager h) ∖ {[ws]}
              ⊆ active_connections (manager h)) by set_solver.
      specialize (Hle ltac:(done)). lia. }
    unfold send_message. case_bool_decide; simpl.
    + rewrite disconnect_count. simpl. split; [done|]. intros _.
      pose proof (subseteq_size
                    (active_connections
                       (disconnect ws
                          (mkManager ({[ws]} ∪ active_connections (manager h))
                             (task_subscribers (manager h))
                             (connection_count (manager h) + 1))))
                    ({[ws]} ∪ active_connections (manager h))) as Hle.
      assert (active_connections
                (disconnect ws
                   (mkManager ({[ws]} ∪ active_connections (manager h))
                      (task_subscribers (manager h))
                      (connection_count (manager h) + 1)))
              ⊆ {[ws]} ∪ active_connections (manager h)) as Hsub.
      { intros c Hc. by apply disconnect_active in Hc as [Hc _]. }
      specialize (Hle Hsub). lia.
    + split; [done|]. intros _. lia.
Qed.

(** X2. An accepted connection whose peer is there is registered and
    receives the welcome message last; one whose peer is gone is purged by
    the failed welcome and is not active after [connect]. *)
Theorem connect_registers_live_peer (cfg : Config) (ws : WebSocket) (h : Hub) :
  fst (connect cfg ws h) = true ->
  let h' := snd (connect cfg ws h) in
  (ws ∉ closed h ->
   ws ∈ active_connections (manager h')
   /\ received ws h'
      = received ws h
        ++ [WebSocketMessage.mk "status" None
              [("message", "Connected to GRABIT WebSocket")]])
  /\ (ws ∈ closed h ->
      (ws ∉ active_connections (manager h'))
      /\ received ws h' = received ws h).
Proof.
  unfold connect.
  destruct (Z.leb_spec (WS_MAX_CONNECTIONS cfg)
              (Z.of_nat (size (active_connections (manager h)))));
    simpl; [discriminate|]. intros _.
  unfold send_message. simpl. split; intros Hws.
  - rewrite bool_decide_eq_false_2 by done. simpl. split; [set_solver|].
    unfold received. simpl. rewrite omap_app. simpl.
    by rewrite bool_decide_eq_true_2.
  - rewrite bool_decide_eq_true_2 by done. simpl. split.
    + rewrite disconnect_active. tauto.
    + unfold received. simpl. rewrite omap_app. simpl.
      rewrite bool_decide_eq_true_2 by done. simpl. by rewrite app_nil_r.
Qed.

Lemma connect_registers_live_peer_witness :
  fst (connect defaults 1 Hub_init) = true
  /\ 1 ∈ active_connections (manager (snd (connect defaults 1 Hub_init))).
Proof.
  split; [reflexivity|].
  apply (connect_registers_live_peer defaults 1 Hub_init eq_refl).
  vm_compute. discriminate.
Defined.

Lemma manager_eta (m : ConnectionManager) :
  mkManager (active_connections m) (task_subscribers m) (connection_count m)
  = m.
Proof. by destruct m. Qed.

Lemma subscribe_manager (ws : WebSocket) (task_id : string) (h : Hub) :
  ws ∉ closed h ->
  manager (subscribe_to_task ws task_id h)
  = mkManager (active_connections (manager h))
      (<[task_id := {[ws]} ∪ subscribers_of task_id h]>
         (task_subscribers (manager h)))
      (connection_count (manager h)).
Proof.
  intros Hopen. unfold subscribe_to_task, send_message. simpl.
  by rewrite bool_decide_eq_false_2.
Qed.

(** X3. Subscribing an open connection that was not subscribed to the task
    and unsubscribing it again gives back the manager as it was, provided
    the registry held no empty set under that task id. *)
Theorem subscribe_then_unsubscribe (ws : WebSocket) (task_id : string)
    (h : Hub) :
  ws ∉ closed h ->
  ws ∉ subscribers_of task_id h ->
  task_subscribers (manager h) !! task_id <> Some ∅ ->
  unsubscribe_from_task ws task_id (manager (subscribe_to_task ws task_id h))
  = manager h.
Proof.
  intros Hopen Hnew Hne. rewrite subscribe_manager by done.
  unfold unsubscribe_from_task, subscribers_of in *. simpl.
  rewrite lookup_insert_eq.
  destruct (task_subscribers (manager h) !! task_id) as [s|] eqn:Hs;
    simpl in *.
  - assert (Hback : ({[ws]} ∪ s) ∖ {[ws]} = s) by set_solver.
    rewrite Hback. rewrite bool_decide_eq_false_2 by congruence.
    rewrite insert_insert_eq, insert_id by done. apply manager_eta.
  - assert (Hback : ({[ws]} ∪ ∅) ∖ {[ws]} = (∅ : gset nat)) by set_solver.
    rewrite Hback. rewrite bool_decide_eq_true_2 by done.
    rewrite delete_insert_eq, delete_id by done. apply manager_eta.
Qed.

Lemma subscribe_then_unsubscribe_witness :
  unsubscribe_from_task 1 "batch_0a1b2c3d_1700000000"
    (manager (subscribe_to_task 1 "batch_0a1b2c3d_1700000000" one_subscriber))
  = manager one_subscriber.
Proof.
  apply (subscribe_then_unsubscribe 1 "batch_0a1b2c3d_1700000000"
           one_subscriber).
  - vm_compute. discriminate.
  - vm_compute. discriminate.
  - vm_compute. discriminate.
Defined.

(** X4. Unsubscribing twice is unsubscribing once; unsubscribing from a task
    nobody is subscribed to, or a connection that is not among the
    subscribers of the task, changes nothing. *)
Theorem unsubscribe_is_idempotent (ws : WebSocket) (task_id : string)
    (m : ConnectionManager) :
  unsubscribe_from_task ws task_id (unsubscribe_from_task ws task_id m)
  = unsubscribe_from_task ws task_id m
  /\ (task_subscribers m !! task_id = None ->
      unsubscribe_from_task ws task_id m = m)
  /\ (forall subscribers,
        task_subscribers m !! task_id = Some subscribers ->
        ws ∉ subscribers -> subscribers <> ∅ ->
        unsubscribe_from_task ws task_id m = m).
Proof.
  split; [|split].
  - unfold unsubscribe_from_task at 2 3.
    destruct (task_subscribers m !! task_id) as [s|] eqn:Hs.
    + unfold unsubscribe_from_task. simpl. case_bool_decide as Hempty.
      * by rewrite lookup_delete_eq.
      * rewrite lookup_insert_eq.
        assert (Hsame : s ∖ {[ws]} ∖ {[ws]} = s ∖ {[ws]}) by set_solver.
        rewrite Hsame. rewrite bool_decide_eq_false_2 by done.
        by rewrite insert_insert_eq.
    + unfold unsubscribe_from_task. by rewrite Hs.
  - intros Hnone. unfold unsubscribe_from_task. by rewrite Hnone.
  - intros s Hs Hnin Hne. unfold unsubscribe_from_task. rewrite Hs.
    assert (Hsame : s ∖ {[ws]} = s) by set_solver.
    rewrite Hsame. rewrite bool_decide_eq_false_2 by done.
    rewrite insert_id by done. apply manager_eta.
Qed.

(** X5. A registry without empty subscriber sets stays so under
    [unsubscribe_from_task], and under [subscribe_to_task] for a connection
    whose peer is there. *)
Theorem subscriptions_keep_sets_nonempty (ws : WebSocket) (task_id : string)
    (h : Hub) :
  no_empty_subscriber_set (manager h) ->
  no_empty_subscriber_set (unsubscribe_from_task ws task_id (manager h))
  /\ (ws ∉ closed h ->
      no_empty_subscriber_set (manager (subscribe_to_task ws task_id h))).
Proof.
  intros Hinv. split.
  - intros tid s. unfold unsubscribe_from_task.
    destruct (task_subscribers (manager h) !! task_id) as [s0|] eqn:Hs0;
      simpl; [|apply Hinv].
    case_bool_decide as Hempty.
    + destruct (decide (tid = task_id)) as [->|Hne].
      * by rewrite lookup_delete_eq.
      * rewrite lookup_delete_ne by done. apply Hinv.
    + destruct (decide (tid = task_id)) as [->|Hne].
      * rewrite lookup_insert_eq. by intros [= <-].
      * rewrite lookup_insert_ne by done. apply Hinv.
  - intros Hopen tid s. rewrite subscribe_manager by done. simpl.
    destruct (decide (tid = task_id)) as [->|Hne].
    + rewrite lookup_insert_eq. intros [= <-]. set_solver.
    + rewrite lookup_insert_ne by done. apply Hinv.
Qed.

Lemma subscriptions_keep_sets_nonempty_witness :
  task_subscribers (manager one_subscriber) !! "single_ab12cd34_1700000000"
  = Some {[1]}
  /\ no_empty_subscriber_set (manager one_subscriber)
  /\ task_subscribers
       (unsubscribe_from_task 1 "single_ab12cd34_1700000000"
          (manager one_subscriber))
     !! "single_ab12cd34_1700000000" = None
  /\ no_empty_subscriber_set
       (unsubscribe_from_task 1 "single_ab12cd34_1700000000"
          (manager one_subscriber))
  /\ (2 ∉ closed one_subscriber)
  /\ no_empty_subscriber_set
       (manager (subscribe_to_task 2 "single_ab12cd34_1700000000"
                   one_subscriber)).
Proof.
  assert (Hregistry :
    task_subscribers (manager one_subscriber)
    = {["single_ab12cd34_1700000000" := {[1]}]}).
  { by vm_compute. }
  assert (Hset : no_empty_subscriber_set (manager one_subscriber)).
  { intros tid subscribers. rewrite Hregistry.
    intros Hlookup. apply lookup_singleton_Some in Hlookup as [_ <-].
    vm_compute. discriminate. }
  assert (Hopen : 2 ∉ closed one_subscriber).
  { vm_compute. discriminate. }
  split; [by vm_compute|]. split; [exact Hset|].
  split; [by vm_compute|]. split.
  - exact (proj1 (subscriptions_keep_sets_nonempty 1
                    "single_ab12cd34_1700000000" one_subscriber Hset)).
  - split; [exact Hopen|].
    exact (proj2 (subscriptions_keep_sets_nonempty 2
                    "single_ab12cd34_1700000000" one_subscriber Hset) Hopen).
Defined.

Lemma send_message_manager (ws : WebSocket) (message : WebSocketMessage.t)
    (h : Hub) :
  manager (send_message ws message h)
  = if bool_decide (ws ∈ closed h) then disconnect ws (manager h)
    else manager h.
Proof. unfold send_message. by case_bool_decide. Qed.

Lemma send_message_active (ws c : WebSocket) (message : WebSocketMessage.t)
    (h : Hub) :
  c ∈ active_connections (manager (send_message ws message h))
  <-> c ∈ active_connections (manager h) /\ ~ (c = ws /\ c ∈ closed h).
Proof.
  rewrite send_message_manager. case_bool_decide as Hws.
  - rewrite disconnect_active. split.
    + intros [Hc Hne]. split; [done|]. by intros [? _].
    + intros [Hc Hn]. split; [done|]. intros ->. by apply Hn.
  - split; [|tauto]. intros Hc. split; [done|]. by intros [-> ?].
Qed.

Lemma send_message_subscribers (ws c : WebSocket)
    (message : WebSocketMessage.t) (h : Hub) (task_id : string) :
  c ∈ subscribers_of task_id (send_message ws message h)
  <-> c ∈ subscribers_of task_id h
      /\ ~ (c = ws /\ c ∈ closed h /\ c ∈ active_connections (manager h)).
Proof.
  unfold subscribers_of. rewrite send_message_manager.
  case_bool_decide as Hws.
  - rewrite disconnect_subscribers. split.
    + intros [Hc Hor]. split; [done|]. intros (-> & _ & Hact).
      by destruct Hor.
    + intros [Hc Hn]. split; [done|].
      destruct (decide (c = ws)) as [->|Hne]; [|by left].
      right. intros Hact. by apply Hn.
  - split; [|tauto]. intros Hc. split; [done|]. by intros (-> & ? & _).
Qed.

Lemma sends_prune (message : WebSocketMessage.t) (l : list WebSocket)
    (h : Hub) (c : WebSocket) :
  let h' := foldl (fun h ws => send_message ws message h) h l in
  (c ∈ active_connections (manager h')
   <-> c ∈ active_connections (manager h) /\ ~ (c ∈ l /\ c ∈ closed h))
  /\ (forall task_id,
        c ∈ subscribers_of task_id h'
        <-> c ∈ subscribers_of task_id h
            /\ ~ (c ∈ l /\ c ∈ closed h
                  /\ c ∈ active_connections (manager h))).
Proof.
  revert h. induction l as [|ws l IH]; intros h; simpl.
  - split; [|intros task_id]; (split; [|tauto]); intros Hc;
      (split; [done|]); intros [Hin _]; by apply elem_of_nil in Hin.
  - destruct (IH (send_message ws message h)) as [Hact Hsub].
    rewrite (publish_facts.send_message_closed message) in Hact, Hsub.
    split.
    + rewrite Hact, send_message_active, elem_of_cons.
      destruct (decide (c = ws)); tauto.
    + intros task_id.
      rewrite Hsub, send_message_subscribers, send_message_active,
        elem_of_cons.
      destruct (decide (c = ws)); tauto.
Qed.

(** X6. The delivery failure policy of [_broadcast_to_connections]: a
    connection stays active unless it is one of the targets and its peer is
    gone; it stays subscribed to a task unless it is such a target and was
    active. Connections whose peer is there keep every registration. *)
Theorem broadcast_prunes_dead_connections (connections : gset WebSocket)
    (message : WebSocketMessage.t) (h : Hub) (c : WebSocket) :
  let h' := _broadcast_to_connections connections message h in
  (c ∈ active_connections (manager h')
   <-> c ∈ active_connections (manager h)
       /\ ~ (c ∈ connections /\ c ∈ closed h))
  /\ (forall task_id,
        c ∈ subscribers_of task_id h'
        <-> c ∈ subscribers_of task_id h
            /\ ~ (c ∈ connections /\ c ∈ closed h
                  /\ c ∈ active_connections (manager h))).
Proof.
  unfold _broadcast_to_connections. case_bool_decide as Hempty.
  - subst. split; [|intros task_id]; (split; [|tauto]); intros Hc;
      (split; [done|]); intros [Hin _]; set_solver.
  - destruct (sends_prune message (elements connections) h c) as [Hact Hsub].
    split.
    + rewrite Hact. by rewrite elem_of_elements.
    + intros task_id. rewrite Hsub. by rewrite elem_of_elements.
Qed.

(** X7. A heartbeat round does nothing without active connections; with
    some, it sends the heartbeat once to every active connection and to no
    other, and afterwards the active connections are those that were active
    and whose peer is there. *)
Theorem heartbeat_round_prunes (h : Hub) :
  let h' := heartbeat_round h in
  let message :=
    WebSocketMessage.mk "heartbeat" None
      [("active_connections",
        pretty (size (active_connections (manager h))))] in
  (active_connections (manager h) = ∅ -> h' = h)
  /\ active_connections (manager h')
     = active_connections (manager h) ∖ closed h
  /\ (forall c,
        times_sent c message (sends_since h h')
        = if decide (c ∈ active_connections (manager h)) then 1 else 0).
Proof.
  unfold heartbeat_round, broadcast_to_all.
  case_bool_decide as Hempty; simpl.
  - split; [done|]. split; [set_solver|]. intros c.
    unfold sends_since. rewrite drop_all. rewrite decide_False by set_solver.
    done.
  - set (message := WebSocketMessage.mk _ _ _).
    assert (Hfold :
      _broadcast_to_connections (active_connections (manager h)) message h
      = foldl (fun h ws => send_message ws message h) h
          (elements (active_connections (manager h)))).
    { unfold _broadcast_to_connections. by rewrite bool_decide_eq_false_2. }
    rewrite Hfold. split; [done|]. split.
    + apply set_eq. intros c.
      destruct (sends_prune message
                  (elements (active_connections (manager h))) h c)
        as [Hact _].
      rewrite Hact, elem_of_elements. set_solver.
    + intros c.
      destruct (publish_facts.sends_fold message
                  (elements (active_connections (manager h))) h)
        as (_ & Hsent & _).
      unfold sends_since. rewrite Hsent, drop_app_length.
      rewrite publish_facts.times_sent_nodup by apply NoDup_elements.
      destruct (decide (c ∈ active_connections (manager h))) as [Hc|Hc].
      * by rewrite decide_True by (by apply elem_of_elements).
      * by rewrite decide_False by (by rewrite elem_of_elements).
Qed.

Lemma unsubscribe_subscribers (ws c : WebSocket) (task_id tid : string)
    (m : ConnectionManager) :
  c ∈ default ∅ (task_subscribers (unsubscribe_from_task ws task_id m) !! tid)
  -> c ∈ default ∅ (task_subscribers m !! tid).
Proof.
  unfold unsubscribe_from_task.
  destruct (task_subscribers m !! task_id) as [s|] eqn:Hs; simpl; [|done].
  case_bool_decide as Hempty.
  - destruct (decide (tid = task_id)) as [->|Hne].
    + rewrite lookup_delete_eq. simpl. set_solver.
    + by rewrite lookup_delete_ne.
  - destruct (decide (tid = task_id)) as [->|Hne].
    + rewrite lookup_insert_eq, Hs. simpl. set_solver.
    + by rewrite lookup_insert_ne.
Qed.

Lemma truthy_Some (x : option string) (s : string) :
  truthy x = Some s -> x = Some s /\ s <> "".
Proof.
  unfold truthy. destruct x as [t|]; [|done].
  destruct (String.eqb_spec t ""); [done|]. by intros [= <-].
Qed.

Lemma send_message_registry_key (ws : WebSocket)
    (message : WebSocketMessage.t) (h : Hub) (tid : string) :
  task_subscribers (manager h) !! tid = None ->
  task_subscribers (manager (send_message ws message h)) !! tid = None.
Proof.
  intros Hnone. rewrite send_message_manager. case_bool_decide; [|done].
  unfold disconnect. case_bool_decide; [|done]. simpl.
  by rewrite lookup_fmap, Hnone.
Qed.

(** X8. Whatever message a client sends, the handler creates no entry under
    the empty task id, and the only connection it can add to a subscriber
    set is the sender, under the task id a subscribe message names. *)
Theorem client_message_subscribes_only_sender (cfg : Config) (ws : WebSocket)
    (message : ClientMessage) (h : Hub) :
  let h' := handle_client_message cfg ws message h in
  (task_subscribers (manager h) !! "" = None ->
   task_subscribers (manager h') !! "" = None)
  /\ (forall tid c,
        c ∈ subscribers_of tid h' ->
        c ∈ subscribers_of tid h
        \/ (c = ws /\ tid <> ""
            /\ message_type message = Some "subscribe"
            /\ message_task_id message = Some tid)).
Proof.
  unfold handle_client_message.
  case_bool_decide as Hsub.
  { destruct (truthy (message_task_id message)) as [task_id|] eqn:Htid.
    - apply truthy_Some in Htid as [Htid Hne].
      unfold subscribe_to_task. split.
      + intros Hnone. apply send_message_registry_key. simpl.
        by rewrite lookup_insert_ne.
      + intros tid c Hc. apply send_message_subscribers in Hc as [Hc _].
        unfold subscribers_of in *. simpl in Hc.
        destruct (decide (tid = task_id)) as [->|Hother].
        * rewrite lookup_insert_eq in Hc. simpl in Hc.
          apply elem_of_union in Hc as [Hc|Hc]; [|by left].
          right. apply elem_of_singleton in Hc. auto.
        * rewrite lookup_insert_ne in Hc by done. by left.
    - split; [apply send_message_registry_key|].
      intros tid c Hc. apply send_message_subscribers in Hc as [Hc _].
      by left. }
  case_bool_decide as Hunsub.
  { destruct (truthy (message_task_id message)) as [task_id|] eqn:Htid.
    - apply truthy_Some in Htid as [Htid Hne]. simpl. split.
      + intros Hnone. unfold unsubscribe_from_task.
        destruct (task_subscribers (manager h) !! task_id); simpl; [|done].
        case_bool_decide.
        * by rewrite lookup_delete_ne.
        * by rewrite lookup_insert_ne.
      + intros tid c Hc. left. unfold subscribers_of in *. simpl in Hc.
        by eapply unsubscribe_subscribers.
    - split; [apply send_message_registry_key|].
      intros tid c Hc. apply send_message_subscribers in Hc as [Hc _].
      by left. }
  assert (Hsend : forall reply,
    (task_subscribers (manager h) !! "" = None ->
     task_subscribers (manager (send_message ws reply h)) !! "" = None)
    /\ (forall tid c,
          c ∈ subscribers_of tid (send_message ws reply h) ->
          c ∈ subscribers_of tid h
          \/ (c = ws /\ tid <> ""
              /\ message_type message = Some "subscribe"
              /\ message_task_id message = Some tid))).
  { intros reply. split; [apply send_message_registry_key|].
    intros tid c Hc. apply send_message_subscribers in Hc as [Hc _].
    by left. }
  repeat case_bool_decide; apply Hsend.
Qed.

(** X9. After [disconnect] the statistics count one active connection less
    if the connection was active, and as many accepted connections and as
    many tasks as before: the task count does not fall when the last
    subscriber of a task leaves this way. *)
Theorem disconnect_statistics (cfg : Config) (ws : WebSocket)
    (m : ConnectionManager) :
  let before := get_connection_stats cfg m in
  let after := get_connection_stats cfg (disconnect ws m) in
  ConnectionStats.active_tasks after = ConnectionStats.active_tasks before
  /\ ConnectionStats.total_connections after
     = ConnectionStats.total_connections before
  /\ ConnectionStats.active_connections after
     + (if decide (ws ∈ active_connections m) then 1 else 0)
     = ConnectionStats.active_connections before.
Proof.
  unfold get_connection_stats, disconnect. simpl.
  case_bool_decide as Hin; simpl.
  - rewrite map_size_fmap. split; [done|]. split; [done|].
    rewrite decide_True by done.
    rewrite size_difference by set_solver. rewrite size_singleton.
    assert (size (active_connections m) <> 0).
    { apply size_non_empty_iff. set_solver. }
    lia.
  - rewrite decide_False by done. repeat split; lia.
Qed.

End hub_facts.

(** ** The task registry and the events of a task *)

Module task_facts.
Import models config websocket download inputs.

(** A publication to the subscribers of a task reaches every subscriber
    whose peer is there, and leaves it subscribed. *)
Lemma publication_received (task_id : string) (message : WebSocketMessage.t)
    (h : Hub) (ws : WebSocket) :
  ws ∈ subscribers_of task_id h -> ws ∉ closed h ->
  let h' := if bool_decide (subscribers_of task_id h = ∅) then h
            else _broadcast_to_connections (subscribers_of task_id h)
                   message h in
  received ws h' = received ws h ++ [message]
  /\ closed h' = closed h
  /\ ws ∈ subscribers_of task_id h'.
Proof.
  intros Hin Hopen. rewrite bool_decide_eq_false_2 by set_solver.
  destruct (publish_facts.broadcast_to_connections_spec message
              (subscribers_of task_id h) h) as (Hclosed & Hsent & Hkeep).
  split; [|split; [done|by apply Hkeep]].
  unfold received. rewrite Hsent, omap_app. f_equal.
  apply publish_facts.received_nodup; [apply NoDup_elements| |done].
  by apply elem_of_elements.
Qed.

(** X10. [cleanup_completed_tasks] keeps exactly the tasks that are not
    done and no stored result is touched; running it again changes nothing;
    and after it the status query of a task that was done and has a stored
    result answers with that result. *)
Theorem cleanup_keeps_running_tasks (o : DownloadOrchestrator) :
  let o' := cleanup_completed_tasks o in
  (forall task_id task,
     active_tasks o' !! task_id = Some task
     <-> active_tasks o !! task_id = Some task /\ asyncio.done task = false)
  /\ task_results o' = task_results o
  /\ cleanup_completed_tasks o' = o'
  /\ (forall task_id task result,
        active_tasks o !! task_id = Some task ->
        asyncio.done task = true ->
        task_results o !! task_id = Some result ->
        get_task_status task_id o'
        = Some (TaskStatus.mk task_id "completed" true None (Some result))).
Proof.
  unfold cleanup_completed_tasks. simpl.
  split; [|split; [done|split]].
  - intros task_id task. by rewrite map_lookup_filter_Some.
  - f_equal. apply map_eq. intros task_id. apply option_eq. intros task.
    rewrite !map_lookup_filter_Some. tauto.
  - intros task_id task result Htask Hdone Hres. unfold get_task_status. simpl.
    assert (Hgone : filter (fun kv => asyncio.done kv.2 = false)
                      (active_tasks o) !! task_id = None).
    { apply eq_None_not_Some. intros [t Ht].
      apply map_lookup_filter_Some in Ht as [Ht Hnd]. simpl in Hnd.
      congruence. }
    by rewrite Hgone, Hres.
Qed.

Lemma broadcast_status_received (task_id status : string)
    (data : list (string * string)) (h : Hub) (ws : WebSocket) :
  ws ∈ subscribers_of task_id h -> ws ∉ closed h ->
  received ws (broadcast_status task_id status data h)
  = received ws h ++ [status_message task_id status data]
  /\ closed (broadcast_status task_id status data h) = closed h
  /\ ws ∈ subscribers_of task_id (broadcast_status task_id status data h).
Proof. apply publication_received. Qed.

Lemma broadcast_error_received (task_id error error_type : string) (h : Hub)
    (ws : WebSocket) :
  ws ∈ subscribers_of task_id h -> ws ∉ closed h ->
  received ws (broadcast_error task_id error error_type h)
  = received ws h ++ [error_message task_id error error_type]
  /\ closed (broadcast_error task_id error error_type h) = closed h
  /\ ws ∈ subscribers_of task_id (broadcast_error task_id error error_type h).
Proof. apply publication_received. Qed.

Lemma broadcast_metadata_received (task_id : string)
    (metadata : list (string * string)) (h : Hub) (ws : WebSocket) :
  ws ∈ subscribers_of task_id h -> ws ∉ closed h ->
  received ws (broadcast_metadata task_id metadata h)
  = received ws h ++ [WebSocketMessage.mk "metadata" (Some task_id) metadata]
  /\ closed (broadcast_metadata task_id metadata h) = closed h
  /\ ws ∈ subscribers_of task_id (broadcast_metadata task_id metadata h).
Proof. apply publication_received. Qed.

(** The updates a download hands to [progress_callback] reach a subscriber
    whose peer is there, stamped with the id of the task, in the order they
    were handed over. *)
Lemma progress_updates_received (task_id : string)
    (progress : list DownloadProgress.t) (h : Hub) (ws : WebSocket) :
  task_id <> "" ->
  ws ∈ subscribers_of task_id h -> ws ∉ closed h ->
  let h' := foldl (fun hub update => progress_callback task_id update hub)
              h progress in
  received ws h'
  = received ws h
    ++ ((fun update =>
           progress_message (DownloadProgress.with_task_id task_id update))
          <$> progress)
  /\ closed h' = closed h
  /\ ws ∈ subscribers_of task_id h'.
Proof.
  intros Hid. revert h.
  induction progress as [|update progress IH]; intros h Hin Hopen; simpl.
  - by rewrite app_nil_r.
  - set (stamped := DownloadProgress.with_task_id task_id update).
    assert (Hstamped : DownloadProgress.task_id stamped <> "") by done.
    destruct (publish_facts.broadcast_progress_spec stamped h Hstamped)
      as (Hclosed & _ & Hkeep).
    pose proof (publish_facts.broadcast_progress_received stamped h ws
                  Hstamped Hin Hopen) as Hreceived.
    change (progress_callback task_id update h)
      with (broadcast_progress stamped h).
    destruct (IH (broadcast_progress stamped h)) as (R & C & S).
    + by apply Hkeep.
    + by rewrite Hclosed.
    + split; [|split; [|done]].
      * rewrite R, Hreceived. by rewrite <- app_assoc.
      * by rewrite C.
Qed.

(** X12. The events of a single download reach a subscriber whose peer is
    there in the order the task produces them: "extracting", the metadata of
    a video, "downloading", the progress updates of the download stamped
    with the id of the task, and last either "completed" with the file, its
    size and the download time, or the error (with "Download failed" for a
    result that has no error text or an empty one); when the extraction
    raises, the error follows "extracting" at once. *)
Theorem single_download_events_in_order (task_id : string)
    (extracted : Py.Outcome Metadata) (progress : list DownloadProgress.t)
    (downloaded : Py.Outcome DownloadResult.t)
    (o : DownloadOrchestrator) (hub : Hub) (ws : WebSocket) :
  task_id <> "" ->
  ws ∈ subscribers_of task_id hub -> ws ∉ closed hub ->
  received ws
    (snd (snd (_execute_single_download task_id extracted progress downloaded
                 (o, hub))))
  = received ws hub
    ++ status_message task_id "extracting"
         [("message", "Extracting video metadata")]
       :: match extracted with
          | Py.Raise e =>
              [error_message task_id (Py.exc_str e) (Py.exc_class e)]
          | Py.Return metadata =>
              match metadata with
              | IsVideo v =>
                  [WebSocketMessage.mk "metadata" (Some task_id)
                     (VideoMetadata.dict v)]
              | IsPlaylist _ => []
              end
              ++ status_message task_id "downloading"
                   [("message", "Starting download")]
                 :: ((fun update =>
                        progress_message
                          (DownloadProgress.with_task_id task_id update))
                       <$> progress)
                 ++ match downloaded with
                    | Py.Raise e =>
                        [error_message task_id (Py.exc_str e) (Py.exc_class e)]
                    | Py.Return result =>
                        if bool_decide
                             (DownloadResult.status result = COMPLETED)
                        then [status_message task_id "completed"
                                [("message", "Download completed successfully");
                                 ("file_path",
                                  Py.json_opt (fun path => path)
                                    (DownloadResult.video_file result));
                                 ("file_size",
                                  Py.json_opt pretty
                                    (DownloadResult.filesize result));
                                 ("download_time",
                                  Py.json_opt (fun text => text)
                                    (DownloadResult.download_time result))]]
                        else [error_message task_id
                                (Py.str_or (DownloadResult.error result)
                                   "Download failed")
                                (Py.json_opt (fun name => name)
                                   (DownloadResult.error_type result))]
                    end
          end.
Proof.
  intros Hid Hin Hopen. unfold _execute_single_download, single_failed.
  cbn [fst snd].
  destruct (broadcast_status_received task_id "extracting"
              [("message", "Extracting video metadata")] hub ws Hin Hopen)
    as (R1 & C1 & S1).
  set (h1 := broadcast_status task_id "extracting" _ hub) in *.
  assert (O1 : ws ∉ closed h1) by (by rewrite C1).
  destruct extracted as [metadata|e]; cbn [fst snd].
  2:{ destruct (broadcast_error_received task_id (Py.exc_str e)
                  (Py.exc_class e) h1 ws S1 O1) as (R & _ & _).
      rewrite R, R1. by rewrite <- app_assoc. }
  set (h2 := match metadata with
             | IsVideo v => broadcast_metadata task_id _ h1
             | IsPlaylist _ => h1
             end).
  assert (H2 : received ws h2
               = received ws h1
                 ++ match metadata with
                    | IsVideo v =>
                        [WebSocketMessage.mk "metadata" (Some task_id)
                           (VideoMetadata.dict v)]
                    | IsPlaylist _ => []
                    end
               /\ closed h2 = closed h1 /\ ws ∈ subscribers_of task_id h2).
  { unfold h2. destruct metadata as [v|pl].
    - apply broadcast_metadata_received; done.
    - by rewrite app_nil_r. }
  destruct H2 as (R2 & C2 & S2).
  assert (O2 : ws ∉ closed h2) by (by rewrite C2).
  destruct (broadcast_status_received task_id "downloading"
              [("message", "Starting download")] h2 ws S2 O2)
    as (R3 & C3 & S3).
  set (h3 := broadcast_status task_id "downloading" _ h2) in *.
  assert (O3 : ws ∉ closed h3) by (by rewrite C3).
  destruct (progress_updates_received task_id progress h3 ws Hid S3 O3)
    as (R4 & C4 & S4).
  set (h4 := foldl _ h3 progress) in *.
  assert (O4 : ws ∉ closed h4) by (by rewrite C4).
  assert (Hend : forall last,
            (received ws h4 ++ [last])
            = received ws hub
              ++ status_message task_id "extracting"
                   [("message", "Extracting video metadata")]
                 :: match metadata with
                    | IsVideo v =>
                        [WebSocketMessage.mk "metadata" (Some task_id)
                           (VideoMetadata.dict v)]
                    | IsPlaylist _ => []
                    end
                    ++ status_message task_id "downloading"
                         [("message", "Starting download")]
                       :: ((fun update =>
                              progress_message
                                (DownloadProgress.with_task_id task_id update))
                             <$> progress)
                       ++ [last]).
  { intros last. rewrite R4, R3, R2, R1. by rewrite <- !app_assoc. }
  destruct downloaded as [result|e]; cbn [fst snd].
  - unfold with_task_id, completed_data.
    cbn [DownloadResult.status DownloadResult.error DownloadResult.error_type
         DownloadResult.video_file DownloadResult.filesize
         DownloadResult.download_time].
    case_bool_decide.
    + destruct (broadcast_status_received task_id "completed"
                  [("message", "Download completed successfully");
                   ("file_path",
                    Py.json_opt (fun path => path)
                      (DownloadResult.video_file result));
                   ("file_size",
                    Py.json_opt pretty (DownloadResult.filesize result));
                   ("download_time",
                    Py.json_opt (fun text => text)
                      (DownloadResult.download_time result))]
                  h4 ws S4 O4)
        as (R & _ & _).
      rewrite R. apply Hend.
    + destruct (broadcast_error_received task_id
                  (Py.str_or (DownloadResult.error result) "Download failed")
                  (Py.json_opt (fun name => name)
                     (DownloadResult.error_type result))
                  h4 ws S4 O4) as (R & _ & _).
      rewrite R. apply Hend.
  - destruct (broadcast_error_received task_id (Py.exc_str e)
                (Py.exc_class e) h4 ws S4 O4) as (R & _ & _).
    rewrite R. apply Hend.
Qed.

Lemma single_download_events_in_order_witness :
  "single_ab12cd34_1700000000" <> ""
  /\ 1 ∈ subscribers_of "single_ab12cd34_1700000000" one_subscriber
  /\ (1 ∉ closed one_subscriber)
  /\ exists events,
       received 1
         (snd (snd (_execute_single_download "single_ab12cd34_1700000000"
                      (Py.Return (IsVideo (video 0)))
                      [progress_for ""; progress_for ""]
                      (Py.Return (completed "pytube_0"))
                      (Orchestrator_init, one_subscriber))))
       = received 1 one_subscriber ++ events
       /\ length events = 6.
Proof.
  assert (Hin : 1 ∈ subscribers_of "single_ab12cd34_1700000000" one_subscriber)
    by (vm_compute; reflexivity).
  assert (Hopen : 1 ∉ closed one_subscriber)
    by (vm_compute; discriminate).
  split; [discriminate|]. split; [exact Hin|]. split; [exact Hopen|].
  eexists. split.
  - apply (single_download_events_in_order "single_ab12cd34_1700000000"
             (Py.Return (IsVideo (video 0)))
             [progress_for ""; progress_for ""]
             (Py.Return (completed "pytube_0"))
             Orchestrator_init one_subscriber 1);
      [discriminate|exact Hin|exact Hopen].
  - reflexivity.
Defined.

(** A FAILED result whose error text is empty is announced as
    "Download failed", with no error type. *)
Example empty_error_text_is_replaced :
  last (received 1
          (snd (snd (_execute_single_download "single_ab12cd34_1700000000"
                       (Py.Return (IsVideo (video 0))) []
                       (Py.Return
                          (DownloadResult.mk "pytube_0" FAILED None None
                             (Some "") None))
                       (Orchestrator_init, one_subscriber)))))
  = Some (error_message "single_ab12cd34_1700000000" "Download failed" "null").
Proof. by vm_compute. Qed.

(** X13. A batch whose [max_concurrent] is negative fails as a whole: the
    semaphore cannot be built, no download starts, and the result recorded
    names the number of URLs but holds no result and counts neither success
    nor failure. *)
Theorem negative_limit_fails_whole_batch (cfg : Config)
    (h : yt_process.Handlers) (task_id : string) (request : BatchRequest.t)
    (n : Z) :
  BatchRequest.max_concurrent request = Some n ->
  (n < 0)%Z ->
  (exists r, _execute_batch_download cfg h task_id request r)
  /\ (forall r,
        _execute_batch_download cfg h task_id request r ->
        r = BatchResult.mk task_id (length (BatchRequest.urls request))
              0 0 [] None).
Proof.
  intros Hmc Hneg.
  assert (Hsem : asyncio.Semaphore
                   (Py.int_or (BatchRequest.max_concurrent request)
                      (MAX_CONCURRENT_DOWNLOADS cfg))
                 = Py.Raise (Py.mkExc "ValueError"
                               "Semaphore initial value must be >= 0")).
  { rewrite Hmc. unfold Py.int_or, asyncio.Semaphore.
    destruct (Z.eqb_spec n 0); [lia|].
    destruct (Z.ltb_spec n 0); [done|lia]. }
  split.
  - eexists. eapply batch_failed. by apply semaphore_raises.
  - intros r Hr. destruct Hr as [results Hrun | e Hrun]; [|done].
    inversion Hrun as [|k x Hk _ _]. congruence.
Qed.

Lemma negative_limit_fails_whole_batch_witness :
  exists r,
    _execute_batch_download defaults all_succeed "batch_0a1b2c3d_1700000000"
      (batch_request two_urls (Some (-1)%Z)) r.
Proof.
  apply (negative_limit_fails_whole_batch defaults all_succeed
           "batch_0a1b2c3d_1700000000"
           (batch_request two_urls (Some (-1)%Z)) (-1) eq_refl).
  lia.
Defined.

End task_facts.

(** ** More on the selection of playlist videos *)

Module selection_bounds.
Import models config download inputs.

Lemma slice_from_subseteq {A} (l : list A) (i : Z) : Py.slice_from l i ⊆ l.
Proof. apply subseteq_drop. Qed.

Lemma slice_to_subseteq {A} (l : list A) (j : Z) : Py.slice_to l j ⊆ l.
Proof. apply subseteq_take. Qed.

Lemma slice_from_length {A} (l : list A) (i : Z) :
  length (Py.slice_from l i) <= length l.
Proof. unfold Py.slice_from. rewrite length_drop. lia. Qed.

Lemma slice_to_length {A} (l : list A) (j : Z) :
  length (Py.slice_to l j) <= length l.
Proof. unfold Py.slice_to. rewrite length_take. lia. Qed.

Lemma length_omap_le {A B} (f : A -> option B) (l : list A) :
  length (omap f l) <= length l.
Proof.
  induction l as [|x l IH]; [done|].
  change (omap f (x :: l))
    with (match f x with Some y => y :: omap f l | None => omap f l end).
  destruct (f x); simpl; lia.
Qed.

(** X14. Whatever the request, negative bounds included, every video the
    selection returns is a video of the playlist. *)
Theorem selected_videos_are_playlist_videos (playlist : PlaylistMetadata.t)
    (request : PlaylistRequest.t) (v : VideoMetadata.t) :
  v ∈ _select_playlist_videos playlist request ->
  v ∈ PlaylistMetadata.videos playlist.
Proof.
  unfold _select_playlist_videos.
  set (videos := PlaylistMetadata.videos playlist).
  set (picked := if PlaylistRequest.download_all request then videos
                 else omap _ _).
  assert (Hpicked : picked ⊆ videos).
  { unfold picked. destruct (PlaylistRequest.download_all request); [done|].
    intros x Hx. apply list_elem_of_omap in Hx as (index & _ & Hx).
    destruct ((0 <=? index)%Z && (index <? Z.of_nat (length videos))%Z);
      [|done].
    by eapply list_elem_of_lookup_2. }
  set (started := match PlaylistRequest.start_index request with
                  | Some s => Py.slice_from picked (Z.max 0 s)
                  | None => picked end).
  assert (Hstarted : started ⊆ picked).
  { unfold started. destruct (PlaylistRequest.start_index request);
      [apply slice_from_subseteq | done]. }
  set (ended := match PlaylistRequest.end_index request with
                | Some e => Py.slice_to started _
                | None => started end).
  assert (Hended : ended ⊆ started).
  { unfold ended. destruct (PlaylistRequest.end_index request);
      [apply slice_to_subseteq | done]. }
  intros Hv. apply Hpicked, Hstarted, Hended.
  destruct (PlaylistRequest.max_downloads request); [|done].
  by eapply slice_to_subseteq.
Qed.

Lemma selected_videos_are_playlist_videos_witness :
  video 1 ∈ PlaylistMetadata.videos five_videos.
Proof.
  apply (selected_videos_are_playlist_videos five_videos
           (playlist_request (Some 1%Z) (Some 2%Z) None) (video 1)).
  apply list_elem_of_here.
Defined.

(** X15. The selection never returns more videos than the playlist has
    when all are asked for, nor more than the indices given when they are
    listed, nor more than a maximum that is not negative; asked for all
    videos with no window and no maximum, it returns the playlist. *)
Theorem selection_size_bounds (playlist : PlaylistMetadata.t)
    (request : PlaylistRequest.t) :
  let selected := _select_playlist_videos playlist request in
  (PlaylistRequest.download_all request = true ->
   length selected <= length (PlaylistMetadata.videos playlist))
  /\ (PlaylistRequest.download_all request = false ->
      length selected <= length (PlaylistRequest.selected_videos request))
  /\ (forall m,
        PlaylistRequest.max_downloads request = Some m -> (0 <= m)%Z ->
        (Z.of_nat (length selected) <= m)%Z)
  /\ (PlaylistRequest.download_all request = true ->
      PlaylistRequest.start_index request = None ->
      PlaylistRequest.end_index request = None ->
      PlaylistRequest.max_downloads request = None ->
      selected = PlaylistMetadata.videos playlist).
Proof.
  unfold _select_playlist_videos.
  set (videos := PlaylistMetadata.videos playlist).
  set (picked := if PlaylistRequest.download_all request then videos
                 else omap _ _).
  set (started := match PlaylistRequest.start_index request with
                  | Some s => Py.slice_from picked (Z.max 0 s)
                  | None => picked end).
  set (ended := match PlaylistRequest.end_index request with
                | Some e => Py.slice_to started _
                | None => started end).
  assert (Hstarted : length started <= length picked).
  { unfold started. destruct (PlaylistRequest.start_index request);
      [apply slice_from_length | done]. }
  assert (Hended : length ended <= length started).
  { unfold ended. destruct (PlaylistRequest.end_index request);
      [apply slice_to_length | done]. }
  assert (Hlast : length (match PlaylistRequest.max_downloads request with
                          | Some m => Py.slice_to ended m
                          | None => ended end) <= length ended).
  { destruct (PlaylistRequest.max_downloads request);
      [apply slice_to_length | done]. }
  simpl. split; [|split; [|split]].
  - intros Hall. assert (picked = videos) as Hp by (unfold picked; by rewrite Hall).
    rewrite Hp in Hstarted. lia.
  - intros Hall.
    assert (length picked <= length (PlaylistRequest.selected_videos request)).
    { unfold picked. rewrite Hall. apply length_omap_le. }
    lia.
  - intros m Hm Hpos. rewrite Hm.
    rewrite Py_facts.slice_to_nonneg by done. rewrite length_take. lia.
  - intros Hall Hs He Hm. unfold ended, started, picked.
    by rewrite Hm, He, Hs, Hall.
Qed.

End selection_bounds.

(** ** The processor: what download_batch returns, the quality table *)

Module processor_facts.
Import models config yt_process yt_process_tables inputs.

Lemma filter_all_length {A} (P : A -> Prop) `{!forall x, Decision (P x)}
    (l : list A) :
  length (filter P l) = length l <-> Forall P l.
Proof.
  induction l as [|x l IH].
  - split; [constructor|done].
  - rewrite filter_cons. destruct (decide (P x)) as [Hx|Hx]; simpl.
    + rewrite Forall_cons. split.
      * intros [= Hl]. split; [done|]. by apply IH.
      * intros [_ Hl]. f_equal. by apply IH.
    + pose proof (length_filter P l). split; [lia|].
      intros Hall. by apply Forall_cons in Hall as [? _].
Qed.

(** X16. [download_batch] gathers one result for every URL but returns only
    those that completed, in the order of the URLs: the failures are
    dropped, so the list returned is as long as the list of URLs exactly
    when every download completed. A negative [max_concurrent] makes it
    raise [ValueError]. *)
Theorem download_batch_returns_completed_only (cfg : Config) (h : Handlers)
    (request : BatchRequest.t) :
  length (download_batch_gathered cfg h request)
  = length (BatchRequest.urls request)
  /\ (forall results,
        download_batch cfg h request = Py.Return results ->
        results `sublist_of` download_batch_gathered cfg h request
        /\ Forall (fun r => DownloadResult.status r = COMPLETED) results
        /\ (length results = length (BatchRequest.urls request)
            <-> Forall (fun r => DownloadResult.status r = COMPLETED)
                  (download_batch_gathered cfg h request)))
  /\ (forall n,
        BatchRequest.max_concurrent request = Some n -> (n < 0)%Z ->
        exists e, download_batch cfg h request = Py.Raise e
                  /\ Py.exc_class e = "ValueError").
Proof.
  assert (Hlen : length (download_batch_gathered cfg h request)
                 = length (BatchRequest.urls request)).
  { unfold download_batch_gathered. apply length_imap. }
  split; [done|]. split.
  - intros results. unfold download_batch, Py.bind.
    destruct (asyncio.Semaphore _); [|done]. intros [= <-].
    split; [apply sublist_filter|]. split.
    + apply Forall_forall. intros r Hr.
      by apply list_elem_of_filter in Hr as [? _].
    + rewrite <- Hlen. apply filter_all_length.
  - intros n Hmc Hneg. unfold download_batch, Py.bind. rewrite Hmc.
    unfold Py.int_or, asyncio.Semaphore.
    destruct (Z.eqb_spec n 0); [lia|].
    destruct (Z.ltb_spec n 0); [|lia]. eauto.
Qed.

Example download_batch_drops_the_failure :
  length <$> (match download_batch defaults (item_raises 0)
                      (batch_request two_urls None) with
              | Py.Return results => Some results
              | Py.Raise _ => None
              end) = Some 1.
Proof. reflexivity. Qed.

(** X17. The table of recommended qualities agrees with the routing exactly
    when [MAX_QUALITY_DIRECT] lies in [720, 1080): then every quality listed
    for pytube takes the direct path and every quality listed for rendering
    takes the path that renders; outside that range a listed quality is
    routed the other way. The table is fixed, the ceiling is configured. *)
Theorem recommended_qualities_match_routing (cfg : Config) :
  ((forall q, q ∈ recommended "pytube" ->
              determine_processor cfg q "download" = PYTUBE)
   /\ (forall q, q ∈ recommended "render" ->
                 download_path cfg q = SplitRender))
  <-> (720 <= MAX_QUALITY_DIRECT cfg < 1080)%Z.
Proof.
  assert (Hroute : forall q,
            determine_processor cfg q "download"
            = if (q <=? MAX_QUALITY_DIRECT cfg)%Z then PYTUBE else YTDLP).
  { intros q. by rewrite routing_facts.determine_processor_cases. }
  assert (Hpath : forall q,
            download_path cfg q
            = if (q <=? MAX_QUALITY_DIRECT cfg)%Z then DirectPytube
              else SplitRender).
  { intros q. unfold download_path, requires_rendering. rewrite Hroute.
    unfold is_quality_direct_download.
    by destruct (q <=? MAX_QUALITY_DIRECT cfg)%Z. }
  split.
  - intros [Hpytube Hrender].
    specialize (Hpytube 720%Z). specialize (Hrender 1080%Z).
    rewrite Hroute in Hpytube. rewrite Hpath in Hrender.
    destruct (Z.leb_spec 720 (MAX_QUALITY_DIRECT cfg)) as [?|?];
      destruct (Z.leb_spec 1080 (MAX_QUALITY_DIRECT cfg)) as [?|?].
    + assert (1080%Z ∈ recommended "render") as Hin
        by (vm_compute; apply list_elem_of_here).
      by specialize (Hrender Hin).
    + lia.
    + lia.
    + assert (720%Z ∈ recommended "pytube") as Hin
        by (vm_compute; do 4 apply list_elem_of_further; apply list_elem_of_here).
      by specialize (Hpytube Hin).
  - intros [Hlow Hhigh]. split; intros q Hq.
    + rewrite Hroute.
      assert (q <= 720)%Z.
      { change (recommended "pytube") with [144; 240; 360; 480; 720]%Z in Hq.
        rewrite !elem_of_cons, elem_of_nil in Hq. lia. }
      destruct (Z.leb_spec q (MAX_QUALITY_DIRECT cfg)); [done|lia].
    + rewrite Hpath.
      assert (1080 <= q)%Z.
      { change (recommended "render") with [1080; 1440; 2160]%Z in Hq.
        rewrite !elem_of_cons, elem_of_nil in Hq. lia. }
      destruct (Z.leb_spec q (MAX_QUALITY_DIRECT cfg)); [lia|done].
Qed.

End processor_facts.

(** ** The task endpoints *)

Module api_facts.
Import models config download api inputs.

(** X18. The status endpoint answers 404 exactly for an unknown task id.
    For a task that is still running it fails: "running" is no value of
    [DownloadStatus], so building the response raises a validation error.
    For a task that is done and still in the registry of active tasks it
    answers "completed" without a result. *)
Theorem status_endpoint_replies (task_id : string) (o : DownloadOrchestrator) :
  (get_task_status_endpoint task_id o = HTTPException 404 "Task not found"
   <-> active_tasks o !! task_id = None /\ task_results o !! task_id = None)
  /\ (forall task,
        active_tasks o !! task_id = Some task ->
        get_task_status_endpoint task_id o
        = if asyncio.done task
          then Response (TaskStatusResponse.mk task_id COMPLETED None)
          else Unhandled validation_error)
  /\ (forall result,
        active_tasks o !! task_id = None ->
        task_results o !! task_id = Some result ->
        get_task_status_endpoint task_id o
        = match result with
          | OfSingle r =>
              Response (TaskStatusResponse.mk task_id COMPLETED (Some r))
          | _ => Unhandled validation_error
          end).
Proof.
  unfold get_task_status_endpoint, get_task_status.
  split; [|split].
  - destruct (active_tasks o !! task_id) as [task|].
    + split; [|by intros [? _]].
      unfold TaskStatusResponse_of. simpl.
      by destruct (asyncio.done task).
    + destruct (task_results o !! task_id) as [result|].
      * split; [|by intros [_ ?]].
        unfold TaskStatusResponse_of. simpl. by destruct result.
      * done.
  - intros task ->. unfold TaskStatusResponse_of. simpl.
    by destruct (asyncio.done task).
  - intros result -> ->. unfold TaskStatusResponse_of. simpl.
    by destruct result.
Qed.

(** X19. The cancel endpoint answers 404 exactly when the task is unknown
    or done, and then leaves the registry and the hub as they were;
    otherwise it confirms the cancellation. It never fails otherwise. *)
Theorem cancel_endpoint_replies (task_id : string)
    (o : DownloadOrchestrator) (hub : websocket.Hub) :
  let reply := fst (cancel_task_endpoint task_id (o, hub)) in
  let s' := snd (cancel_task_endpoint task_id (o, hub)) in
  (reply = Response "Task cancelled successfully"
   \/ reply = HTTPException 404 "Task not found or already completed")
  /\ (reply = HTTPException 404 "Task not found or already completed"
      <-> ~ exists task, active_tasks o !! task_id = Some task
                         /\ asyncio.done task = false)
  /\ (reply = HTTPException 404 "Task not found or already completed" ->
      s' = (o, hub)).
Proof.
  unfold cancel_task_endpoint, cancel_task.
  case_bool_decide as Hdom.
  - apply elem_of_dom in Hdom as [task Htask].
    unfold getitem. rewrite Htask. simpl.
    destruct (asyncio.done task) eqn:Hdone; simpl.
    + split; [by right|]. split; [|done]. split; [|done].
      intros _ (t & Ht & Hnd). congruence.
    + split; [by left|]. split; [|done]. split; [done|].
      intros Hnone. destruct Hnone. eauto.
  - apply not_elem_of_dom in Hdom. simpl.
    split; [by right|]. split; [|done]. split; [|done].
    intros _ (t & Ht & _). congruence.
Qed.

End api_facts.

(** ** Strings: stripping, splitting, joining *)

Module string_facts.
Import PyStr.

Section Strip.
Variable isspace : nat -> bool.

Lemma lstrip_split (s : list nat) :
  exists pre, s = pre ++ lstrip isspace s
              /\ Forall (fun c => isspace c = true) pre.
Proof.
  induction s as [|c s (pre & Hs & Hpre)]; simpl.
  - by exists [].
  - destruct (isspace c) eqn:Hc.
    + exists (c :: pre). split; [by rewrite Hs at 1|]. by constructor.
    + by exists [].
Qed.

Lemma lstrip_head (s : list nat) (c : nat) :
  head (lstrip isspace s) = Some c -> isspace c = false.
Proof.
  induction s as [|a s IH]; simpl; [done|].
  destruct (isspace a) eqn:Ha; [done|]. simpl. by intros [= <-].
Qed.

Lemma lstrip_all_space (s : list nat) :
  Forall (fun c => isspace c = true) s -> lstrip isspace s = [].
Proof.
  induction 1 as [|c s Hc _ IH]; simpl; [done|]. by rewrite Hc.
Qed.

Lemma rstrip_split (s : list nat) :
  exists suf, s = rstrip isspace s ++ suf
              /\ Forall (fun c => isspace c = true) suf.
Proof.
  unfold rstrip. destruct (lstrip_split (reverse s)) as (pre & Hs & Hpre).
  exists (reverse pre). split.
  - rewrite <- reverse_app, <- Hs. by rewrite reverse_involutive.
  - by apply Forall_reverse.
Qed.

Lemma rstrip_last (s : list nat) (c : nat) :
  last (rstrip isspace s) = Some c -> isspace c = false.
Proof. unfold rstrip. rewrite last_reverse. apply lstrip_head. Qed.

Lemma strip_split (s : list nat) :
  exists pre suf, s = pre ++ strip isspace s ++ suf
                  /\ Forall (fun c => isspace c = true) pre
                  /\ Forall (fun c => isspace c = true) suf.
Proof.
  unfold strip. destruct (lstrip_split s) as (pre & Hs & Hpre).
  destruct (rstrip_split (lstrip isspace s)) as (suf & Ht & Hsuf).
  exists pre, suf. split; [|done]. by rewrite <- Ht.
Qed.

Lemma strip_last (s : list nat) (c : nat) :
  last (strip isspace s) = Some c -> isspace c = false.
Proof. apply rstrip_last. Qed.

Lemma strip_head (s : list nat) (c : nat) :
  head (strip isspace s) = Some c -> isspace c = false.
Proof.
  unfold strip. intros Hhead.
  destruct (rstrip_split (lstrip isspace s)) as (suf & Ht & _).
  apply (lstrip_head s). rewrite Ht.
  destruct (rstrip isspace (lstrip isspace s)); [done|]. exact Hhead.
Qed.

Lemma strip_subseteq (s : list nat) : strip isspace s ⊆ s.
Proof.
  destruct (strip_split s) as (pre & suf & Hs & _).
  intros c Hc. rewrite Hs. rewrite !elem_of_app. auto.
Qed.

Lemma strip_length (s : list nat) : length (strip isspace s) <= length s.
Proof.
  destruct (strip_split s) as (pre & suf & Hs & _).
  rewrite Hs at 2. rewrite !length_app. lia.
Qed.

Lemma strip_all_space (s : list nat) :
  Forall (fun c => isspace c = true) s -> strip isspace s = [].
Proof. intros Hs. unfold strip. by rewrite lstrip_all_space. Qed.

End Strip.

Lemma replace_chars_pointwise (new : nat) (olds : list nat) (s : list nat) :
  foldl (fun s old => replace_char old new s) s olds
  = (fun c => foldl (fun c old => if (c =? old)%nat then new else c) c olds)
      <$> s.
Proof.
  revert s. induction olds as [|old olds IH]; intros s; simpl.
  - by rewrite list_fmap_id.
  - rewrite IH. unfold replace_char. by rewrite <- list_fmap_compose.
Qed.

Lemma replaced_char_not_old (new : nat) (seen olds : list nat) (c : nat) :
  new ∉ seen ++ olds -> c ∉ seen ->
  foldl (fun c old => if (c =? old)%nat then new else c) c olds
  ∉ seen ++ olds.
Proof.
  revert seen c. induction olds as [|old olds IH]; intros seen c Hnew Hc.
  - simpl. by rewrite app_nil_r.
  - simpl. replace (seen ++ old :: olds) with ((seen ++ [old]) ++ olds)
      in * by (by rewrite <- app_assoc).
    apply IH; [done|].
    destruct (Nat.eqb_spec c old) as [->|Hne].
    + intros Hin. apply Hnew. rewrite elem_of_app. by left.
    + rewrite elem_of_app, list_elem_of_singleton. tauto.
Qed.

End string_facts.

(** ** File names and origins *)

Module filename_facts.
Import PyStr filenames.

(** X20. Whatever the title, the name [_sanitize_filename] returns holds
    none of the nine invalid characters, is at most 200 characters long, and
    neither starts nor ends with whitespace. *)
Theorem sanitized_filename_is_clean (isspace : nat -> bool)
    (filename : list nat) :
  let name := _sanitize_filename isspace filename in
  Forall (fun c => c ∉ invalid_chars) name
  /\ length name <= 200
  /\ (forall c, head name = Some c -> isspace c = false)
  /\ (forall c, last name = Some c -> isspace c = false).
Proof.
  unfold _sanitize_filename.
  set (replaced := foldl _ filename invalid_chars).
  set (cut := if (200 <? length replaced)%nat then take 200 replaced
              else replaced).
  assert (Hreplaced : Forall (fun c => c ∉ invalid_chars) replaced).
  { unfold replaced. rewrite string_facts.replace_chars_pointwise.
    apply Forall_fmap, Forall_forall. intros c _. simpl.
    apply (string_facts.replaced_char_not_old 95 [] invalid_chars c).
    - unfold invalid_chars. simpl. rewrite !elem_of_cons, elem_of_nil. lia.
    - apply not_elem_of_nil. }
  assert (Hcut : cut ⊆ replaced /\ length cut <= 200).
  { unfold cut. destruct (Nat.ltb_spec 200 (length replaced)).
    - split; [apply subseteq_take|]. rewrite length_take. lia.
    - split; [done|lia]. }
  destruct Hcut as [Hsub Hlen]. simpl.
  split; [|split; [|split]].
  - apply Forall_forall. intros c Hc.
    apply (string_facts.strip_subseteq isspace) in Hc.
    rewrite Forall_forall in Hreplaced. by apply Hreplaced, Hsub.
  - pose proof (string_facts.strip_length isspace cut). lia.
  - apply string_facts.strip_head.
  - apply string_facts.strip_last.
Qed.

Section Words.
Variable isspace : nat -> bool.

(** The words [split_whitespace] cuts: none is empty, none holds
    whitespace, and their characters are characters of the string. *)
Lemma split_whitespace_from_words (word s : list nat) :
  Forall (fun c => isspace c = false) word ->
  Forall (fun w => w <> [] /\ Forall (fun c => isspace c = false) w
                   /\ w ⊆ word ++ s)
    (split_whitespace_from isspace word s).
Proof.
  revert word. induction s as [|c s IH]; intros word Hword; simpl.
  - destruct word as [|a word]; [constructor|].
    constructor; [|constructor]. split; [done|]. split; [done|].
    by rewrite app_nil_r.
  - destruct (isspace c) eqn:Hc.
    + assert (Hrest : Forall
                (fun w => w <> [] /\ Forall (fun c => isspace c = false) w
                          /\ w ⊆ word ++ c :: s)
                (split_whitespace_from isspace [] s)).
      { eapply Forall_impl; [apply (IH []); constructor|].
        intros w (Hne & Hw & Hsub). split; [done|]. split; [done|].
        intros x Hx. apply Hsub in Hx. simpl in Hx.
        rewrite elem_of_app, elem_of_cons. auto. }
      destruct word as [|a word]; [done|].
      constructor; [|done]. split; [done|]. split; [done|].
      intros x Hx. rewrite elem_of_app. by left.
    + eapply Forall_impl.
      * apply (IH (word ++ [c])). apply Forall_app. split; [done|].
        by constructor.
      * intros w (Hne & Hw & Hsub). split; [done|]. split; [done|].
        intros x Hx. apply Hsub in Hx. by rewrite <- app_assoc in Hx.
Qed.

Lemma join_subseteq (sep : list nat) (words : list (list nat)) (c : nat) :
  c ∈ join sep words -> c ∈ sep \/ exists w, w ∈ words /\ c ∈ w.
Proof.
  induction words as [|w words IH]; simpl.
  - intros Hc. by apply elem_of_nil in Hc.
  - destruct words as [|w' words].
    + intros Hc. right. exists w. split; [apply list_elem_of_here|done].
    + rewrite !elem_of_app. intros [Hc|[Hc|Hc]].
      * right. exists w. split; [apply list_elem_of_here|done].
      * by left.
      * destruct (IH Hc) as [?|(w0 & Hw0 & Hcw)]; [by left|].
        right. exists w0. split; [by apply list_elem_of_further|done].
Qed.

Lemma never_twice_without (c : nat) (s : list nat) :
  Forall (fun x => x <> c) s -> never_twice c s.
Proof.
  induction 1 as [|a s Ha Hs IH]; simpl; [done|].
  split; [|done]. destruct s; [done|]. by intros [? _].
Qed.

Lemma never_twice_app (c : nat) (a b : list nat) :
  never_twice c a -> never_twice c b ->
  ~ (last a = Some c /\ head b = Some c) ->
  never_twice c (a ++ b).
Proof.
  induction a as [|x a IH]; intros Ha Hb Hjoin; simpl; [done|].
  destruct Ha as [Hx Ha]. split.
  - destruct a as [|y a]; simpl.
    + destruct b as [|z b]; [done|]. intros [-> ->]. by apply Hjoin.
    + done.
  - apply IH; [done|done|]. intros [Hl Hh]. apply Hjoin. split; [|done].
    destruct a; [done|]. by rewrite last_cons, Hl.
Qed.

Lemma last_app_nonempty {A} (a b : list A) :
  b <> [] -> last (a ++ b) = last b.
Proof.
  intros Hb. destruct b as [|x b _] using rev_ind; [done|].
  by rewrite app_assoc, !last_snoc.
Qed.

Lemma join_spaced (words : list (list nat)) :
  isspace 32 = true ->
  Forall (fun w => w <> [] /\ Forall (fun c => isspace c = false) w) words ->
  head (join [32] words) <> Some 32
  /\ last (join [32] words) <> Some 32
  /\ never_twice 32 (join [32] words).
Proof.
  intros Hspace. induction 1 as [|w words [Hne Hw] Hwords IH]; simpl.
  - done.
  - assert (Hno : Forall (fun x => x <> 32) w).
    { eapply Forall_impl; [exact Hw|]. intros x Hx ->. congruence. }
    assert (Hhead : head w <> Some 32).
    { destruct w as [|x w]; [done|]. simpl.
      apply Forall_cons in Hno as [Hx _]. congruence. }
    assert (Hlast : last w <> Some 32).
    { intros Hl. apply last_Some in Hl as [w0 ->].
      rewrite Forall_app, Forall_singleton in Hw. destruct Hw as [_ Hx].
      congruence. }
    destruct words as [|w' words].
    + split; [done|]. split; [done|]. by apply never_twice_without.
    + destruct IH as (IHh & IHl & IHn).
      set (rest := join [32] (w' :: words)) in *.
      assert (Hrest : rest <> []).
      { apply Forall_cons in Hwords as [[Hw' _] _]. unfold rest. simpl.
        destruct words; [done|]. by destruct w'. }
      split; [|split].
      * destruct w; [done|]. done.
      * rewrite last_app_nonempty by done.
        change ([32] ++ rest) with (32 :: rest).
        destruct rest; [done|]. by rewrite last_cons_cons.
      * apply never_twice_app; [by apply never_twice_without| |tauto].
        change ([32] ++ rest) with (32 :: rest). simpl. split; [|done].
        destruct rest as [|r rest']; [done|]. intros [_ ->]. by apply IHh.
Qed.

End Words.

(** X21. The name [get_download_filename] builds between the prefix and
    the extension holds only alphanumeric characters, spaces, hyphens and
    underscores; it neither starts nor ends with a space and has no two
    spaces in a row. *)
Theorem clean_name_is_tidy (isspace isalnum : nat -> bool)
    (base_name : list nat) :
  isspace 32 = true ->
  let name := clean_name isspace isalnum base_name in
  Forall (fun c => isalnum c = true \/ c ∈ [32; 45; 95]) name
  /\ head name <> Some 32
  /\ last name <> Some 32
  /\ never_twice 32 name.
Proof.
  intros Hspace. unfold clean_name.
  set (kept := filter _ base_name).
  set (stripped := strip isspace kept).
  pose proof (split_whitespace_from_words isspace [] stripped
                ltac:(constructor)) as Hwords.
  fold (split_whitespace isspace stripped) in Hwords. simpl.
  split.
  - apply Forall_forall. intros c Hc.
    apply join_subseteq in Hc as [Hc|(w & Hw & Hc)].
    + right. apply list_elem_of_singleton in Hc as ->.
      apply list_elem_of_here.
    + rewrite Forall_forall in Hwords.
      destruct (Hwords w Hw) as (_ & _ & Hsub).
      apply Hsub in Hc. simpl in Hc.
      apply (string_facts.strip_subseteq isspace) in Hc.
      by apply list_elem_of_filter in Hc as [? _].
  - apply (join_spaced isspace); [done|].
    eapply Forall_impl; [exact Hwords|]. by intros w (? & ? & _).
Qed.

Lemma clean_name_is_tidy_witness :
  ascii_isspace 32 = true
  /\ head (clean_name ascii_isspace ascii_isalnum
             (of_string "  My  video: part/1  ")) <> Some 32.
Proof.
  split; [reflexivity|].
  exact (proj1 (proj2 (clean_name_is_tidy ascii_isspace ascii_isalnum
                         (of_string "  My  video: part/1  ") eq_refl))).
Defined.

Example clean_name_example :
  clean_name ascii_isspace ascii_isalnum (of_string "  My  video: part/1  ")
  = of_string "My video part1".
Proof. reflexivity. Qed.

End filename_facts.

(** ** Allowed origins *)

Module origin_facts.
Import PyStr filenames.

Lemma split_on_from_pieces (sep : nat) (piece s : list nat) :
  sep ∉ piece ->
  Forall (fun p => sep ∉ p) (split_on_from sep piece s).
Proof.
  revert piece. induction s as [|c s IH]; intros piece Hpiece; simpl.
  - by constructor.
  - destruct (Nat.eqb_spec c sep) as [->|Hc].
    + constructor; [done|]. apply IH, not_elem_of_nil.
    + apply IH. rewrite elem_of_app, list_elem_of_singleton.
      intros [?|?]; [done|]. by apply Hc.
Qed.

Lemma split_on_from_only_separators (isspace : nat -> bool)
    (piece s : list nat) :
  Forall (fun c => isspace c = true) piece ->
  Forall (fun c => c = 44 \/ isspace c = true) s ->
  Forall (Forall (fun c => isspace c = true)) (split_on_from 44 piece s).
Proof.
  intros Hpiece Hs. revert piece Hpiece.
  induction Hs as [|c s Hc _ IH]; intros piece Hpiece; simpl.
  - by constructor.
  - destruct (Nat.eqb_spec c 44) as [->|Hne].
    + constructor; [done|]. apply IH. constructor.
    + apply IH. apply Forall_app. split; [done|].
      constructor; [|constructor]. by destruct Hc.
Qed.

(** X22. [_parse_cors_origins] answers the single origin ["*"] for the
    empty string; for any other string every origin it returns is
    non-empty, holds no comma and neither starts nor ends with whitespace,
    and a string made only of commas and whitespace gives no origin at
    all. *)
Theorem parsed_origins_are_trimmed (isspace : nat -> bool)
    (cors_string : list nat) :
  (cors_string = [] /\ _parse_cors_origins isspace cors_string = [[42]])
  \/ (cors_string <> []
      /\ Forall (fun origin =>
              origin <> [] /\ (44 ∉ origin)
              /\ (forall c, head origin = Some c -> isspace c = false)
              /\ (forall c, last origin = Some c -> isspace c = false))
           (_parse_cors_origins isspace cors_string)
      /\ (Forall (fun c => c = 44 \/ isspace c = true) cors_string ->
          _parse_cors_origins isspace cors_string = [])).
Proof.
  destruct cors_string as [|c0 s]; [by left|]. right.
  split; [done|]. unfold _parse_cors_origins.
  set (pieces := split_on 44 (c0 :: s)).
  assert (Hpieces : Forall (fun p => 44 ∉ p) pieces).
  { apply split_on_from_pieces, not_elem_of_nil. }
  split.
  - apply Forall_forall. intros origin Horigin.
    apply list_elem_of_omap in Horigin as (piece & Hpiece & Hstrip).
    rewrite Forall_forall in Hpieces. specialize (Hpieces piece Hpiece).
    destruct (strip isspace piece) as [|a rest] eqn:Hs; [done|].
    injection Hstrip as <-. rewrite <- Hs.
    split; [by rewrite Hs|]. split; [|split].
    + intros Hin. by apply (string_facts.strip_subseteq isspace) in Hin.
    + apply string_facts.strip_head.
    + apply string_facts.strip_last.
  - intros Hall.
    pose proof (split_on_from_only_separators isspace [] (c0 :: s)
                  ltac:(constructor) Hall) as Hblank.
    fold (split_on 44 (c0 :: s)) in Hblank. fold pieces in Hblank.
    clearbody pieces. clear Hpieces.
    induction Hblank as [|p pieces Hp _ IH]; [done|].
    change (omap ?f (p :: pieces))
      with (match f p with Some y => y :: omap f pieces
                         | None => omap f pieces end).
    cbv beta. by rewrite (string_facts.strip_all_space isspace p Hp).
Qed.

Example parse_cors_origins_example :
  _parse_cors_origins ascii_isspace
    (of_string "http://localhost:3000, ,https://grabit.example ,")
  = [of_string "http://localhost:3000"; of_string "https://grabit.example"].
Proof. reflexivity. Qed.

End origin_facts.

(** ** Video types *)

Module extract_facts.
Import extract.

(** X23. [_detect_video_type] answers SHORTS exactly for an entry that is
    not live, was not live, is not an upcoming premiere and whose duration
    is present, not zero and at most 60; a live or formerly live entry is
    LIVE whatever its duration and live status. *)
Theorem shorts_need_a_short_duration (info : Info) :
  (_detect_video_type info = SHORTS
   <-> is_live info = false /\ was_live info = false
       /\ live_status info <> Some "is_upcoming"
       /\ exists d, duration info = Some d /\ d <> 0%Z /\ (d <= 60)%Z)
  /\ (_detect_video_type info = LIVE
      <-> is_live info = true \/ was_live info = true)
  /\ (_detect_video_type info = PREMIERE
      <-> is_live info = false /\ was_live info = false
          /\ live_status info = Some "is_upcoming").
Proof.
  unfold _detect_video_type.
  destruct (is_live info), (was_live info);
    try (split; [|split]; split; intros H; try discriminate; auto;
         [by destruct H as (? & ? & _)|by destruct H as (? & ? & _)]).
  case_bool_decide as Hup.
  { split; [|split]; split; intros H; try discriminate; auto.
    - by destruct H as (_ & _ & ? & _).
    - by destruct H. }
  assert (Hrest : forall t, t = SHORTS \/ t = VIDEO ->
            (t = LIVE <-> false = true \/ false = true)
            /\ (t = PREMIERE
                <-> false = false /\ false = false
                    /\ live_status info = Some "is_upcoming")).
  { intros t Ht. split; split; intros H.
    - destruct Ht; congruence.
    - by destruct H.
    - destruct Ht; congruence.
    - by destruct H as (_ & _ & ?). }
  destruct (duration info) as [d|].
  - destruct (Z.eqb_spec d 0) as [Hz|Hz], (Z.leb_spec d 60) as [Hle|Hle];
      simpl; (split; [|apply Hrest; auto]); split; intros H;
      try discriminate;
      try (destruct H as (_ & _ & _ & d' & [= <-] & ? & ?); lia).
    + split; [done|]. split; [done|]. split; [done|]. by exists d.
    + done.
  - split; [|apply Hrest; auto]. split; [done|].
    by intros (_ & _ & _ & d & ? & _).
Qed.

End extract_facts.
